(* ===== verification/_CoqProject ===== *)
-Q . S2P
Prelude.v
PyStr.v
Models.v
Http.v
Permissions.v
Serializers.v
Ordering.v
Views.v
Listing.v
Registration.v
Concurrency.v
Endpoints.v
Routing.v
Integrity.v
Constraints.v
Bounds.v
RoundTrip.v
Ownership.v
