(* ===== verification/Prelude.v ===== *)
(** * A verification development for the event_finder backend

    The program (src/backend) is a Django REST Framework backend for
    events, categories and attendee registrations.  Its parts:
    - event_app/models.py: three models, [Category], [Event] (status
      choices, nullable [category] with [on_delete=SET_NULL], [organizer]
      with [CASCADE], [max_attendees]) and [Attendance] ([CASCADE] on both
      keys, [unique_together = ['event', 'user']]);
    - event_app/serializers.py: the wire representation of each model
      ([attendees_count] computed per request, [category_name]) and the
      input validation ([UniqueTogetherValidator] on attendances);
    - event_app/views.py: three viewsets; [EventViewSet.get_queryset]
      filters on [category], [status] and [featured]; [perform_create]
      forces the organizer; [register] checks for a duplicate, then for
      capacity, then inserts; [AttendanceViewSet.get_queryset] shows staff
      every row and others their own; [my_events];
    - event_app/urls.py: a [DefaultRouter] with the three viewsets;
    - events/views.py: two older generic views.
    A request goes router -> viewset (permission check, [get_queryset],
    DRF's [filter_queryset], [get_object]) -> serializer -> ORM -> database.

    ** Files
    - Prelude.v (this file): the [Result] type of handlers that return
      early, with its monad instances and the [check b else e; k]
      notation (scope [ef_scope]); query sets over [gmap nat] tables
      ([qs_exists], [qs_count]) and their lemmas; the hint databases [ef]
      and [ef_rw]; the tactics [invc], [sub_tac], [simpl_res].
    - PyStr.v: the Python and Django string semantics the views depend on:
      truthiness, [str.lower], [str.split], [in], [int(str)] ([py_int], the
      CPython decimal grammar), [QueryDict.get] (last value wins).
      [show_nat] is [str(n)] as a loop with fuel; [py_int_of_show_nat]
      proves [int(str(n)) == n].
    - Models.v: Modules [User], [Category], [Event], [Attendance] (rows as
      Records, choices as Inductives with their stored strings, [__str__],
      [Event.touch] for [auto_now]);
      Module [DB]: the database (a [gmap nat] per table plus primary-key
      sequences), the related managers, the ORM writes (INSERT and UPDATE
      under the foreign keys and [unique_together], DELETE with each
      [on_delete] policy), the integrity invariant [DB.wf], its executable
      check [DB.wfb] ([wfb_sound]) and one preservation lemma per write;
      [delete_category_set_null], [delete_user_cascade].
    - Http.v: requests ([req_user], [req_method], [query_params]) and the
      exceptions a view raises ([APIError]) with their HTTP status.
    - Permissions.v: the interface Class [Permission] (a permission class
      and its law: an authenticated request always passes), instances for
      DRF's [IsAuthenticated] and [IsAuthenticatedOrReadOnly], and
      [check_permissions] (anonymous -> [NotAuthenticated]).
    - Serializers.v: [UserSerializer], [CategorySerializer],
      [EventSerializer], [AttendanceSerializer] ([to_representation],
      [validate]), [EventInput] and [CategoryInput] (the field checks DRF
      derives from the model fields).
    - Ordering.v: DRF's [OrderingFilter]: [get_ordering] (split
      [?ordering=] on commas, strip, drop the terms whose field is not in
      [ordering_fields]) and [order_by] (stdpp's stable [merge_sort] under
      the lexicographic comparison of the terms' columns, [-] reversing
      one).  Section [comparators] shows the comparison is a total
      preorder, so the output is sorted ([order_by_sorted]) and a
      permutation of the input ([order_by_Permutation]).
    - Views.v: Modules [EventViewSet], [AttendanceViewSet],
      [CategoryViewSet], [LegacyEventViews]; DRF's [SearchFilter] and
      [get_object]; [list_rows] runs both filter backends.  A handler returns [Result APIError Response] with the
      database after the request.  [EventViewSet.register] is split into
      [register_check] (views.py lines 43-56, reads only) and
      [register_commit] (lines 50-60, the one write).
    - Listing.v: what the list endpoints return: the search keeps
      exactly the rows in which every term is a case-insensitive
      substring of a search field ([events_search]); [?ordering=f] and
      [-f] sort by column [f] ([events_ordering]); terms naming other
      fields are dropped silently ([events_ordering_invalid]).
    - Registration.v: the behaviour of [register] on every branch, its
      invariants ([DB.wf], capacity), registering twice, the spec's
      example, and the places where the capacity rule departs from the
      spec (a limit of 0 is no limit; cancelled rows count, since the
      count is of every row of the event).
    - Concurrency.v: several registrations in flight, as a step relation
      on configurations (database + one [Thread] per request); running a
      request without interleaving is [register]; [DB.wf] and
      so at most one row per [(event, user)] hold in every reachable
      configuration; a concrete interleaving overbooks an event.
    - Endpoints.v: the list filters, who sees which attendance rows,
      [perform_create], and the generic endpoints' departures from the
      spec (organizer reassignable, [organizer_id] required, capacity
      bypass through [POST /attendances/]).
    - Routing.v: Module [Router]: the URL patterns [DefaultRouter] builds
      for urls.py (list, list actions, detail, detail actions, the API
      root, each with its format-suffixed copy) as token lists read by
      [match_tokens]; [resolve] (first match) and [reverse]; [dispatch]:
      content negotiation on the format, the method map of each route
      ([head] falls back to [get]), the handler of Views.v it reaches,
      [OPTIONS], and 405 after the permission check.  Theorems: both
      round trips between [resolve] and [reverse], the endpoint table
      ([dispatch_event_endpoints]: each URL and method of the events and
      attendances API reaches the named handler of views.py), safe
      methods never write
      ([dispatch_safe_read_only]), and [GET] on the register URL;
      [serve] runs a sequence of requests.
    - Integrity.v: Section [api_invariant]: for any predicate [P] on the
      database that every handler which writes keeps (one Hypothesis per
      handler), [run], [dispatch] and [serve] keep [P].  Instantiated
      with [DB.wf] through one lemma per handler and branch: any
      sequence of requests served by the router keeps the integrity
      invariant ([serve_wf]).
    - Constraints.v: the views' checks against the database's: the
      attendance serializer's [is_valid()] refines the foreign keys and
      [unique_together] of the [INSERT] and [UPDATE] it guards
      ([attendance_validation_refines]), and, served one at a time from
      a well-formed database with callers that are users, no request
      answers an [IntegrityError] or a failed serialization: the only
      500 is the [ValueError] of [?category=] ([serve_server_errors]).
      One lemma per handler ([server_ok]), the [server_bind] tactic and
      the [server] hint database for the steps that fail with a client
      error, and [dispatch_wf_users]: no request changes the [User]
      table.
    - Bounds.v: Section [columns]: for a predicate on every category row
      and one on every event row ([columns_ok]) that the serializers'
      writes keep, every handler keeps it, and so does [serve]
      ([serve_columns], through [serve_preserves]).  Two instances: the
      column limits of models.py that SQLite does not enforce
      ([DB.bounded]: name 100, title and location 200 characters,
      [max_attendees] at most 2147483647; [serve_bounded]), and text
      columns stripped by [trim_whitespace] and, without [blank=True],
      non-empty ([db_trimmed]; [serve_trimmed], which rests on
      [str.strip()] being idempotent, PyStr.v).
    - RoundTrip.v: a client echoing the JSON of [GET /events/{pk}/]
      ([EventInput.of_representation]): with [PATCH] it is the same
      request as [PATCH {}], which only sets [updated_at]
      ([event_patch_roundtrip], on rows satisfying the three invariants
      above); with [PUT] it is refused for the missing write-only
      [organizer_id] ([event_put_roundtrip_refused]).
    - Ownership.v: whose rows a caller can change: a non-staff caller's
      attendance writes leave other users' rows as they were
      ([attendance_writes_own_rows]); any authenticated caller deletes
      any event with every registration for it
      ([event_destroy_any_caller]) and any category, leaving its events
      uncategorised ([category_destroy_any_caller]).

    ** Choices
    - Tables are [gmap nat row]: a query set is a sub-map, [.filter()] is
      [filter], [.count()] is [size], [.exists()] is non-emptiness.  Row
      order matters only in the list responses: there the query set is
      listed in the order of [map_to_list], an order fixed by the map but
      not numeric key order, and [OrderingFilter] sorts it stably; so the
      relative order of rows equal on every ordering column is left
      unspecified, as SQL leaves it without an [ORDER BY] on a unique
      column, and no theorem depends on it.  Columns compare as SQLite's [BINARY]
      collation does (numbers numerically, text byte-wise).
    - No fuel is needed: every handler is non-recursive.  The Python
      helpers are structural; [show_nat] takes [S n] steps of fuel, which
      is enough since each step divides by 10 ([show_nat_fuel_nonempty]
      and [py_int_of_show_nat] use exactly that bound).
    - A regular expression of the router is a token list; each of its
      groups ([[^/.]+], [[a-z0-9]+]) is followed by a character it cannot
      hold, so greedy matching is the regex semantics without
      backtracking.  The round trip is stated for numeric keys ([pk]s
      are integers): a [pk] like [my_events] would be captured by the
      list action that precedes the detail route.
    - Strings are Rocq strings of bytes; [str.lower], [isspace] and
      [__icontains] are modelled on ASCII.  For the one comparison the
      views make ([featured.lower() == 'true']) this is exact: no
      non-ASCII character lower-cases to one of [t], [r], [u], [e].
    - [NotAuthenticated] is answered 403: with DRF's default
      authentication classes the first is [SessionAuthentication].
    - [PositiveIntegerField] accepts [0, 2147483647] (Django's base
      backend range).  DRF's [SearchFilter] splits terms on whitespace
      and commas (DRF 3.14 and earlier).
    - Timestamps are naturals supplied by the request ([req_now]).

    ** Not modelled
    - Django's [APPEND_SLASH] redirect (a setting of the project, not of
      this app), response rendering, and the project-level URL prefix
      under which urls.py is included: paths are relative to it.
    - Authentication, sessions, image upload storage, migrations, HTTP
      content negotiation, pagination (none is configured): framework.
    - The [User] table is only read and cascaded; users are created by
      [django.contrib.auth].

    - The serializers' [DateTimeField] parsing and [ImageField] upload
      content: values arrive parsed (naturals, an optional path).
    - events/views.py's generic handlers: the serializer and model it
      imports (events/serializers.py, events/models.py) are not among
      the sources; only its query sets are modelled, over event_app's
      [Event] as the spec reads it, and no theorem is stated about them.

    ** Open ends
    - The capacity rule holds for [register] alone ([register_capacity_ok]).
      It fails through [POST /attendances/] ([attendance_create_any_user])
      and interleaved registrations ([concurrent_register_overbooks]);
      nothing relates a [PATCH] of [max_attendees] to the row count
      either, so no capacity law holds of [serve]. *)

From stdpp Require Export base decidable list gmap strings.
From stdpp Require Import fin_maps.

(** This file holds what every component shares: the result type used
    for the code's early returns, the query-set vocabulary ([qs_exists],
    [qs_count]) over tables kept as [gmap nat _], the development's
    notation scope, tactics and the hint database [ef]. *)

Declare Scope ef_scope.
Delimit Scope ef_scope with ef.
Open Scope ef_scope.

Create HintDb ef.
Create Rewrite HintDb ef_rw.

(** ** Results: a value or an error, the shape of a handler that returns
    early on a failed check. *)

Inductive Result (E A : Type) : Type :=
| Ok (a : A)
| Err (e : E).
Arguments Ok {E A} a.
Arguments Err {E A} e.

#[export] Instance result_ret E : MRet (Result E) := λ A a, Ok a.
#[export] Instance result_bind E : MBind (Result E) :=
  λ A B f r, match r with Ok a => f a | Err e => Err e end.

(** [guard_or e b]: continue when [b] holds, otherwise fail with [e];
    it reads like the [if cond: return error] lines of the views. *)
Definition guard_or {E} (e : E) (b : bool) : Result E unit :=
  if b then Ok () else Err e.

Notation "'check' b 'else' e ; k" := (guard_or e b ≫= λ _, k)
  (at level 100, b at level 80, e at level 80, right associativity) : ef_scope.

(** ** Query sets.  A Django query set over one table is the sub-map of
    rows that pass its filters; [.exists()] and [.count()] read it. *)

Definition qs_exists {A} (m : gmap nat A) : bool := negb (bool_decide (m = ∅)).
Definition qs_count {A} (m : gmap nat A) : nat := size m.

Section result_lemmas.
Context {E A B : Type}.

Lemma bind_Ok_iff (r : Result E A) (f : A → Result E B) b :
  (r ≫= f) = Ok b ↔ ∃ a, r = Ok a ∧ f a = Ok b.
Proof. destruct r; simpl; split; naive_solver. Qed.

Lemma bind_Err_iff (r : Result E A) (f : A → Result E B) e :
  (r ≫= f) = Err e ↔ r = Err e ∨ ∃ a, r = Ok a ∧ f a = Err e.
Proof. destruct r; simpl; split; naive_solver. Qed.

Lemma bind_Ok_l (a : A) (f : A → Result E B) : (Ok a ≫= f) = f a.
Proof. done. Qed.

Lemma bind_Err_l (e : E) (f : A → Result E B) : (Err e ≫= f) = Err e.
Proof. done. Qed.

Lemma guard_or_true (e : E) (k : unit → Result E B) :
  (guard_or e true ≫= k) = k ().
Proof. done. Qed.

Lemma guard_or_false (e : E) (k : unit → Result E B) :
  (guard_or e false ≫= k) = Err e.
Proof. done. Qed.
End result_lemmas.

#[export] Hint Rewrite @bind_Ok_l @bind_Err_l @guard_or_true @guard_or_false : ef_rw.

Section qs_lemmas.
Context {A : Type} (P : nat * A → Prop) `{!∀ x, Decision (P x)}.
Implicit Types m : gmap nat A.

Lemma qs_exists_spec m :
  qs_exists (filter P m) = true ↔ ∃ i x, m !! i = Some x ∧ P (i, x).
Proof.
  unfold qs_exists. rewrite negb_true_iff, bool_decide_eq_false.
  rewrite map_empty_filter, map_Forall_lookup. split.
  - intros Hall. apply dec_stable. intros Hn. apply Hall.
    intros i x Hi HP. apply Hn. eauto.
  - intros (i & x & Hi & HP) Hall. by eapply Hall.
Qed.

Lemma qs_exists_false m :
  qs_exists (filter P m) = false ↔ ∀ i x, m !! i = Some x → ¬ P (i, x).
Proof.
  rewrite <- not_true_iff_false, qs_exists_spec. naive_solver.
Qed.

(** Inserting a fresh row changes the count of a filter by one exactly
    when the row passes it. *)
Lemma qs_count_insert_fresh m i x :
  m !! i = None →
  qs_count (filter P (<[i:=x]> m)) =
    if decide (P (i, x)) then S (qs_count (filter P m)) else qs_count (filter P m).
Proof.
  intros Hi. unfold qs_count. rewrite map_filter_insert.
  case_decide.
  - apply map_size_insert_None. apply map_lookup_filter_None. by left.
  - by rewrite delete_id.
Qed.

Lemma qs_count_le m : qs_count (filter P m) ≤ size m.
Proof. apply map_subseteq_size, map_filter_subseteq. Qed.
End qs_lemmas.

(** ** Tactics *)

(** [invc H]: invert and clean up. *)
Ltac invc H := inversion H; subst; clear H.

(** [sub_tac]: close the side goals of a lemma about a sub-table: the
    table is a [delete] or a [filter] of the original, or an assumption. *)
Ltac sub_tac :=
  solve [apply delete_subseteq | apply map_filter_subseteq | assumption].

(** [simpl_res]: split every [bind = Ok _] hypothesis into its steps and
    every [guard_or] into the condition it checked. *)
Ltac simpl_res :=
  repeat match goal with
  | H : (_ ≫= _) = Ok _ |- _ =>
      apply bind_Ok_iff in H; destruct H as (? & ? & ?)
  | H : guard_or _ ?b = Ok _ |- _ =>
      destruct b eqn:?; simpl in H; [clear H | discriminate H]
  | H : Ok _ = Ok _ |- _ => injection H; clear H; intros; subst
  | H : negb _ = true |- _ => apply negb_true_iff in H
  | H : _ && _ = true |- _ => apply andb_true_iff in H; destruct H
  | H : Err _ = Ok _ |- _ => discriminate H
  | H : Ok _ = Err _ |- _ => discriminate H
  end.
