(* ===== verification/PyStr.v ===== *)
(** * PyStr: the Python and Django string semantics the views depend on

    [EventViewSet.get_queryset] reads query parameters with
    [QueryDict.get], tests them with Python truthiness ([if category:]),
    compares [featured.lower() == 'true'], and passes [category] to
    [filter(category__id=category)], where Django converts it with
    [int(value)].  This file models those operations on ASCII strings:
    [py_truthy], [py_lower], [py_int] (CPython's decimal [int(str)]
    grammar: surrounding whitespace, an optional sign, digits with single
    underscores between them) and [qd_get] ([MultiValueDict.get], which
    returns the last value given for a key).  [show_nat] is not code of
    the program: it writes a key in decimal as a client puts it in a URL
    or a query string, with [S n] steps of fuel (each step divides by
    10, so the loop ends well before); [py_int_of_show_nat] is the round
    trip through the views' [int()]. *)

From S2P Require Import Prelude.
From Stdlib Require Import Ascii String.

(** ** Truthiness and case *)

(** [if s:] on a value of [request.query_params.get(key, None)]. *)
Definition py_truthy (o : option string) : bool :=
  match o with
  | Some s => negb (bool_decide (s = ""%string))
  | None => false
  end.

(** [str.lower] on one ASCII character: only ['A'..'Z'] change. *)
Definition ascii_lower (c : ascii) : ascii :=
  let n := nat_of_ascii c in
  if (65 <=? n) && (n <=? 90) then ascii_of_nat (n + 32) else c.

Definition py_lower (s : string) : string :=
  string_of_list_ascii (map ascii_lower (list_ascii_of_string s)).

(** ** [int(str)] *)

(** [str.isspace] on ASCII: tab, line feed, vertical tab, form feed,
    carriage return, the file/group/record/unit separators and space. *)
Definition py_isspace (c : ascii) : bool :=
  let n := nat_of_ascii c in
  ((9 <=? n) && (n <=? 13)) || ((28 <=? n) && (n <=? 32)).

(** [str.lstrip()] *)
Fixpoint py_lstrip (l : list ascii) : list ascii :=
  match l with
  | c :: l' => if py_isspace c then py_lstrip l' else l
  | [] => []
  end.

(** [str.strip()] *)
Definition py_strip (l : list ascii) : list ascii := rev (py_lstrip (rev (py_lstrip l))).

Definition digit_val (c : ascii) : option nat :=
  let n := nat_of_ascii c in
  if (48 <=? n) && (n <=? 57) then Some (n - 48) else None.

(** The scanner state: the value so far, and whether the last character
    was an underscore or nothing has been read yet (then neither an
    underscore nor the end of input may follow). *)
Definition int_step (st : option (nat * bool)) (c : ascii) : option (nat * bool) :=
  match st with
  | None => None
  | Some (acc, fresh) =>
      match digit_val c with
      | Some d => Some (acc * 10 + d, false)
      | None => if bool_decide (c = "_"%char) && negb fresh then Some (acc, true) else None
      end
  end.

Definition parse_decimal (l : list ascii) : option nat :=
  match foldl int_step (Some (0, true)) l with
  | Some (acc, false) => Some acc
  | _ => None
  end.

(** [int(s)] for a [str] in base 10; [None] is the [ValueError]. *)
Definition py_int (s : string) : option Z :=
  match py_strip (list_ascii_of_string s) with
  | "-"%char :: l => (λ n, (- Z.of_nat n)%Z) <$> parse_decimal l
  | "+"%char :: l => Z.of_nat <$> parse_decimal l
  | l => Z.of_nat <$> parse_decimal l
  end.

(** ** Splitting and searching *)

(** [str.split()] with no separator: runs of whitespace separate the
    words, and no word is empty. *)
Fixpoint split_words (l : list ascii) (cur : list ascii) : list (list ascii) :=
  match l with
  | [] => if bool_decide (cur = []) then [] else [rev cur]
  | c :: l' =>
      if py_isspace c
      then (if bool_decide (cur = []) then [] else [rev cur]) ++ split_words l' []
      else split_words l' (c :: cur)
  end.

Definition py_split (s : string) : list string :=
  string_of_list_ascii <$> split_words (list_ascii_of_string s) [].

(** [s.replace(old_char, new_char)] for one-character arguments. *)
Definition py_replace_char (old new : ascii) (s : string) : string :=
  string_of_list_ascii
    (map (λ c, if bool_decide (c = old) then new else c) (list_ascii_of_string s)).

(** [needle in hay] *)
Fixpoint is_prefix (p l : list ascii) : bool :=
  match p, l with
  | [], _ => true
  | c :: p', d :: l' => bool_decide (c = d) && is_prefix p' l'
  | _ :: _, [] => false
  end.

Fixpoint contains_list (hay needle : list ascii) : bool :=
  is_prefix needle hay ||
  match hay with [] => false | _ :: hay' => contains_list hay' needle end.

Definition py_contains (hay needle : string) : bool :=
  contains_list (list_ascii_of_string hay) (list_ascii_of_string needle).

(** Django's [__icontains] lookup, compared on ASCII case-folded text. *)
Definition icontains (hay needle : string) : bool :=
  py_contains (py_lower hay) (py_lower needle).

(** ** Decimal printing *)

Definition digit_char (d : nat) : ascii := ascii_of_nat (48 + d).

Fixpoint show_nat_fuel (fuel n : nat) : list ascii :=
  match fuel with
  | 0 => []
  | S f => (if n <? 10 then [] else show_nat_fuel f (n / 10)) ++ [digit_char (n mod 10)]
  end.

(** [str(n)] for [n >= 0]; [S n] digits of fuel are always enough. *)
Definition show_nat (n : nat) : string := string_of_list_ascii (show_nat_fuel (S n) n).

(** ** [QueryDict.get(key, None)]: the last value given for [key]. *)
Definition qd_get (key : string) (params : list (string * string)) : option string :=
  last (snd <$> filter (λ kv, kv.1 = key) params).

(** A decimal digit. *)
Definition is_digit_char (c : ascii) : Prop := ∃ d, d < 10 ∧ c = digit_char d.

(** ** Facts *)

Lemma digit_val_digit_char d : d < 10 → digit_val (digit_char d) = Some d.
Proof. intros Hd. do 10 (destruct d as [|d]; [reflexivity|]). lia. Qed.

Lemma py_isspace_digit_char d : d < 10 → py_isspace (digit_char d) = false.
Proof. intros Hd. do 10 (destruct d as [|d]; [reflexivity|]). lia. Qed.

Lemma show_nat_fuel_digits fuel n : Forall is_digit_char (show_nat_fuel fuel n).
Proof.
  revert n. induction fuel as [|f IH]; intros n; simpl; [constructor|].
  apply Forall_app; split.
  - destruct (n <? 10); [constructor | apply IH].
  - constructor; [|constructor]. exists (n mod 10). split; [|done].
    apply Nat.mod_upper_bound. lia.
Qed.

Lemma show_nat_fuel_nonempty fuel n : 0 < fuel → show_nat_fuel fuel n ≠ [].
Proof. destruct fuel; [lia|]. intros _ Hnil. by apply app_nil in Hnil as [_ ?]. Qed.

Lemma int_step_digit acc fresh d :
  d < 10 → int_step (Some (acc, fresh)) (digit_char d) = Some (acc * 10 + d, false).
Proof. intros Hd. unfold int_step. by rewrite digit_val_digit_char. Qed.

(** The scan of [str(n)] ends in state [(n, digit read)]. *)
Lemma show_nat_fuel_scan fuel n :
  n < fuel → foldl int_step (Some (0, true)) (show_nat_fuel fuel n) = Some (n, false).
Proof.
  revert n. induction fuel as [|f IH]; intros n Hn; [lia|].
  cbn [show_nat_fuel]. rewrite foldl_app. cbn [foldl].
  assert (Hm : n mod 10 < 10) by (apply Nat.mod_upper_bound; lia).
  destruct (Nat.ltb_spec n 10) as [Hlt|Hge].
  - cbn [foldl]. rewrite int_step_digit by done.
    rewrite Nat.mod_small by done. done.
  - rewrite IH, int_step_digit by (try assert (n / 10 < n) by (apply Nat.div_lt; lia); lia).
    pose proof (Nat.div_mod_eq n 10). do 2 f_equal. lia.
Qed.

Lemma py_lstrip_digits l : Forall is_digit_char l → py_lstrip l = l.
Proof.
  destruct l as [|c l]; [done|]. intros Hl. apply Forall_cons in Hl as [[d [Hd ->]] _].
  cbn [py_lstrip]. by rewrite py_isspace_digit_char.
Qed.

(** [str.strip()] is idempotent: its result neither starts nor ends
    with whitespace. *)
Lemma py_lstrip_head l c : head (py_lstrip l) = Some c → py_isspace c = false.
Proof.
  induction l as [|d l IH]; [done|]. cbn [py_lstrip].
  destruct (py_isspace d) eqn:Hd; [done|]. by intros [= <-].
Qed.

Lemma py_lstrip_id l : (∀ c, head l = Some c → py_isspace c = false) → py_lstrip l = l.
Proof. destruct l as [|c l]; [done|]. intros H. cbn [py_lstrip]. by rewrite (H c). Qed.

Lemma py_lstrip_idem l : py_lstrip (py_lstrip l) = py_lstrip l.
Proof. apply py_lstrip_id, py_lstrip_head. Qed.

Lemma py_lstrip_snoc m c : py_isspace c = false → ∃ m', py_lstrip (m ++ [c]) = m' ++ [c].
Proof.
  intros Hc. induction m as [|d m IH]; simpl.
  - rewrite Hc. by exists [].
  - destruct (py_isspace d); [done|]. by exists (d :: m).
Qed.

(** Stripping the end keeps a head that is not whitespace. *)
Lemma py_rstrip_head l :
  (∀ c, head l = Some c → py_isspace c = false) →
  ∀ c, head (rev (py_lstrip (rev l))) = Some c → py_isspace c = false.
Proof.
  destruct l as [|c l]; [done|]. intros H.
  destruct (py_lstrip_snoc (rev l) c (H c eq_refl)) as [m' Hm]. simpl. rewrite Hm, rev_unit.
  intros ? [= <-]. by apply H.
Qed.

Lemma py_strip_idem l : py_strip (py_strip l) = py_strip l.
Proof.
  unfold py_strip at 1. rewrite (py_lstrip_id (py_strip l)).
  - unfold py_strip. by rewrite rev_involutive, py_lstrip_idem.
  - apply py_rstrip_head, py_lstrip_head.
Qed.

Lemma py_strip_digits l : Forall is_digit_char l → py_strip l = l.
Proof.
  intros Hl. unfold py_strip. rewrite (py_lstrip_digits l Hl).
  rewrite py_lstrip_digits; [apply rev_involutive|]. by apply Forall_rev.
Qed.

Lemma py_int_digits l :
  Forall is_digit_char l → py_int (string_of_list_ascii l) = Z.of_nat <$> parse_decimal l.
Proof.
  intros Hl. unfold py_int. rewrite list_ascii_of_string_of_list_ascii, py_strip_digits by done.
  destruct l as [|c l']; [done|].
  apply Forall_cons in Hl as [[d [Hd ->]] _].
  do 10 (destruct d as [|d]; [reflexivity|]). lia.
Qed.

(** [int(str(n)) == n]. *)
Lemma py_int_of_show_nat n : py_int (show_nat n) = Some (Z.of_nat n).
Proof.
  unfold show_nat. rewrite py_int_digits by apply show_nat_fuel_digits.
  unfold parse_decimal. rewrite show_nat_fuel_scan by lia. done.
Qed.

Lemma show_nat_nonempty n : show_nat n ≠ ""%string.
Proof.
  unfold show_nat. pose proof (show_nat_fuel_nonempty (S n) n ltac:(lia)) as Hne.
  destruct (show_nat_fuel (S n) n); [done|discriminate].
Qed.


