(* ===== verification/Models.v ===== *)
(** * Models: the schema of [event_app/models.py] and the database

    One Module per Django model ([User] from [django.contrib.auth],
    [Category], [Event], [Attendance]) holds the row as a Record, the
    [choices] enums as Inductive types with their stored strings, and
    the model's [__str__].  Module [DB] holds the database: one table per
    model as a [gmap nat] from primary key to row, the primary-key
    sequences, the related managers ([event.attendances],
    [user.organized_events], [user.event_attendances]), the writes the
    ORM issues (INSERT with the [unique_together] and foreign-key
    constraints, UPDATE, DELETE with the [on_delete] policies declared on
    each [ForeignKey]) and the integrity invariant [DB.wf] every write
    preserves. *)

From S2P Require Import Prelude.

(** Timestamps ([DateTimeField]) are kept abstract as a count of seconds. *)
Definition Timestamp := nat.

(** ** [django.contrib.auth.models.User]: the fields the app reads. *)
Module User.
Record t := mk {
  username : string;
  email : string;
  first_name : string;
  last_name : string;
  is_staff : bool
}.
End User.

(** ** [class Category(models.Model)] *)
Module Category.
Record t := mk {
  name : string;                 (* CharField(max_length=100) *)
  description : option string    (* TextField(blank=True, null=True) *)
}.

Definition name_max_length : nat := 100.

(** The column limit of a row: [max_length] of [name]. *)
Definition bounded (c : t) : Prop := String.length (name c) ≤ name_max_length.

(** [def __str__(self): return self.name] *)
Definition __str__ (c : t) : string := name c.
End Category.

(** ** [class Event(models.Model)] *)
Module Event.
(** [STATUS_CHOICES] *)
Inductive Status := upcoming | ongoing | completed | cancelled.

#[export] Instance Status_eq_dec : EqDecision Status.
Proof. solve_decision. Defined.

(** The value stored in the [status] column, and the human label. *)
Definition status_value (s : Status) : string :=
  match s with
  | upcoming => "upcoming" | ongoing => "ongoing"
  | completed => "completed" | cancelled => "cancelled"
  end.

Definition status_label (s : Status) : string :=
  match s with
  | upcoming => "Upcoming" | ongoing => "Ongoing"
  | completed => "Completed" | cancelled => "Cancelled"
  end.

Definition STATUS_CHOICES : list (string * string) :=
  map (λ s, (status_value s, status_label s)) [upcoming; ongoing; completed; cancelled].

(** A [ChoiceField] accepts exactly the stored values of the choices. *)
Definition status_of_value (v : string) : option Status :=
  snd <$> list_find (λ s, status_value s = v) [upcoming; ongoing; completed; cancelled].

Record t := mk {
  title : string;               (* CharField(max_length=200) *)
  description : string;         (* TextField() *)
  location : string;            (* CharField(max_length=200) *)
  start_date : Timestamp;
  end_date : Timestamp;
  created_at : Timestamp;       (* auto_now_add=True *)
  updated_at : Timestamp;       (* auto_now=True *)
  image : option string;        (* ImageField(blank=True, null=True) *)
  organizer : nat;              (* ForeignKey(User, on_delete=CASCADE) *)
  category : option nat;        (* ForeignKey(Category, on_delete=SET_NULL, null=True) *)
  status : Status;              (* default='upcoming' *)
  is_featured : bool;           (* default=False *)
  max_attendees : option nat    (* PositiveIntegerField(null=True, blank=True) *)
}.

Definition title_max_length : nat := 200.
Definition location_max_length : nat := 200.

(** The upper end of a [PositiveIntegerField]: [2147483647], Django's
    [integer_field_ranges] for it on the base backend (kept as [Z]). *)
Definition max_attendees_max : Z := 2147483647.

(** The column limits of a row: [max_length] of [title] and [location],
    the range of [max_attendees]. *)
Definition bounded (e : t) : Prop :=
  String.length (title e) ≤ title_max_length ∧
  String.length (location e) ≤ location_max_length ∧
  ∀ m, max_attendees e = Some m → (Z.of_nat m ≤ max_attendees_max)%Z.

(** [def __str__(self): return self.title] *)
Definition __str__ (e : t) : string := title e.

(** The column names of the model, used to resolve [order_by] fields. *)
Definition field_names : list string :=
  ["id"; "title"; "description"; "location"; "start_date"; "end_date";
   "created_at"; "updated_at"; "image"; "organizer"; "category"; "status";
   "is_featured"; "max_attendees"].

(** Setters for the columns the ORM rewrites outside a full save. *)
Definition set_category (c : option nat) (e : t) : t :=
  mk (title e) (description e) (location e) (start_date e) (end_date e)
     (created_at e) (updated_at e) (image e) (organizer e) c (status e)
     (is_featured e) (max_attendees e).

(** [save()] with every column as it was: [auto_now] still sets
    [updated_at] to the time of the save. *)
Definition touch (now : Timestamp) (e : t) : t :=
  mk (title e) (description e) (location e) (start_date e) (end_date e)
     (created_at e) now (image e) (organizer e) (category e) (status e)
     (is_featured e) (max_attendees e).
End Event.

(** ** [class Attendance(models.Model)] *)
Module Attendance.
(** [ATTENDANCE_STATUS] *)
Inductive Status := registered | attended | cancelled.

#[export] Instance Status_eq_dec : EqDecision Status.
Proof. solve_decision. Defined.

Definition status_value (s : Status) : string :=
  match s with
  | registered => "registered" | attended => "attended" | cancelled => "cancelled"
  end.

Definition status_of_value (v : string) : option Status :=
  if decide (v = "registered") then Some registered
  else if decide (v = "attended") then Some attended
  else if decide (v = "cancelled") then Some cancelled
  else None.

Record t := mk {
  event : nat;                 (* ForeignKey(Event, on_delete=CASCADE) *)
  user : nat;                  (* ForeignKey(User, on_delete=CASCADE) *)
  status : Status;             (* default='registered' *)
  registered_at : Timestamp    (* auto_now_add=True *)
}.

(** [return f"{self.user.username} - {self.event.title}"] *)
Definition __str__ (u : User.t) (e : Event.t) : string :=
  User.username u +:+ " - " +:+ Event.title e.
End Attendance.

(** ** The database *)
Module DB.
(** One table per model, keyed by primary key, and the primary-key
    sequences of the tables this app inserts into.  Users are created
    by [django.contrib.auth], outside this app. *)
Record t := mk {
  users : gmap nat User.t;
  categories : gmap nat Category.t;
  events : gmap nat Event.t;
  attendances : gmap nat Attendance.t;
  seq_category : nat;
  seq_event : nat;
  seq_attendance : nat
}.

(** What the database raises on a write that breaks a constraint. *)
Inductive IntegrityError := UniqueViolation | ForeignKeyViolation.

(** *** Related managers and query sets *)

(** [event.attendances] ([related_name='attendances']) *)
Definition event_attendances (db : t) (e : nat) : gmap nat Attendance.t :=
  filter (λ kv : nat * Attendance.t, Attendance.event kv.2 = e) (attendances db).

(** [user.event_attendances], i.e. [Attendance.objects.filter(user=user)] *)
Definition user_attendances (db : t) (u : nat) : gmap nat Attendance.t :=
  filter (λ kv : nat * Attendance.t, Attendance.user kv.2 = u) (attendances db).

(** [user.organized_events] *)
Definition organized_events (db : t) (u : nat) : gmap nat Event.t :=
  filter (λ kv : nat * Event.t, Event.organizer kv.2 = u) (events db).

(** [Attendance.objects.filter(event=event, user=user)] *)
Definition attendance_of (db : t) (e u : nat) : gmap nat Attendance.t :=
  filter (λ kv : nat * Attendance.t,
            Attendance.event kv.2 = e ∧ Attendance.user kv.2 = u) (attendances db).

(** Whether event [e] exists and is organized by user [u]. *)
Definition organized_by (db : t) (u e : nat) : bool :=
  match events db !! e with
  | Some ev => bool_decide (Event.organizer ev = u)
  | None => false
  end.

(** *** Writes *)

Definition set_attendances (m : gmap nat Attendance.t) (db : t) : t :=
  mk (users db) (categories db) (events db) m
     (seq_category db) (seq_event db) (seq_attendance db).

(** The foreign keys of an attendance row point at existing rows. *)
Definition attendance_fk_ok (db : t) (a : Attendance.t) : bool :=
  bool_decide (is_Some (events db !! Attendance.event a)) &&
  bool_decide (is_Some (users db !! Attendance.user a)).

Definition event_fk_ok (db : t) (e : Event.t) : bool :=
  bool_decide (is_Some (users db !! Event.organizer e)) &&
  match Event.category e with
  | Some c => bool_decide (is_Some (categories db !! c))
  | None => true
  end.

(** [Attendance.objects.create(...)]: an INSERT under the foreign keys
    and [unique_together = ['event', 'user']]; the new row takes the
    next value of the sequence. *)
Definition insert_attendance (a : Attendance.t) (db : t)
    : Result IntegrityError (nat * t) :=
  check attendance_fk_ok db a else ForeignKeyViolation;
  check negb (qs_exists (attendance_of db (Attendance.event a) (Attendance.user a)))
    else UniqueViolation;
  let pk := seq_attendance db in
  Ok (pk, mk (users db) (categories db) (events db) (<[pk := a]> (attendances db))
             (seq_category db) (seq_event db) (S pk)).

(** [attendance.save()] on an existing row: an UPDATE, under the same
    constraints, where the row itself does not count as a duplicate. *)
Definition update_attendance (pk : nat) (a : Attendance.t) (db : t)
    : Result IntegrityError t :=
  check attendance_fk_ok db a else ForeignKeyViolation;
  check negb (qs_exists (filter (λ kv : nat * Attendance.t, kv.1 ≠ pk)
                (attendance_of db (Attendance.event a) (Attendance.user a))))
    else UniqueViolation;
  Ok (set_attendances (<[pk := a]> (attendances db)) db).

(** [Event.objects.create(...)] / [serializer.save()] of a new event. *)
Definition insert_event (e : Event.t) (db : t) : Result IntegrityError (nat * t) :=
  check event_fk_ok db e else ForeignKeyViolation;
  let pk := seq_event db in
  Ok (pk, mk (users db) (categories db) (<[pk := e]> (events db)) (attendances db)
             (seq_category db) (S pk) (seq_attendance db)).

(** [event.save()] on an existing row. *)
Definition update_event (pk : nat) (e : Event.t) (db : t) : Result IntegrityError t :=
  check event_fk_ok db e else ForeignKeyViolation;
  Ok (mk (users db) (categories db) (<[pk := e]> (events db)) (attendances db)
         (seq_category db) (seq_event db) (seq_attendance db)).

Definition insert_category (c : Category.t) (db : t) : nat * t :=
  let pk := seq_category db in
  (pk, mk (users db) (<[pk := c]> (categories db)) (events db) (attendances db)
          (S pk) (seq_event db) (seq_attendance db)).

Definition update_category (pk : nat) (c : Category.t) (db : t) : t :=
  mk (users db) (<[pk := c]> (categories db)) (events db) (attendances db)
     (seq_category db) (seq_event db) (seq_attendance db).

(** *** Deletes, with the [on_delete] policy of every foreign key *)

Definition delete_attendance (pk : nat) (db : t) : t :=
  set_attendances (delete pk (attendances db)) db.

(** [Attendance.event]: [on_delete=models.CASCADE]. *)
Definition delete_event (pk : nat) (db : t) : t :=
  mk (users db) (categories db) (delete pk (events db))
     (filter (λ kv : nat * Attendance.t, Attendance.event kv.2 ≠ pk) (attendances db))
     (seq_category db) (seq_event db) (seq_attendance db).

(** [Event.category]: [on_delete=models.SET_NULL].  The collector runs
    an [UPDATE ... SET category_id = NULL], which leaves [updated_at]
    alone ([auto_now] acts on [save()] only). *)
Definition delete_category (pk : nat) (db : t) : t :=
  mk (users db) (delete pk (categories db))
     ((λ e, if decide (Event.category e = Some pk) then Event.set_category None e else e)
        <$> events db)
     (attendances db) (seq_category db) (seq_event db) (seq_attendance db).

(** [Event.organizer] and [Attendance.user]: [on_delete=models.CASCADE];
    the events deleted with the user take their attendances with them. *)
Definition delete_user (u : nat) (db : t) : t :=
  mk (delete u (users db)) (categories db)
     (filter (λ kv : nat * Event.t, Event.organizer kv.2 ≠ u) (events db))
     (filter (λ kv : nat * Attendance.t,
                Attendance.user kv.2 ≠ u ∧ organized_by db u (Attendance.event kv.2) = false)
        (attendances db))
     (seq_category db) (seq_event db) (seq_attendance db).
(** [unique_together = ['event', 'user']] on a table of attendances. *)
Definition unique_together (m : gmap nat Attendance.t) : Prop :=
  ∀ i j a b, m !! i = Some a → m !! j = Some b →
    Attendance.event a = Attendance.event b → Attendance.user a = Attendance.user b →
    i = j.

(** *** The integrity invariant

    What the schema's constraints guarantee of every committed state:
    foreign keys point at existing rows, [unique_together] holds on
    [(event, user)], and every primary key lies below its sequence. *)
Record wf (db : t) : Prop := {
  wf_event_fk : map_Forall (λ _ e, event_fk_ok db e = true) (events db);
  wf_attendance_fk : map_Forall (λ _ a, attendance_fk_ok db a = true) (attendances db);
  wf_unique : unique_together (attendances db);
  wf_seq_category : ∀ i, is_Some (categories db !! i) → i < seq_category db;
  wf_seq_event : ∀ i, is_Some (events db !! i) → i < seq_event db;
  wf_seq_attendance : ∀ i, is_Some (attendances db !! i) → i < seq_attendance db
}.

(** Every row within the column limits of models.py. *)
Definition bounded (db : t) : Prop :=
  map_Forall (λ _, Category.bounded) (categories db) ∧
  map_Forall (λ _, Event.bounded) (events db).

(** [wf] as a check that runs: every condition over [map_to_list]. *)
Definition wfb (db : t) : bool :=
  let atts := map_to_list (attendances db) in
  forallb (λ kv : nat * Event.t, event_fk_ok db kv.2) (map_to_list (events db)) &&
  forallb (λ kv : nat * Attendance.t, attendance_fk_ok db kv.2) atts &&
  forallb (λ x : nat * Attendance.t, forallb (λ y : nat * Attendance.t,
    negb (bool_decide (Attendance.event x.2 = Attendance.event y.2 ∧
                       Attendance.user x.2 = Attendance.user y.2)) || bool_decide (x.1 = y.1))
    atts) atts &&
  forallb (λ kv : nat * Category.t, kv.1 <? seq_category db) (map_to_list (categories db)) &&
  forallb (λ kv : nat * Event.t, kv.1 <? seq_event db) (map_to_list (events db)) &&
  forallb (λ kv : nat * Attendance.t, kv.1 <? seq_attendance db) atts.

(** *** Facts about the writes *)

Lemma attendance_fk_ok_iff db a :
  attendance_fk_ok db a = true ↔
    is_Some (events db !! Attendance.event a) ∧ is_Some (users db !! Attendance.user a).
Proof. unfold attendance_fk_ok. by rewrite andb_true_iff, !bool_decide_eq_true. Qed.

Lemma event_fk_ok_iff db e :
  event_fk_ok db e = true ↔
    is_Some (users db !! Event.organizer e) ∧
    ∀ c, Event.category e = Some c → is_Some (categories db !! c).
Proof.
  unfold event_fk_ok. rewrite andb_true_iff, bool_decide_eq_true.
  destruct (Event.category e); [rewrite bool_decide_eq_true|]; naive_solver.
Qed.

Lemma seq_attendance_fresh db : wf db → attendances db !! seq_attendance db = None.
Proof.
  intros Hwf. apply eq_None_not_Some. intros Hs.
  pose proof (wf_seq_attendance db Hwf _ Hs). lia.
Qed.

Lemma seq_event_fresh db : wf db → events db !! seq_event db = None.
Proof.
  intros Hwf. apply eq_None_not_Some. intros Hs.
  pose proof (wf_seq_event db Hwf _ Hs). lia.
Qed.

Lemma seq_category_fresh db : wf db → categories db !! seq_category db = None.
Proof.
  intros Hwf. apply eq_None_not_Some. intros Hs.
  pose proof (wf_seq_category db Hwf _ Hs). lia.
Qed.

Lemma attendance_of_empty db e u :
  qs_exists (attendance_of db e u) = false ↔
  ∀ i a, attendances db !! i = Some a →
         ¬ (Attendance.event a = e ∧ Attendance.user a = u).
Proof. unfold attendance_of. rewrite qs_exists_false. naive_solver. Qed.

(** Exactly when the INSERT succeeds: the foreign keys hold and no row
    has the same [(event, user)]; the row lands at the sequence value. *)
Lemma insert_attendance_Ok db a pk db' :
  insert_attendance a db = Ok (pk, db') ↔
    attendance_fk_ok db a = true ∧
    qs_exists (attendance_of db (Attendance.event a) (Attendance.user a)) = false ∧
    pk = seq_attendance db ∧
    db' = mk (users db) (categories db) (events db) (<[pk := a]> (attendances db))
             (seq_category db) (seq_event db) (S pk).
Proof.
  unfold insert_attendance, guard_or.
  destruct (attendance_fk_ok db a), (qs_exists _); simpl;
    split; intros; destruct_and?; simplify_eq; naive_solver.
Qed.

(** Inserting row [x] at key [pk] keeps [unique_together] when no other
    row has its [(event, user)]. *)
Lemma unique_insert (m : gmap nat Attendance.t) pk x :
  unique_together m →
  (∀ i a, i ≠ pk → m !! i = Some a →
     ¬ (Attendance.event a = Attendance.event x ∧ Attendance.user a = Attendance.user x)) →
  unique_together (<[pk:=x]> m).
Proof.
  intros Hun Hnd i j a b Hi Hj He Hu.
  rewrite lookup_insert_Some in Hi, Hj.
  destruct Hi as [[<- <-]|[Hi Hi']], Hj as [[<- <-]|[Hj Hj']]; try done.
  - exfalso. by apply (Hnd j b).
  - exfalso. by apply (Hnd i a).
  - by apply (Hun i j a b).
Qed.

Lemma insert_attendance_wf db a pk db' :
  wf db → insert_attendance a db = Ok (pk, db') → wf db'.
Proof.
  intros Hwf (Hfk & Hnd & -> & ->)%insert_attendance_Ok.
  pose proof (seq_attendance_fresh db Hwf) as Hfresh.
  rewrite attendance_of_empty in Hnd.
  destruct Hwf as [Hev Hat Hun Hsc Hse Hsa]; constructor; simpl; try done.
  - by apply map_Forall_insert_2.
  - apply unique_insert; [done|]. intros i x _ Hi. by apply (Hnd i x).
  - intros i. rewrite lookup_insert_is_Some.
    intros [<-|[_ Hi]]; [lia|]. specialize (Hsa i Hi). lia.
Qed.

Lemma update_attendance_wf db pk a db' :
  wf db → is_Some (attendances db !! pk) →
  update_attendance pk a db = Ok db' → wf db'.
Proof.
  intros Hwf Hpk Hup. unfold update_attendance in Hup. simpl_res.
  match goal with H : qs_exists _ = false |- _ => rename H into Hnd end.
  unfold attendance_of in Hnd. rewrite map_filter_filter, qs_exists_false in Hnd.
  destruct Hwf as [Hev Hat Hun Hsc Hse Hsa]; constructor; simpl; try done.
  - by apply map_Forall_insert_2.
  - apply unique_insert; [done|]. intros i b Hne Hi [He Hu].
    by apply (Hnd i b).
  - intros i. rewrite lookup_insert_is_Some. intros [<-|[_ Hi]]; auto.
Qed.
Lemma unique_subseteq (m m' : gmap nat Attendance.t) :
  m' ⊆ m → unique_together m → unique_together m'.
Proof.
  rewrite map_subseteq_spec. intros Hsub Hun i j a b Hi Hj.
  apply Hun; auto.
Qed.

Lemma unique_filter (P : nat * Attendance.t → Prop) `{!∀ x, Decision (P x)} m :
  unique_together m → unique_together (filter P m).
Proof. apply unique_subseteq, map_filter_subseteq. Qed.

(** The sequence bound survives any shrinking of a table. *)
Lemma seq_bound_subseteq {A} (m m' : gmap nat A) n :
  m' ⊆ m → (∀ i, is_Some (m !! i) → i < n) → ∀ i, is_Some (m' !! i) → i < n.
Proof.
  intros Hsub Hb i [x Hi]. apply Hb. exists x. by eapply lookup_weaken.
Qed.

Lemma delete_attendance_wf db pk : wf db → wf (delete_attendance pk db).
Proof.
  intros [Hev Hat Hun Hsc Hse Hsa]; constructor; simpl; try done.
  - apply map_Forall_delete. exact Hat.
  - apply (unique_subseteq (attendances db)); sub_tac.
  - apply (seq_bound_subseteq (attendances db)); sub_tac.
Qed.

Lemma delete_event_wf db pk : wf db → wf (delete_event pk db).
Proof.
  intros [Hev Hat Hun Hsc Hse Hsa]; constructor; simpl; try done.
  - apply map_Forall_delete. exact Hev.
  - apply map_Forall_lookup. intros i a Hi.
    apply map_lookup_filter_Some in Hi as [Hi Hne]; simpl in Hne.
    specialize (Hat i a Hi). rewrite attendance_fk_ok_iff in *; simpl.
    by rewrite lookup_delete_ne by congruence.
  - by apply unique_filter.
  - apply (seq_bound_subseteq (events db)); sub_tac.
  - apply (seq_bound_subseteq (attendances db)); sub_tac.
Qed.

Lemma delete_category_wf db pk : wf db → wf (delete_category pk db).
Proof.
  intros [Hev Hat Hun Hsc Hse Hsa]; constructor; simpl; try done.
  - apply map_Forall_fmap. intros i e Hi. specialize (Hev i e Hi).
    apply event_fk_ok_iff in Hev as [Hu Hcat]. apply event_fk_ok_iff; simpl.
    case_decide as Hc; simpl; split; try done.
    intros c Hc'. rewrite lookup_delete_ne; [auto|congruence].
  - apply map_Forall_lookup. intros i a Hi. specialize (Hat i a Hi).
    rewrite attendance_fk_ok_iff in *; simpl.
    by rewrite lookup_fmap, fmap_is_Some.
  - apply (seq_bound_subseteq (categories db)); sub_tac.
  - intros i. rewrite lookup_fmap, fmap_is_Some. apply Hse.
Qed.
Lemma organized_by_false db u e ev :
  events db !! e = Some ev → organized_by db u e = false → Event.organizer ev ≠ u.
Proof. unfold organized_by. intros ->. by rewrite bool_decide_eq_false. Qed.

Lemma delete_user_wf db u : wf db → wf (delete_user u db).
Proof.
  intros [Hev Hat Hun Hsc Hse Hsa]; constructor; simpl; try done.
  - apply map_Forall_lookup. intros i e Hi.
    apply map_lookup_filter_Some in Hi as [Hi Hne]; simpl in Hne.
    specialize (Hev i e Hi). rewrite event_fk_ok_iff in *; simpl.
    rewrite lookup_delete_ne by congruence. naive_solver.
  - apply map_Forall_lookup. intros i a Hi.
    apply map_lookup_filter_Some in Hi as [Hi [Hne Hown]]; simpl in Hne, Hown.
    specialize (Hat i a Hi). rewrite attendance_fk_ok_iff in *; simpl.
    destruct Hat as [[ev Hev'] Hu]. split.
    + exists ev. apply map_lookup_filter_Some; split; [done|].
      simpl. by eapply organized_by_false.
    + by rewrite lookup_delete_ne by congruence.
  - by apply unique_filter.
  - apply (seq_bound_subseteq (events db)); sub_tac.
  - apply (seq_bound_subseteq (attendances db)); sub_tac.
Qed.

Lemma insert_event_wf db e pk db' :
  wf db → insert_event e db = Ok (pk, db') → wf db'.
Proof.
  intros Hwf Hins. unfold insert_event in Hins. simpl_res.
  destruct Hwf as [Hev Hat Hun Hsc Hse Hsa]; constructor; simpl; try done.
  - by apply map_Forall_insert_2.
  - apply map_Forall_lookup. intros i a Hi. specialize (Hat i a Hi).
    rewrite attendance_fk_ok_iff in *; simpl.
    rewrite lookup_insert_is_Some'. naive_solver.
  - intros i. rewrite lookup_insert_is_Some.
    intros [<-|[_ Hi]]; [lia|]. specialize (Hse i Hi). lia.
Qed.

Lemma update_event_wf db pk e db' :
  wf db → is_Some (events db !! pk) → update_event pk e db = Ok db' → wf db'.
Proof.
  intros Hwf Hpk Hup. unfold update_event in Hup. simpl_res.
  destruct Hwf as [Hev Hat Hun Hsc Hse Hsa]; constructor; simpl; try done.
  - by apply map_Forall_insert_2.
  - apply map_Forall_lookup. intros i a Hi. specialize (Hat i a Hi).
    rewrite attendance_fk_ok_iff in *; simpl.
    rewrite lookup_insert_is_Some'. naive_solver.
  - intros i. rewrite lookup_insert_is_Some. intros [<-|[_ Hi]]; auto.
Qed.

Lemma insert_category_wf db c : wf db → wf (insert_category c db).2.
Proof.
  intros [Hev Hat Hun Hsc Hse Hsa]; constructor; simpl; try done.
  - apply map_Forall_lookup. intros i e Hi. specialize (Hev i e Hi).
    rewrite event_fk_ok_iff in *; simpl.
    setoid_rewrite lookup_insert_is_Some'. naive_solver.
  - intros i. rewrite lookup_insert_is_Some.
    intros [<-|[_ Hi]]; [lia|]. specialize (Hsc i Hi). lia.
Qed.

Lemma update_category_wf db pk c :
  wf db → is_Some (categories db !! pk) → wf (update_category pk c db).
Proof.
  intros [Hev Hat Hun Hsc Hse Hsa] Hpk; constructor; simpl; try done.
  - apply map_Forall_lookup. intros i e Hi. specialize (Hev i e Hi).
    rewrite event_fk_ok_iff in *; simpl.
    setoid_rewrite lookup_insert_is_Some'. naive_solver.
  - intros i. rewrite lookup_insert_is_Some. intros [<-|[_ Hi]]; auto.
Qed.
(** *** What the [on_delete] policies do *)

(** Deleting a category deletes no event: an event that
    referenced it keeps every field but has [category = NULL]
    ([SET_NULL]), and every other event is unchanged. *)
Theorem delete_category_set_null db c i e :
  events db !! i = Some e →
  events (delete_category c db) !! i =
    Some (if decide (Event.category e = Some c) then Event.set_category None e else e).
Proof. intros He. simpl. by rewrite lookup_fmap, He. Qed.

(** C13 Deleting a user deletes the user, exactly the events they
    organize ([CASCADE]), and exactly the attendance rows that are
    theirs or belong to one of those events. *)
Theorem delete_user_cascade db u :
  users (delete_user u db) !! u = None ∧
  (∀ i e, events (delete_user u db) !! i = Some e ↔
          events db !! i = Some e ∧ Event.organizer e ≠ u) ∧
  (∀ i a, attendances (delete_user u db) !! i = Some a ↔
          attendances db !! i = Some a ∧ Attendance.user a ≠ u ∧
          ∀ ev, events db !! Attendance.event a = Some ev → Event.organizer ev ≠ u).
Proof.
  split_and!; simpl; [apply lookup_delete_eq| |].
  - intros i e. by rewrite map_lookup_filter_Some.
  - intros i a. rewrite map_lookup_filter_Some. simpl. unfold organized_by.
    destruct (events db !! Attendance.event a) as [ev|];
      [rewrite bool_decide_eq_false|]; naive_solver.
Qed.

(** Deleting an event takes exactly its attendance rows with it. *)
Lemma delete_event_cascade db pk i a :
  attendances (delete_event pk db) !! i = Some a ↔
  attendances db !! i = Some a ∧ Attendance.event a ≠ pk.
Proof. simpl. by rewrite map_lookup_filter_Some. Qed.
Lemma forallb_map_to_list {A} (f : nat * A → bool) (m : gmap nat A) :
  forallb f (map_to_list m) = true → ∀ i x, m !! i = Some x → f (i, x) = true.
Proof.
  rewrite forallb_forall. intros Hf i x Hi. apply Hf.
  apply list_elem_of_In, elem_of_map_to_list, Hi.
Qed.

Lemma seq_bound_forallb {A} (m : gmap nat A) n :
  forallb (λ kv : nat * A, kv.1 <? n) (map_to_list m) = true →
  ∀ i, is_Some (m !! i) → i < n.
Proof.
  intros Hf i [x Hi]. apply Nat.ltb_lt. exact (forallb_map_to_list _ _ Hf i x Hi).
Qed.

(** The check is sound: a database it accepts is well formed. *)
Lemma wfb_sound db : wfb db = true → wf db.
Proof.
  unfold wfb. rewrite !andb_true_iff.
  intros [[[[[Hev Hat] Hun] Hsc] Hse] Hsa]. constructor.
  - intros i e He. exact (forallb_map_to_list _ _ Hev i e He).
  - intros i a Ha. exact (forallb_map_to_list _ _ Hat i a Ha).
  - intros i j a b Ha Hb He Hu.
    pose proof (forallb_map_to_list _ _ Hun i a Ha) as Hi. simpl in Hi.
    pose proof (forallb_map_to_list _ _ Hi j b Hb) as Hij. simpl in Hij.
    apply orb_true_iff in Hij as [Hne|Heq].
    + apply negb_true_iff, bool_decide_eq_false in Hne. tauto.
    + by apply bool_decide_eq_true in Heq.
  - by apply seq_bound_forallb.
  - by apply seq_bound_forallb.
  - by apply seq_bound_forallb.
Qed.
(** *** Witnesses *)

Lemma delete_category_set_null_witness :
  events (delete_category 5
    (mk ∅ {[5 := Category.mk "music" None]}
        {[0 := Event.mk "t" "d" "l" 0 0 0 0 None 1 (Some 5) Event.upcoming false None]} ∅ 6 1 0))
    !! 0 =
  Some (if decide (Event.category
                     (Event.mk "t" "d" "l" 0 0 0 0 None 1 (Some 5) Event.upcoming false None)
                   = Some 5)
        then Event.set_category None
               (Event.mk "t" "d" "l" 0 0 0 0 None 1 (Some 5) Event.upcoming false None)
        else Event.mk "t" "d" "l" 0 0 0 0 None 1 (Some 5) Event.upcoming false None).
Proof. apply delete_category_set_null. reflexivity. Defined.
End DB.
