(* ===== verification/Http.v ===== *)
(** * Http: requests, methods and the exceptions a view can raise

    What DRF hands a view ([request.user], [request.method],
    [request.query_params]) and what leaves a view as an exception
    rather than a [Response]: [NotAuthenticated], [PermissionDenied],
    [Http404], [MethodNotAllowed], a serializer [ValidationError], or an
    uncaught exception
    ([ValueError], [IntegrityError]) that becomes a 500.  [status_code]
    gives the HTTP status DRF's exception handler answers with. *)

From S2P Require Import Prelude Models.

Inductive Method := GET | HEAD | OPTIONS | POST | PUT | PATCH | DELETE.

#[export] Instance Method_eq_dec : EqDecision Method.
Proof. solve_decision. Defined.

(** [rest_framework.permissions.SAFE_METHODS] *)
Definition SAFE_METHODS : list Method := [GET; HEAD; OPTIONS].

Record Request := mkRequest {
  req_user : option nat;                     (* None: AnonymousUser *)
  req_method : Method;
  query_params : list (string * string);     (* in the order of the query string *)
  req_now : Timestamp                        (* timezone.now() during the request *)
}.

(** [request.user.is_authenticated] *)
Definition is_authenticated (r : Request) : bool :=
  match req_user r with Some _ => true | None => false end.

(** Exceptions leaving a view. *)
Inductive APIError :=
| NotAuthenticated                          (* "Authentication credentials were not provided." *)
| PermissionDenied
| NotFound                                  (* Http404 from get_object_or_404 *)
| FieldErrors (errs : list (string * string))  (* serializer.is_valid(raise_exception=True) *)
| NonFieldError (msg : string)              (* a serializer-level validator *)
| MethodNotAllowed (m : Method)             (* APIView.http_method_not_allowed *)
| ServerError (cause : string).             (* ValueError, IntegrityError, ...: HTTP 500 *)

(** The status DRF answers with.  With the default authentication
    classes the first one is [SessionAuthentication], which sends no
    [WWW-Authenticate] header, so [NotAuthenticated] is answered 403. *)
Definition status_code (e : APIError) : nat :=
  match e with
  | NotAuthenticated | PermissionDenied => 403
  | NotFound => 404
  | MethodNotAllowed _ => 405
  | FieldErrors _ | NonFieldError _ => 400
  | ServerError _ => 500
  end.

Definition HTTP_200_OK : nat := 200.
Definition HTTP_201_CREATED : nat := 201.
Definition HTTP_204_NO_CONTENT : nat := 204.
Definition HTTP_400_BAD_REQUEST : nat := 400.
