(* ===== verification/Permissions.v ===== *)
(** * Permissions: the permission classes named in [views.py]

    [permission_classes] is the interface between DRF's dispatch and a
    view: [APIView.check_permissions] asks every class, and a refusal
    becomes [NotAuthenticated] for an anonymous request and
    [PermissionDenied] otherwise.  The Class [Permission] states what a
    permission class provides, with the law the views rely on: an
    authenticated request is never refused by either class this app uses
    ([perm_authenticated]).  The instances are DRF's [IsAuthenticated],
    [IsAuthenticatedOrReadOnly] and [AllowAny]. *)

From S2P Require Import Prelude Models Http.

Class Permission (P : Type) := {
  has_permission : P → Request → bool;
  perm_authenticated : ∀ p r, is_authenticated r = true → has_permission p r = true
}.

Inductive IsAuthenticated := IsAuthenticated_.
Inductive IsAuthenticatedOrReadOnly := IsAuthenticatedOrReadOnly_.

(** [return bool(request.user and request.user.is_authenticated)] *)
Definition is_authenticated_has_permission (_ : IsAuthenticated) (r : Request) : bool :=
  is_authenticated r.

(** [return bool(request.method in SAFE_METHODS or
                 request.user and request.user.is_authenticated)] *)
Definition is_authenticated_or_read_only_has_permission
    (_ : IsAuthenticatedOrReadOnly) (r : Request) : bool :=
  bool_decide (req_method r ∈ SAFE_METHODS) || is_authenticated r.

#[export] Program Instance IsAuthenticated_perm : Permission IsAuthenticated := {
  has_permission := is_authenticated_has_permission
}.
Next Obligation. done. Qed.

#[export] Program Instance IsAuthenticatedOrReadOnly_perm : Permission IsAuthenticatedOrReadOnly := {
  has_permission := is_authenticated_or_read_only_has_permission
}.
Next Obligation.
  intros p r H. unfold is_authenticated_or_read_only_has_permission. by rewrite H, orb_true_r.
Qed.

(** [AllowAny], the default of [DEFAULT_PERMISSION_CLASSES], which
    the router's API root view uses. *)
Inductive AllowAny := AllowAny_.

#[export] Program Instance AllowAny_perm : Permission AllowAny := {
  has_permission := λ _ _, true
}.
Next Obligation. done. Qed.

(** [APIView.check_permissions] for one permission class, with
    [APIView.permission_denied]: an anonymous request is refused with
    [NotAuthenticated], an authenticated one with [PermissionDenied]. *)
Definition check_permissions {P} `{Permission P} (p : P) (r : Request) : Result APIError unit :=
  if has_permission p r then Ok ()
  else if is_authenticated r then Err PermissionDenied else Err NotAuthenticated.

Lemma check_permissions_authenticated {P} `{Permission P} (p : P) r :
  is_authenticated r = true → check_permissions p r = Ok ().
Proof. intros Ha. unfold check_permissions. by rewrite perm_authenticated. Qed.

Lemma check_permissions_Ok {P} `{Permission P} (p : P) r :
  check_permissions p r = Ok () ↔ has_permission p r = true.
Proof.
  unfold check_permissions. destruct (has_permission p r); [done|].
  destruct (is_authenticated r); split; discriminate.
Qed.

(** Anonymous callers get [NotAuthenticated] from [IsAuthenticated]. *)
Lemma check_is_authenticated_anonymous r :
  req_user r = None → check_permissions IsAuthenticated_ r = Err NotAuthenticated.
Proof.
  intros Hu. unfold check_permissions. simpl.
  unfold is_authenticated_has_permission, is_authenticated. by rewrite Hu.
Qed.
