(* ===== verification/Serializers.v ===== *)
(** * Serializers: [event_app/serializers.py]

    One Module per serializer class.  [to_representation] is the output
    of each ([UserSerializer.Meta.fields], [CategorySerializer]'s
    [fields = '__all__'], [EventSerializer] with its nested read-only
    [organizer], the [category_name] read through [category.name] and the
    [SerializerMethodField] [attendees_count], [AttendanceSerializer] with
    nested [user] and [event]).  A nested row that is missing makes the
    representation fail ([None]); [DB.wf] rules that out.

    [AttendanceSerializer.validate] is [is_valid()] on input: the
    write-only [PrimaryKeyRelatedField]s [event_id] and [user_id], the
    [status] choice, then the [UniqueTogetherValidator] on
    [(event, user)], which DRF runs only once every field is valid. *)

From S2P Require Import Prelude PyStr Models Http.
From Stdlib Require Import Ascii String.

(** The double-quote character, for DRF's messages that quote a value. *)
Definition dq : string := String (ascii_of_nat 34) EmptyString.

Module UserSerializer.
(** [fields = ['id', 'username', 'email', 'first_name', 'last_name']] *)
Record repr := mk {
  id : nat; username : string; email : string; first_name : string; last_name : string
}.

Definition to_representation (pk : nat) (u : User.t) : repr :=
  mk pk (User.username u) (User.email u) (User.first_name u) (User.last_name u).
End UserSerializer.

Module CategorySerializer.
(** [fields = '__all__']: the primary key and every column. *)
Record repr := mk { id : nat; name : string; description : option string }.

Definition to_representation (pk : nat) (c : Category.t) : repr :=
  mk pk (Category.name c) (Category.description c).
End CategorySerializer.

Module EventSerializer.
(** [category_name] is [None] when the key is left out: DRF skips a
    [ReadOnlyField] whose source [category.name] cannot be read because
    [category] is null. *)
Record repr := mk {
  id : nat; title : string; description : string; location : string;
  start_date : Timestamp; end_date : Timestamp;
  created_at : Timestamp; updated_at : Timestamp; image : option string;
  organizer : UserSerializer.repr; category : option nat;
  category_name : option string; status : string; is_featured : bool;
  max_attendees : option nat; attendees_count : nat
}.

(** [def get_attendees_count(self, obj): return obj.attendances.count()] *)
Definition get_attendees_count (db : DB.t) (pk : nat) : nat :=
  qs_count (DB.event_attendances db pk).

Definition get_category_name (db : DB.t) (e : Event.t) : option string :=
  c ← Event.category e; Category.name <$> DB.categories db !! c.

Definition to_representation (db : DB.t) (pk : nat) (e : Event.t) : option repr :=
  u ← DB.users db !! Event.organizer e;
  Some (mk pk (Event.title e) (Event.description e) (Event.location e)
           (Event.start_date e) (Event.end_date e) (Event.created_at e)
           (Event.updated_at e) (Event.image e)
           (UserSerializer.to_representation (Event.organizer e) u)
           (Event.category e) (get_category_name db e)
           (Event.status_value (Event.status e)) (Event.is_featured e)
           (Event.max_attendees e) (get_attendees_count db pk)).
End EventSerializer.

Module AttendanceSerializer.
Record repr := mk {
  id : nat; event : EventSerializer.repr; user : UserSerializer.repr;
  status : string; registered_at : Timestamp
}.

Definition to_representation (db : DB.t) (pk : nat) (a : Attendance.t) : option repr :=
  e ← DB.events db !! Attendance.event a;
  er ← EventSerializer.to_representation db (Attendance.event a) e;
  u ← DB.users db !! Attendance.user a;
  Some (mk pk er (UserSerializer.to_representation (Attendance.user a) u)
           (Attendance.status_value (Attendance.status a)) (Attendance.registered_at a)).

(** [serializer.data] for [many=True]. *)
Definition to_representation_many (db : DB.t) (qs : gmap nat Attendance.t)
    : option (list repr) :=
  mapM (λ kv : nat * Attendance.t, to_representation db kv.1 kv.2) (map_to_list qs).

(** The writable fields of a request body; [None] is an absent key. *)
Record input := mkInput {
  in_event_id : option nat; in_user_id : option nat; in_status : option string
}.

(** What [is_valid()] hands to [save()]: [status] only when given. *)
Record validated := mkValidated {
  v_event : nat; v_user : nat; v_status : option Attendance.Status
}.

Definition required_msg : string := "This field is required.".
Definition does_not_exist_msg (pk : nat) : string :=
  "Invalid pk " +:+ dq +:+ show_nat pk +:+ dq +:+ " - object does not exist.".
Definition invalid_choice_msg (v : string) : string :=
  dq +:+ v +:+ dq +:+ " is not a valid choice.".
(** [UniqueTogetherValidator(..., message=...)] *)
Definition unique_msg : string := "You have already registered for this event.".

(** A [PrimaryKeyRelatedField(queryset=...)]: required unless the
    update is partial, and the key must name a row of the table. *)
Definition pk_field {A} (fname : string) (table : gmap nat A) (partial : bool)
    (v : option nat) : list (string * string) :=
  match v with
  | None => if partial then [] else [(fname, required_msg)]
  | Some pk => if bool_decide (is_Some (table !! pk)) then []
               else [(fname, does_not_exist_msg pk)]
  end.

Definition status_field (v : option string) : list (string * string) :=
  match v with
  | Some s => match Attendance.status_of_value s with
              | Some _ => []
              | None => [("status", invalid_choice_msg s)]
              end
  | None => []
  end.

(** [is_valid()] on [data] for a create ([instance = None]) or an
    update of [instance]; [partial] is [PATCH].  The unique-together
    check reads [(event, user)] from the data, falling back to the
    instance for a key a partial update leaves out, and does not count
    the instance itself. *)
Definition validate (db : DB.t) (instance : option (nat * Attendance.t))
    (partial : bool) (d : input) : Result APIError validated :=
  let errs := pk_field "event_id" (DB.events db) partial (in_event_id d) ++
              pk_field "user_id" (DB.users db) partial (in_user_id d) ++
              status_field (in_status d) in
  check bool_decide (errs = []) else FieldErrors errs;
  let fallback (f : Attendance.t → nat) (o : option nat) : nat :=
    match o, instance with
    | Some v, _ => v
    | None, Some (_, a) => f a
    | None, None => 0
    end in
  let e := fallback Attendance.event (in_event_id d) in
  let u := fallback Attendance.user (in_user_id d) in
  let others := match instance with
                | Some (pk, _) => filter (λ kv : nat * Attendance.t, kv.1 ≠ pk)
                                         (DB.attendance_of db e u)
                | None => DB.attendance_of db e u
                end in
  check negb (qs_exists others) else NonFieldError unique_msg;
  Ok (mkValidated e u (in_status d ≫= Attendance.status_of_value)).
End AttendanceSerializer.

(** ** [EventSerializer] on input *)
Module EventInput.
(** The writable fields of a request body.  [None] is an absent key;
    for a nullable field [Some None] is an explicit [null]. *)
Record t := mk {
  title : option string; description : option string; location : option string;
  start_date : option Timestamp; end_date : option Timestamp;
  image : option (option string);
  organizer_id : option nat;
  category : option (option nat);
  status : option string;
  is_featured : option bool;
  max_attendees : option (option Z)
}.

Definition blank_msg : string := "This field may not be blank.".
Definition max_length_msg (n : nat) : string :=
  "Ensure this field has no more than " +:+ show_nat n +:+ " characters.".
Definition min_value_msg : string := "Ensure this value is greater than or equal to 0.".
Definition max_value_msg : string :=
  "Ensure this value is less than or equal to 2147483647.".
Definition null_msg : string := "This field may not be null.".

(** The range Django gives a [PositiveIntegerField]
    ([integer_field_ranges] of the base database backend). *)
Definition positive_integer_max : Z := Event.max_attendees_max.

(** A model [CharField]/[TextField] without [blank=True]: required on
    create, [trim_whitespace] strips it, and it may not be blank. *)
Definition char_field (fname : string) (max_length : option nat) (partial : bool)
    (v : option string) : list (string * string) :=
  match v with
  | None => if partial then [] else [(fname, AttendanceSerializer.required_msg)]
  | Some s =>
      let s' := string_of_list_ascii (py_strip (list_ascii_of_string s)) in
      if bool_decide (s' = ""%string) then [(fname, blank_msg)]
      else match max_length with
           | Some n => if bool_decide (String.length s' ≤ n) then []
                       else [(fname, max_length_msg n)]
           | None => []
           end
  end.

(** A required field with no further check ([DateTimeField]). *)
Definition required_field {A} (fname : string) (partial : bool) (v : option A)
    : list (string * string) :=
  match v with None => if partial then [] else [(fname, AttendanceSerializer.required_msg)]
  | Some _ => [] end.

Definition category_field (db : DB.t) (v : option (option nat)) : list (string * string) :=
  match v with
  | Some (Some c) => AttendanceSerializer.pk_field "category" (DB.categories db) true (Some c)
  | _ => []
  end.

Definition status_field (v : option string) : list (string * string) :=
  match v with
  | Some s => match Event.status_of_value s with
              | Some _ => []
              | None => [("status", AttendanceSerializer.invalid_choice_msg s)]
              end
  | None => []
  end.

Definition max_attendees_field (v : option (option Z)) : list (string * string) :=
  match v with
  | Some (Some z) =>
      if bool_decide (z < 0)%Z then [("max_attendees", min_value_msg)]
      else if bool_decide (positive_integer_max < z)%Z then [("max_attendees", max_value_msg)]
      else []
  | _ => []
  end.

(** Every field error of [is_valid()]. *)
Definition errors (db : DB.t) (partial : bool) (d : t) : list (string * string) :=
  char_field "title" (Some Event.title_max_length) partial (title d) ++
  char_field "description" None partial (description d) ++
  char_field "location" (Some Event.location_max_length) partial (location d) ++
  required_field "start_date" partial (start_date d) ++
  required_field "end_date" partial (end_date d) ++
  AttendanceSerializer.pk_field "organizer_id" (DB.users db) partial (organizer_id d) ++
  category_field db (category d) ++
  status_field (status d) ++
  max_attendees_field (max_attendees d).

Definition trimmed (s : string) : string :=
  string_of_list_ascii (py_strip (list_ascii_of_string s)).

(** [serializer.save(organizer=...)] on [instance]: every validated field
    overrides the instance's, [updated_at] is [auto_now]. *)
Definition apply_to (d : t) (organizer : nat) (now : Timestamp) (e : Event.t) : Event.t :=
  Event.mk (from_option trimmed (Event.title e) (title d))
           (from_option trimmed (Event.description e) (description d))
           (from_option trimmed (Event.location e) (location d))
           (default (Event.start_date e) (start_date d))
           (default (Event.end_date e) (end_date d))
           (Event.created_at e) now
           (default (Event.image e) (image d))
           organizer
           (default (Event.category e) (category d))
           (default (Event.status e) (status d ≫= Event.status_of_value))
           (default (Event.is_featured e) (is_featured d))
           (default (Event.max_attendees e) (option_map (option_map Z.to_nat) (max_attendees d))).

(** The row a create starts from: the model's defaults. *)
Definition defaults (now : Timestamp) : Event.t :=
  Event.mk "" "" "" 0 0 now now None 0 None Event.upcoming false None.

(** The body [{}]: no writable field given. *)
Definition empty : t := mk None None None None None None None None None None None.

(** The body a client sends back when it echoes the JSON of a [GET]:
    the serializer reads only its writable fields from it.  [id],
    [created_at], [updated_at] (auto fields), [organizer],
    [category_name] and [attendees_count] are read-only and ignored;
    [organizer_id] is write-only, so the representation lacks it. *)
Definition of_representation (rep : EventSerializer.repr) : t :=
  mk (Some (EventSerializer.title rep)) (Some (EventSerializer.description rep))
     (Some (EventSerializer.location rep))
     (Some (EventSerializer.start_date rep)) (Some (EventSerializer.end_date rep))
     (Some (EventSerializer.image rep)) None (Some (EventSerializer.category rep))
     (Some (EventSerializer.status rep)) (Some (EventSerializer.is_featured rep))
     (Some (Z.of_nat <$> EventSerializer.max_attendees rep)).
End EventInput.

(** ** [CategorySerializer] on input *)
Module CategoryInput.
Record t := mk { name : option string; description : option (option string) }.

(** [name]: [CharField(max_length=100)]; [description]:
    [TextField(blank=True, null=True)], never an error. *)
Definition errors (partial : bool) (d : t) : list (string * string) :=
  EventInput.char_field "name" (Some Category.name_max_length) partial (name d).

Definition apply_to (d : t) (c : Category.t) : Category.t :=
  Category.mk (from_option EventInput.trimmed (Category.name c) (name d))
              (default (Category.description c)
                 (option_map (option_map EventInput.trimmed) (description d))).

Definition defaults : Category.t := Category.mk "" None.
End CategoryInput.

(** ** Facts *)

(** Every event of a well-formed database serializes. *)
Lemma event_representation db pk e :
  DB.wf db → DB.events db !! pk = Some e →
  ∃ rep, EventSerializer.to_representation db pk e = Some rep ∧
         EventSerializer.attendees_count rep = qs_count (DB.event_attendances db pk).
Proof.
  intros Hwf He. pose proof (DB.wf_event_fk db Hwf pk e He) as Hfk.
  apply DB.event_fk_ok_iff in Hfk as [[u Hu] _].
  unfold EventSerializer.to_representation. rewrite Hu. simpl. by eexists.
Qed.


Lemma attendance_to_representation_wf db pk a :
  DB.wf db → DB.attendances db !! pk = Some a →
  ∃ rep, AttendanceSerializer.to_representation db pk a = Some rep ∧
         AttendanceSerializer.status rep = Attendance.status_value (Attendance.status a).
Proof.
  intros Hwf Ha. pose proof (DB.wf_attendance_fk db Hwf pk a Ha) as Hfk.
  apply DB.attendance_fk_ok_iff in Hfk as [[e He] [u Hu]].
  destruct (event_representation db (Attendance.event a) e Hwf He) as (er & Her & _).
  unfold AttendanceSerializer.to_representation. rewrite He.
  cbn -[EventSerializer.to_representation]. rewrite Her. cbn. rewrite Hu. cbn. by eexists.
Qed.

Lemma to_representation_many_wf db (qs : gmap nat Attendance.t) :
  DB.wf db → qs ⊆ DB.attendances db →
  ∃ reps, AttendanceSerializer.to_representation_many db qs = Some reps ∧
          List.length reps = size qs.
Proof.
  intros Hwf Hsub. unfold AttendanceSerializer.to_representation_many.
  rewrite <- length_map_to_list.
  assert (Hall : ∀ kv, kv ∈ map_to_list qs → DB.attendances db !! kv.1 = Some kv.2).
  { intros [k a] Hin. apply elem_of_map_to_list in Hin. by eapply lookup_weaken. }
  induction (map_to_list qs) as [|[k a] l IH]; simpl; [by exists []|].
  destruct (attendance_to_representation_wf db k a Hwf) as (rep & Hrep & _).
  { apply (Hall (k, a)). by left. }
  rewrite Hrep. simpl.
  destruct IH as (reps & Hreps & Hlen).
  { intros kv Hin. apply Hall. by right. }
  rewrite Hreps. simpl. exists (rep :: reps). simpl. by rewrite Hlen.
Qed.

(** [ChoiceField.to_internal_value] on the event status: the stored
    value of a choice maps back to it, and nothing else is accepted. *)
Lemma status_of_value_Some v s : Event.status_of_value v = Some s ↔ v = Event.status_value s.
Proof.
  split.
  - unfold Event.status_of_value. destruct (list_find _ _) as [[i s']|] eqn:E; [|done].
    intros [= <-]. by apply list_find_Some in E as (_ & <- & _).
  - intros ->. by destruct s.
Qed.



