(* ===== verification/Ordering.v ===== *)
(** * Ordering: DRF's [OrderingFilter]

    [EventViewSet] and [CategoryViewSet] list [filter_backends =
    [filters.SearchFilter, filters.OrderingFilter]]: after the search,
    [OrderingFilter.filter_queryset] reads [?ordering=], splits it on
    commas, keeps the terms whose field (less a leading [-]) is in
    [ordering_fields], and orders the query set by them ([order_by]); with no
    valid term it leaves the query set unordered.

    [order_by] is a stable [merge_sort] (stdpp) of the rows under the
    lexicographic comparison of the terms' columns, [-] reversing a
    column.  Rows that compare equal on every term come in an order the
    database does not fix; the model keeps their unordered order.
    Columns compare as the database does with SQLite's default [BINARY]
    collation: integers numerically, text byte by byte
    ([String.compare]).

    Section [comparators] proves that a comparison that is antisymmetric
    and whose [≤] is transitive stays so when flipped or composed
    lexicographically, so the relation [merge_sort] uses is a total
    preorder and its output is sorted. *)

From S2P Require Import Prelude PyStr Models Http.
From stdpp Require Import sorting.
From Stdlib Require Import Ascii String.

(** ** Comparisons *)

(** A column value of an [ORDER BY]. *)
Inductive SortKey := KNat (n : nat) | KStr (s : string).

Definition key_compare (a b : SortKey) : comparison :=
  match a, b with
  | KNat m, KNat n => Nat.compare m n
  | KStr s, KStr t => String.compare s t
  | KNat _, KStr _ => Lt
  | KStr _, KNat _ => Gt
  end.

(** Lexicographic composition: the first comparison that is not [Eq]. *)
Definition lex {A} (c1 c2 : A → A → comparison) (x y : A) : comparison :=
  match c1 x y with Eq => c2 x y | o => o end.

(** A comparison fit for sorting: antisymmetric, with a transitive
    [≤] (a total preorder). *)
Definition comparator {A} (c : A → A → comparison) : Prop :=
  (∀ x y, c y x = CompOpp (c x y)) ∧ (∀ x y z, c x y ≠ Gt → c y z ≠ Gt → c x z ≠ Gt).

(** ** [OrderingFilter] *)

(** [str.split(',')]: every comma separates, empty pieces included. *)
Fixpoint split_on (sep : ascii) (s : string) : list string :=
  match s with
  | EmptyString => [EmptyString]
  | String c s' =>
      match split_on sep s' with
      | [] => [String c EmptyString]
      | w :: ws => if Ascii.eqb c sep then EmptyString :: w :: ws else String c w :: ws
      end
  end.

(** [str.strip()]. *)
Definition strip_str (s : string) : string :=
  string_of_list_ascii (py_strip (list_ascii_of_string s)).

(** An [order_by] term: the field and whether it is descending. *)
Definition parse_term (t : string) : bool * string :=
  match t with String "-"%char f => (true, f) | _ => (false, t) end.

(** [remove_invalid_fields]: the terms whose field is in
    [ordering_fields]. *)
Definition remove_invalid_fields (valid : list string) (terms : list string) : list string :=
  List.filter (λ t, bool_decide ((parse_term t).2 ∈ valid)) terms.

(** [OrderingFilter.get_ordering]: the valid terms of [?ordering=], or
    the view's default ordering, which no view here sets. *)
Definition get_ordering (valid : list string) (r : Request) : list string :=
  match qd_get "ordering" (query_params r) with
  | Some p =>
      if py_truthy (Some p) then remove_invalid_fields valid (strip_str <$> split_on "," p)
      else []
  | None => []
  end.

Section order_by.
Context {A : Type} (key : string → A → SortKey).

(** One term: its column, reversed for [-field]. *)
Definition term_compare (t : string) (x y : A) : comparison :=
  let '(desc, f) := parse_term t in
  if desc then key_compare (key f y) (key f x) else key_compare (key f x) (key f y).

Fixpoint terms_compare (ts : list string) (x y : A) : comparison :=
  match ts with
  | [] => Eq
  | t :: ts' => lex (term_compare t) (terms_compare ts') x y
  end.

(** [x] may come before [y]. *)
Definition order_le (ts : list string) (x y : nat * A) : Prop :=
  terms_compare ts x.2 y.2 ≠ Gt.

#[global] Instance order_le_dec ts : RelDecision (order_le ts).
Proof. intros x y. unfold order_le. apply _. Defined.

(** [queryset.order_by] on the terms, when there are any. *)
Definition order_by (ts : list string) (rows : list (nat * A)) : list (nat * A) :=
  match ts with [] => rows | _ => merge_sort (order_le ts) rows end.

End order_by.

(** ** Facts *)

Section comparators.
Context {A : Type}.
Implicit Types (c : A → A → comparison).

Lemma comparator_lt_le c x y z : comparator c → c x y = Lt → c y z ≠ Gt → c x z = Lt.
Proof.
  intros [Hanti Htr] Hxy Hyz. destruct (c x z) eqn:Hxz; [exfalso| |exfalso]; try done.
  - assert (c y x ≠ Gt) as Hyx.
    { apply (Htr y z x); [done|]. rewrite Hanti, Hxz. done. }
    apply Hyx. rewrite Hanti, Hxy. done.
  - apply (Htr x y z); [by rewrite Hxy|done|done].
Qed.

Lemma comparator_le_lt c x y z : comparator c → c x y ≠ Gt → c y z = Lt → c x z = Lt.
Proof.
  intros [Hanti Htr] Hxy Hyz. destruct (c x z) eqn:Hxz; [exfalso| |exfalso]; try done.
  - assert (c z y ≠ Gt) as Hzy.
    { apply (Htr z x y); [rewrite Hanti, Hxz; done|done]. }
    apply Hzy. rewrite Hanti, Hyz. done.
  - apply (Htr x y z); [done|by rewrite Hyz|done].
Qed.

Lemma comparator_eq c x y z : comparator c → c x y = Eq → c y z = Eq → c x z = Eq.
Proof.
  intros [Hanti Htr] Hxy Hyz.
  assert (c x z ≠ Gt) as H1 by (apply (Htr x y z); congruence).
  assert (c z x ≠ Gt) as H2.
  { apply (Htr z y x); rewrite Hanti; [rewrite Hyz|rewrite Hxy]; done. }
  rewrite Hanti in H2. destruct (c x z); done.
Qed.

Lemma lex_comparator c1 c2 : comparator c1 → comparator c2 → comparator (lex c1 c2).
Proof.
  intros Hc1 Hc2. pose proof Hc1 as [Ha1 Ht1]. pose proof Hc2 as [Ha2 Ht2]. split.
  - intros x y. unfold lex. rewrite (Ha1 x y). by destruct (c1 x y); simpl; [apply Ha2| |].
  - intros x y z. unfold lex.
    destruct (c1 x y) eqn:E1, (c1 y z) eqn:E2; intros H1 H2; try done.
    + rewrite (comparator_eq c1 x y z) by done. by apply (Ht2 x y z).
    + by rewrite (comparator_le_lt c1 x y z) by (rewrite ?E1; done).
    + by rewrite (comparator_lt_le c1 x y z) by (rewrite ?E2; done).
    + by rewrite (comparator_lt_le c1 x y z) by (rewrite ?E2; done).
Qed.

Lemma flip_comparator c : comparator c → comparator (λ x y, c y x).
Proof. intros [Hanti Htr]. split; [intros x y; apply Hanti|intros x y z ??; by apply (Htr z y x)]. Qed.

Lemma const_comparator : comparator (λ _ _ : A, Eq).
Proof. by split. Qed.

End comparators.

(** [String.compare] is a total order: byte-wise lexicographic order. *)
Lemma string_compare_le_trans s1 s2 s3 :
  String.compare s1 s2 ≠ Gt → String.compare s2 s3 ≠ Gt → String.compare s1 s3 ≠ Gt.
Proof.
  revert s2 s3. induction s1 as [|a s1 IH]; intros [|b s2] [|c s3]; simpl; try done.
  destruct (Ascii.compare a b) eqn:Eab; [apply Ascii.compare_eq_iff in Eab as ->| |done];
    destruct (Ascii.compare b c) eqn:Ebc; try done.
  - apply IH.
  - replace (Ascii.compare a c) with Lt; [done|]. symmetry.
    unfold Ascii.compare in *. rewrite N.compare_lt_iff in *.
    apply Ascii.compare_eq_iff in Ebc as ->. done.
  - replace (Ascii.compare a c) with Lt; [done|]. symmetry.
    unfold Ascii.compare in *. rewrite N.compare_lt_iff in *. lia.
Qed.

Lemma key_compare_comparator {A} (k : A → SortKey) :
  comparator (λ x y, key_compare (k x) (k y)).
Proof.
  split.
  - intros x y. destruct (k x), (k y); simpl; try done.
    + apply Nat.compare_antisym.
    + apply String.compare_antisym.
  - intros x y z. destruct (k x), (k y), (k z); simpl; try done.
    + rewrite !Nat.compare_le_iff. lia.
    + apply string_compare_le_trans.
Qed.

Section order_by_facts.
Context {A : Type} (key : string → A → SortKey).

Lemma term_compare_comparator t : comparator (term_compare key t).
Proof.
  unfold term_compare. destruct (parse_term t) as [[] f];
    first [apply key_compare_comparator
          |apply (flip_comparator (λ x y, key_compare (key f x) (key f y))), key_compare_comparator].
Qed.

Lemma terms_compare_comparator ts : comparator (terms_compare key ts).
Proof.
  induction ts as [|t ts IH]; [apply const_comparator|].
  apply lex_comparator; [apply term_compare_comparator|done].
Qed.

#[global] Instance order_le_total ts : Total (order_le key ts).
Proof.
  intros x y. unfold order_le. destruct (terms_compare_comparator ts) as [Hanti _].
  rewrite (Hanti x.2 y.2). destruct (terms_compare key ts x.2 y.2); naive_solver.
Qed.

#[global] Instance order_le_trans ts : Transitive (order_le key ts).
Proof.
  intros x y z. unfold order_le. destruct (terms_compare_comparator ts) as [_ Htr]. apply Htr.
Qed.

Lemma remove_invalid_fields_nil valid ts :
  (∀ t, t ∈ ts → (parse_term t).2 ∉ valid) → remove_invalid_fields valid ts = [].
Proof.
  induction ts as [|t ts IH]; intros Hinv; [done|]. simpl.
  rewrite bool_decide_eq_false_2 by (apply Hinv; left).
  apply IH. intros t' Ht'. apply Hinv. by right.
Qed.

(** [order_by] only reorders. *)
Lemma order_by_Permutation ts rows : order_by key ts rows ≡ₚ rows.
Proof. destruct ts; [done|apply merge_sort_Permutation]. Qed.

Lemma StronglySorted_impl {B} (R1 R2 : relation B) (l : list B) :
  (∀ x y, R1 x y → R2 x y) → StronglySorted R1 l → StronglySorted R2 l.
Proof. intros HR. induction 1; constructor; [done|]. eapply Forall_impl; eauto. Qed.

Lemma StronglySorted_total {B} (R : relation B) (l : list B) :
  (∀ x y, R x y) → StronglySorted R l.
Proof. intros HR. induction l; constructor; [done|by apply Forall_forall]. Qed.

(** The rows come out sorted by the terms; without a term every pair
    of rows may come in either order. *)
Lemma order_by_sorted ts rows : StronglySorted (order_le key ts) (order_by key ts rows).
Proof.
  destruct ts as [|t ts].
  - apply StronglySorted_total. by intros.
  - simpl. apply StronglySorted_merge_sort; apply _.
Qed.

End order_by_facts.
