(* ===== verification/Views.v ===== *)
(** * Views: [event_app/views.py]

    One Module per viewset.  A handler takes the request, the primary key
    from the URL (a string, as the router captures it) and the database,
    and returns the outcome together with the database after the request:
    [Ok (status, body)] for a [Response] the code returns, [Err e] for an
    exception DRF turns into an error response.  Each handler starts with
    [check_permissions] for its [permission_classes], reads through
    [get_queryset] and DRF's [filter_queryset] ([SearchFilter], which
    selects rows, and, in the list handlers, [OrderingFilter] of
    Ordering.v, which sorts them: [list_rows]), and finds a detail row
    with [get_object].

    [EventViewSet.register] is split the way the code is: the checks of
    lines 45-56 read the database and decide ([register_check]); line 58
    writes ([register_commit]).  Concurrency.v interleaves the two. *)

From S2P Require Import Prelude PyStr Models Http Permissions Serializers Ordering.
From Stdlib Require Import Ascii String.

Inductive Body :=
| Detail (msg : string)
| AttendanceBody (a : AttendanceSerializer.repr)
| AttendanceList (l : list AttendanceSerializer.repr)
| EventBody (e : EventSerializer.repr)
| EventList (l : list EventSerializer.repr)
| CategoryBody (c : CategorySerializer.repr)
| CategoryList (l : list CategorySerializer.repr)
| NoContent
| ApiRoot (links : list (string * string))  (* DefaultRouter's APIRootView *)
| Metadata.                                  (* SimpleMetadata of an OPTIONS request *)

Definition Response : Type := nat * Body.

(** A handler's result and the database it leaves behind. *)
Definition Outcome : Type := Result APIError Response * DB.t.

Definition of_option {A} (e : APIError) (o : option A) : Result APIError A :=
  match o with Some a => Ok a | None => Err e end.

(** [request.user] once a permission class has let the request in. *)
Definition request_user (r : Request) : Result APIError nat :=
  match req_user r with Some u => Ok u | None => Err NotAuthenticated end.

(** ** DRF's generic machinery *)

(** [SearchFilter.get_search_terms]: the [search] parameter with NUL
    characters removed and commas read as spaces, split on whitespace. *)
Definition search_terms (r : Request) : list string :=
  match qd_get "search" (query_params r) with
  | Some p =>
      py_split (py_replace_char "," " "
        (string_of_list_ascii (filter (λ c, c ≠ Ascii.zero) (list_ascii_of_string p))))
  | None => []
  end.

(** [SearchFilter.filter_queryset]: every term must be [icontains] in
    one of the [search_fields] (a null column matches nothing). *)
Definition search_match {A} (fields : A → list (option string)) (terms : list string)
    (a : A) : bool :=
  forallb (λ t, existsb (λ f, match f with Some s => icontains s t | None => false end)
                        (fields a)) terms.

Definition search_filter {A} (fields : A → list (option string)) (terms : list string)
    (qs : gmap nat A) : gmap nat A :=
  match terms with
  | [] => qs
  | _ => filter (λ kv : nat * A, search_match fields terms kv.2 = true) qs
  end.

(** [GenericAPIView.get_object]: [get_object_or_404(queryset, pk=pk)];
    a [pk] that [int()] rejects is a 404 as well. *)
Definition get_object {A} (qs : gmap nat A) (pk : string) : Result APIError (nat * A) :=
  match py_int pk with
  | Some z =>
      if bool_decide (0 ≤ z)%Z
      then match qs !! Z.to_nat z with
           | Some a => Ok (Z.to_nat z, a)
           | None => Err NotFound
           end
      else Err NotFound
  | None => Err NotFound
  end.

(** ** [class EventViewSet(viewsets.ModelViewSet)] *)
Module EventViewSet.
Definition permission_classes := IsAuthenticatedOrReadOnly_.

(** [search_fields = ['title', 'description', 'location']] *)
Definition search_fields (e : Event.t) : list (option string) :=
  [Some (Event.title e); Some (Event.description e); Some (Event.location e)].

(** [queryset.filter(category__id=category)]: [int(category)] when the
    lookup is built; a [ValueError] there is a 500. *)
Definition category_is (z : Z) (e : Event.t) : bool :=
  match Event.category e with Some c => bool_decide (Z.of_nat c = z) | None => false end.

Definition get_queryset (r : Request) (db : DB.t) : Result APIError (gmap nat Event.t) :=
  let queryset := DB.events db in
  let category := qd_get "category" (query_params r) in
  let status_param := qd_get "status" (query_params r) in
  let featured := qd_get "featured" (query_params r) in
  queryset ← (match category with
              | Some c =>
                  if py_truthy category then
                    match py_int c with
                    | Some z => Ok (filter (λ kv : nat * Event.t, category_is z kv.2 = true) queryset)
                    | None => Err (ServerError "ValueError")
                    end
                  else Ok queryset
              | None => Ok queryset
              end);
  let queryset :=
    if py_truthy status_param
    then filter (λ kv : nat * Event.t,
                   Some (Event.status_value (Event.status kv.2)) = status_param) queryset
    else queryset in
  let queryset :=
    if py_truthy featured && bool_decide (py_lower <$> featured = Some "true"%string)
    then filter (λ kv : nat * Event.t, Event.is_featured kv.2 = true) queryset
    else queryset in
  Ok queryset.

Definition filter_queryset (r : Request) (qs : gmap nat Event.t) : gmap nat Event.t :=
  search_filter search_fields (search_terms r) qs.

(** [ordering_fields = ['start_date', 'created_at', 'title']] *)
Definition ordering_fields : list string := ["start_date"; "created_at"; "title"].

(** The column of each of the [ordering_fields] (no other name passes
    [remove_invalid_fields]). *)
Definition order_key (f : string) (e : Event.t) : SortKey :=
  if String.eqb f "start_date" then KNat (Event.start_date e)
  else if String.eqb f "created_at" then KNat (Event.created_at e)
  else KStr (Event.title e).

(** The rows of a list response: [SearchFilter], then [OrderingFilter]. *)
Definition list_rows (r : Request) (qs : gmap nat Event.t) : list (nat * Event.t) :=
  order_by order_key (get_ordering ordering_fields r) (map_to_list (filter_queryset r qs)).

Definition get_object (r : Request) (db : DB.t) (pk : string)
    : Result APIError (nat * Event.t) :=
  qs ← get_queryset r db; Views.get_object (filter_queryset r qs) pk.

(** [event.max_attendees and event.attendances.count() >= event.max_attendees] *)
Definition capacity_reached (db : DB.t) (epk : nat) (e : Event.t) : bool :=
  match Event.max_attendees e with
  | Some m => negb (m =? 0) && (m <=? qs_count (DB.event_attendances db epk))
  | None => false
  end.

(** The decision the checks of [register] take. *)
Inductive RegisterPlan :=
| AlreadyRegistered
| CapacityReached
| CreateAttendance (a : Attendance.t).

Definition already_registered_msg : string := "You are already registered for this event.".
Definition capacity_msg : string := "This event has reached maximum capacity.".

(** Lines 43-56: [permission_classes=[IsAuthenticated]], [get_object()],
    the duplicate check, then the capacity check. *)
Definition register_check (r : Request) (db : DB.t) (pk : string)
    : Result APIError RegisterPlan :=
  check_permissions IsAuthenticated_ r ≫= λ _,
  ev ← get_object r db pk;
  let '(epk, event) := ev in
  user ← request_user r;
  if qs_exists (DB.attendance_of db epk user) then Ok AlreadyRegistered
  else if capacity_reached db epk event then Ok CapacityReached
  else Ok (CreateAttendance (Attendance.mk epk user Attendance.registered (req_now r))).

(** Lines 50-60: the response for each decision;
    [Attendance.objects.create(...)] and its serialization. *)
Definition register_commit (plan : RegisterPlan) (db : DB.t) : Outcome :=
  match plan with
  | AlreadyRegistered => (Ok (HTTP_400_BAD_REQUEST, Detail already_registered_msg), db)
  | CapacityReached => (Ok (HTTP_400_BAD_REQUEST, Detail capacity_msg), db)
  | CreateAttendance a =>
      match DB.insert_attendance a db with
      | Err _ => (Err (ServerError "IntegrityError"), db)
      | Ok (apk, db') =>
          (rep ← of_option (ServerError "DoesNotExist")
                   (AttendanceSerializer.to_representation db' apk a);
           Ok (HTTP_201_CREATED, AttendanceBody rep), db')
      end
  end.

Definition register (r : Request) (db : DB.t) (pk : string) : Outcome :=
  match register_check r db pk with
  | Err e => (Err e, db)
  | Ok plan => register_commit plan db
  end.

(** Lines 62-67. *)
Definition attendees (r : Request) (db : DB.t) (pk : string) : Result APIError Response :=
  check_permissions IsAuthenticated_ r ≫= λ _,
  ev ← get_object r db pk;
  reps ← of_option (ServerError "DoesNotExist")
           (AttendanceSerializer.to_representation_many db (DB.event_attendances db ev.1));
  Ok (HTTP_200_OK, AttendanceList reps).

(** [ModelViewSet.list] *)
Definition list (r : Request) (db : DB.t) : Result APIError Response :=
  check_permissions permission_classes r ≫= λ _,
  qs ← get_queryset r db;
  reps ← of_option (ServerError "DoesNotExist")
           (mapM (λ kv : nat * Event.t, EventSerializer.to_representation db kv.1 kv.2)
                 (list_rows r qs));
  Ok (HTTP_200_OK, EventList reps).

(** [ModelViewSet.retrieve] *)
Definition retrieve (r : Request) (db : DB.t) (pk : string) : Result APIError Response :=
  check_permissions permission_classes r ≫= λ _,
  ev ← get_object r db pk;
  rep ← of_option (ServerError "DoesNotExist") (EventSerializer.to_representation db ev.1 ev.2);
  Ok (HTTP_200_OK, EventBody rep).

(** [ModelViewSet.create] with [perform_create] (lines 25-26):
    [serializer.save(organizer=self.request.user)]. *)
Definition create (r : Request) (db : DB.t) (d : EventInput.t) : Outcome :=
  match check_permissions permission_classes r ≫= λ _,
        check bool_decide (EventInput.errors db false d = [])
          else FieldErrors (EventInput.errors db false d);
        request_user r with
  | Err e => (Err e, db)
  | Ok user =>
      let e := EventInput.apply_to d user (req_now r) (EventInput.defaults (req_now r)) in
      match DB.insert_event e db with
      | Err _ => (Err (ServerError "IntegrityError"), db)
      | Ok (pk, db') =>
          (rep ← of_option (ServerError "DoesNotExist") (EventSerializer.to_representation db' pk e);
           Ok (HTTP_201_CREATED, EventBody rep), db')
      end
  end.

(** [ModelViewSet.update] / [partial_update]: no [perform_update] is
    overridden, so [serializer.save()] writes the [organizer] given as
    [organizer_id]. *)
Definition update (r : Request) (db : DB.t) (pk : string) (partial : bool)
    (d : EventInput.t) : Outcome :=
  match check_permissions permission_classes r ≫= λ _,
        ev ← get_object r db pk;
        check bool_decide (EventInput.errors db partial d = [])
          else FieldErrors (EventInput.errors db partial d);
        Ok ev with
  | Err e => (Err e, db)
  | Ok (epk, e) =>
      let e' := EventInput.apply_to d (default (Event.organizer e) (EventInput.organizer_id d))
                  (req_now r) e in
      match DB.update_event epk e' db with
      | Err _ => (Err (ServerError "IntegrityError"), db)
      | Ok db' =>
          (rep ← of_option (ServerError "DoesNotExist") (EventSerializer.to_representation db' epk e');
           Ok (HTTP_200_OK, EventBody rep), db')
      end
  end.

(** [ModelViewSet.destroy] *)
Definition destroy (r : Request) (db : DB.t) (pk : string) : Outcome :=
  match check_permissions permission_classes r ≫= λ _, get_object r db pk with
  | Err e => (Err e, db)
  | Ok (epk, _) => (Ok (HTTP_204_NO_CONTENT, NoContent), DB.delete_event epk db)
  end.
End EventViewSet.

(** ** [class AttendanceViewSet(viewsets.ModelViewSet)] *)
Module AttendanceViewSet.
Definition permission_classes := IsAuthenticated_.

(** Lines 74-78: staff see every row, anyone else their own. *)
Definition get_queryset (db : DB.t) (user : nat) : gmap nat Attendance.t :=
  let is_staff := match DB.users db !! user with Some u => User.is_staff u | None => false end in
  if is_staff then DB.attendances db else DB.user_attendances db user.

Definition list (r : Request) (db : DB.t) : Result APIError Response :=
  check_permissions permission_classes r ≫= λ _,
  user ← request_user r;
  reps ← of_option (ServerError "DoesNotExist")
           (AttendanceSerializer.to_representation_many db (get_queryset db user));
  Ok (HTTP_200_OK, AttendanceList reps).

Definition retrieve (r : Request) (db : DB.t) (pk : string) : Result APIError Response :=
  check_permissions permission_classes r ≫= λ _,
  user ← request_user r;
  row ← Views.get_object (get_queryset db user) pk;
  rep ← of_option (ServerError "DoesNotExist") (AttendanceSerializer.to_representation db row.1 row.2);
  Ok (HTTP_200_OK, AttendanceBody rep).

(** [ModelViewSet.create]: [is_valid()] then [Attendance.objects.create]
    with the validated [event], [user] and [status] (default
    ['registered']). *)
Definition create (r : Request) (db : DB.t) (d : AttendanceSerializer.input) : Outcome :=
  match check_permissions permission_classes r ≫= λ _,
        AttendanceSerializer.validate db None false d with
  | Err e => (Err e, db)
  | Ok v =>
      let a := Attendance.mk (AttendanceSerializer.v_event v) (AttendanceSerializer.v_user v)
                 (default Attendance.registered (AttendanceSerializer.v_status v)) (req_now r) in
      match DB.insert_attendance a db with
      | Err _ => (Err (ServerError "IntegrityError"), db)
      | Ok (apk, db') =>
          (rep ← of_option (ServerError "DoesNotExist")
                   (AttendanceSerializer.to_representation db' apk a);
           Ok (HTTP_201_CREATED, AttendanceBody rep), db')
      end
  end.

Definition update (r : Request) (db : DB.t) (pk : string) (partial : bool)
    (d : AttendanceSerializer.input) : Outcome :=
  match check_permissions permission_classes r ≫= λ _,
        user ← request_user r;
        row ← Views.get_object (get_queryset db user) pk;
        v ← AttendanceSerializer.validate db (Some row) partial d;
        Ok (row, v) with
  | Err e => (Err e, db)
  | Ok ((apk, a), v) =>
      let a' := Attendance.mk (AttendanceSerializer.v_event v) (AttendanceSerializer.v_user v)
                  (default (Attendance.status a) (AttendanceSerializer.v_status v))
                  (Attendance.registered_at a) in
      match DB.update_attendance apk a' db with
      | Err _ => (Err (ServerError "IntegrityError"), db)
      | Ok db' =>
          (rep ← of_option (ServerError "DoesNotExist")
                   (AttendanceSerializer.to_representation db' apk a');
           Ok (HTTP_200_OK, AttendanceBody rep), db')
      end
  end.

Definition destroy (r : Request) (db : DB.t) (pk : string) : Outcome :=
  match check_permissions permission_classes r ≫= λ _,
        user ← request_user r; Views.get_object (get_queryset db user) pk with
  | Err e => (Err e, db)
  | Ok (apk, _) => (Ok (HTTP_204_NO_CONTENT, NoContent), DB.delete_attendance apk db)
  end.

(** Lines 80-85: [Attendance.objects.filter(user=user)] for everyone. *)
Definition my_events (r : Request) (db : DB.t) : Result APIError Response :=
  check_permissions permission_classes r ≫= λ _,
  user ← request_user r;
  reps ← of_option (ServerError "DoesNotExist")
           (AttendanceSerializer.to_representation_many db (DB.user_attendances db user));
  Ok (HTTP_200_OK, AttendanceList reps).
End AttendanceViewSet.

(** ** [class CategoryViewSet(viewsets.ModelViewSet)] *)
Module CategoryViewSet.
Definition permission_classes := IsAuthenticatedOrReadOnly_.

(** [search_fields = ['name', 'description']] *)
Definition search_fields (c : Category.t) : list (option string) :=
  [Some (Category.name c); Category.description c].

(** [queryset = Category.objects.all()] *)
Definition get_queryset (db : DB.t) : gmap nat Category.t := DB.categories db.

Definition filter_queryset (r : Request) (qs : gmap nat Category.t) : gmap nat Category.t :=
  search_filter search_fields (search_terms r) qs.

(** [ordering_fields = ['name']] *)
Definition ordering_fields : list string := ["name"].

Definition order_key (_ : string) (c : Category.t) : SortKey := KStr (Category.name c).

Definition list_rows (r : Request) (qs : gmap nat Category.t) : list (nat * Category.t) :=
  order_by order_key (get_ordering ordering_fields r) (map_to_list (filter_queryset r qs)).

Definition list (r : Request) (db : DB.t) : Result APIError Response :=
  check_permissions permission_classes r ≫= λ _,
  Ok (HTTP_200_OK, CategoryList
        ((λ kv : nat * Category.t, CategorySerializer.to_representation kv.1 kv.2)
           <$> list_rows r (get_queryset db))).

Definition retrieve (r : Request) (db : DB.t) (pk : string) : Result APIError Response :=
  check_permissions permission_classes r ≫= λ _,
  c ← Views.get_object (filter_queryset r (get_queryset db)) pk;
  Ok (HTTP_200_OK, CategoryBody (CategorySerializer.to_representation c.1 c.2)).

Definition create (r : Request) (db : DB.t) (d : CategoryInput.t) : Outcome :=
  match check_permissions permission_classes r ≫= λ _,
        guard_or (FieldErrors (CategoryInput.errors false d))
                 (bool_decide (CategoryInput.errors false d = [])) with
  | Err e => (Err e, db)
  | Ok _ =>
      let c := CategoryInput.apply_to d CategoryInput.defaults in
      let '(pk, db') := DB.insert_category c db in
      (Ok (HTTP_201_CREATED, CategoryBody (CategorySerializer.to_representation pk c)), db')
  end.

Definition update (r : Request) (db : DB.t) (pk : string) (partial : bool)
    (d : CategoryInput.t) : Outcome :=
  match check_permissions permission_classes r ≫= λ _,
        c ← Views.get_object (filter_queryset r (get_queryset db)) pk;
        guard_or (FieldErrors (CategoryInput.errors partial d))
                 (bool_decide (CategoryInput.errors partial d = [])) ≫= λ _,
        Ok c with
  | Err e => (Err e, db)
  | Ok (cpk, c) =>
      let c' := CategoryInput.apply_to d c in
      (Ok (HTTP_200_OK, CategoryBody (CategorySerializer.to_representation cpk c')),
       DB.update_category cpk c' db)
  end.

Definition destroy (r : Request) (db : DB.t) (pk : string) : Outcome :=
  match check_permissions permission_classes r ≫= λ _,
        Views.get_object (filter_queryset r (get_queryset db)) pk with
  | Err e => (Err e, db)
  | Ok (cpk, _) => (Ok (HTTP_204_NO_CONTENT, NoContent), DB.delete_category cpk db)
  end.
End CategoryViewSet.

(** ** [events/views.py]: the older generic views *)
Module LegacyEventViews.
(** [Event.objects.all().order_by('-start_time')]: [order_by] resolves
    each name (less a leading ['-']) against the model's fields when the
    query set is built, and raises [FieldError] on an unknown one.  The
    file imports [Event] from [events/models.py], which is not among the
    sources; as the spec does, the fields are those of the [Event] of
    [event_app/models.py]. *)
Definition ordering : string := "-start_time".

Definition resolve_order_field (fields : list string) (o : string) : Result APIError string :=
  let name := match o with String "-"%char rest => rest | _ => o end in
  if bool_decide (name ∈ fields) then Ok name
  else Err (ServerError ("FieldError: Cannot resolve keyword '" +:+ name +:+ "' into field.")).

(** [class EventListCreateView]: its [queryset]. *)
Definition list_create_queryset (db : DB.t) : Result APIError (gmap nat Event.t) :=
  resolve_order_field Event.field_names ordering ≫= λ _, Ok (DB.events db).

(** [class EventRetrieveUpdateDestroyView]: [Event.objects.all()]. *)
Definition retrieve_update_destroy_queryset (db : DB.t) : gmap nat Event.t := DB.events db.
End LegacyEventViews.
