(* ===== verification/Listing.v ===== *)
(** * Listing: what [GET /events/] and [GET /categories/] return

    The list handlers of Views.v run DRF's two filter backends on the
    query set of [get_queryset]: [SearchFilter] keeps the rows where
    every search term is a case-insensitive substring of one of the
    [search_fields], and [OrderingFilter] sorts them by the valid terms
    of [?ordering=].  This file characterises both against their
    specifications: [icontains] is the substring relation
    ([contains_list_spec]), the search keeps exactly the matching rows,
    the ordering sorts by the requested column and direction and only
    reorders, and terms naming a field outside [ordering_fields] are
    dropped without an error. *)

From S2P Require Import Prelude PyStr Models Http Permissions Serializers Ordering Views.
From stdpp Require Import sorting.
From Stdlib Require Import Ascii String.

(** The [?ordering=] values below are built with [+:+]; let [simpl]
    compute them. *)
#[local] Arguments String.append : simpl nomatch.

(** Two events for the concrete runs: "A" starts at 100, "B" at 200. *)
Definition sample_event_at (title : string) (start : nat) : Event.t :=
  Event.mk title "d" "l" start 0 0 0 None 1 None Event.upcoming false None.
Definition two_events : gmap nat Event.t :=
  {[0 := sample_event_at "A" 100; 1 := sample_event_at "B" 200]}.
Definition ordering_request (p : string) : Request := mkRequest None GET [("ordering", p)] 0.

(** ** Substrings *)

Lemma is_prefix_spec p l : is_prefix p l = true ↔ ∃ suf, l = p ++ suf.
Proof.
  revert l. induction p as [|c p IH]; intros [|d l]; simpl.
  - naive_solver.
  - naive_solver.
  - split; [done|]. intros [suf ?]. discriminate.
  - rewrite andb_true_iff, bool_decide_eq_true, IH. naive_solver.
Qed.

(** [needle in hay] is the substring relation. *)
Lemma contains_list_spec hay needle :
  contains_list hay needle = true ↔ ∃ pre suf, hay = pre ++ needle ++ suf.
Proof.
  induction hay as [|c hay IH]; simpl; rewrite orb_true_iff, is_prefix_spec.
  - split.
    + intros [[suf Hs]|?]; [by exists [], suf|discriminate].
    + intros ([|? pre] & suf & H); [left; by exists suf|discriminate].
  - rewrite IH. split.
    + intros [[suf Hs]|(pre & suf & Hs)]; [by exists [], suf|].
      exists (c :: pre), suf. by rewrite Hs.
    + intros ([|d pre] & suf & H); [left; by exists suf|].
      injection H as -> ->. right. by exists pre, suf.
Qed.

(** [hay__icontains=needle]: [needle], lower-cased, occurs in [hay],
    lower-cased. *)
Lemma icontains_spec hay needle :
  icontains hay needle = true ↔
  ∃ pre suf, list_ascii_of_string (py_lower hay) =
             pre ++ list_ascii_of_string (py_lower needle) ++ suf.
Proof. apply contains_list_spec. Qed.

(** ** The search *)

Lemma search_filter_lookup {A} (fields : A → list (option string)) terms (qs : gmap nat A) k a :
  search_filter fields terms qs !! k = Some a ↔
  qs !! k = Some a ∧
  ∀ t, t ∈ terms → ∃ s, Some s ∈ fields a ∧ icontains s t = true.
Proof.
  destruct terms as [|t0 terms].
  - split; [intros; split; [done|intros ? []%elem_of_nil]|naive_solver].
  - change (search_filter fields (t0 :: terms) qs)
      with (filter (λ kv : nat * A, search_match fields (t0 :: terms) kv.2 = true) qs).
    rewrite map_lookup_filter_Some. unfold search_match. cbn [snd].
    rewrite forallb_forall. setoid_rewrite <- list_elem_of_In.
    setoid_rewrite existsb_exists. setoid_rewrite <- list_elem_of_In.
    split; intros [Hk H]; split; try done; intros t Ht; destruct (H t Ht) as [o [Ho Hs]].
    + destruct o as [s|]; [by exists s|done].
    + by exists (Some o).
Qed.

(** C18 [GET /events/?search=...] keeps exactly the rows of the
    query set in which every search term (the [search] parameter split
    on whitespace and commas) occurs, ignoring ASCII case, in the title,
    the description or the location. *)
Theorem events_search r qs k e :
  EventViewSet.filter_queryset r qs !! k = Some e ↔
  qs !! k = Some e ∧
  ∀ t, t ∈ search_terms r →
    ∃ s, s ∈ [Event.title e; Event.description e; Event.location e] ∧
      ∃ pre suf, list_ascii_of_string (py_lower s) =
                 pre ++ list_ascii_of_string (py_lower t) ++ suf.
Proof.
  unfold EventViewSet.filter_queryset. rewrite search_filter_lookup.
  unfold EventViewSet.search_fields. setoid_rewrite icontains_spec.
  split; intros [Hk H]; split; try done; intros t Ht; destruct (H t Ht) as (s & Hs & Hc);
    exists s; split; try done; revert Hs; rewrite !elem_of_cons, elem_of_nil; naive_solver.
Qed.

(** ** The ordering *)

(** [?ordering=f] or [?ordering=-f] for one of the [ordering_fields]
    selects that single term. *)
Lemma events_get_ordering_single r f (desc : bool) :
  f ∈ EventViewSet.ordering_fields →
  qd_get "ordering" (query_params r) = Some ((if desc then "-"%string else ""%string) +:+ f) →
  get_ordering EventViewSet.ordering_fields r = [(if desc then "-"%string else ""%string) +:+ f].
Proof.
  intros Hf Hq. unfold get_ordering. rewrite Hq.
  revert Hf. unfold EventViewSet.ordering_fields. rewrite !elem_of_cons, elem_of_nil.
  intros [->|[->|[->|[]]]]; destruct desc; reflexivity.
Qed.

(** C19 [GET /events/?ordering=f] (or [-f]) for a field [f] of
    [ordering_fields] lists exactly the rows the search keeps, sorted
    by column [f], ascending (descending): no row comes before one
    whose [f] is smaller (greater). *)
Theorem events_ordering r qs f (desc : bool) :
  f ∈ EventViewSet.ordering_fields →
  qd_get "ordering" (query_params r) = Some ((if desc then "-"%string else ""%string) +:+ f) →
  EventViewSet.list_rows r qs ≡ₚ map_to_list (EventViewSet.filter_queryset r qs) ∧
  StronglySorted (λ x y : nat * Event.t,
      (if desc then key_compare (EventViewSet.order_key f y.2) (EventViewSet.order_key f x.2)
       else key_compare (EventViewSet.order_key f x.2) (EventViewSet.order_key f y.2)) ≠ Gt)
    (EventViewSet.list_rows r qs).
Proof.
  intros Hf Hq. unfold EventViewSet.list_rows.
  rewrite (events_get_ordering_single r f desc) by done.
  split; [apply order_by_Permutation|].
  eapply StronglySorted_impl; [|apply order_by_sorted].
  intros x y. unfold order_le. simpl. unfold lex, term_compare.
  revert Hf. unfold EventViewSet.ordering_fields. rewrite !elem_of_cons, elem_of_nil.
  intros [->|[->|[->|[]]]]; destruct desc; simpl; by repeat case_match.
Qed.

(** [OrderingFilter] drops every term whose field is not in
    [ordering_fields] without an error: an [?ordering=] naming only
    such fields (e.g. [organizer] or [-max_attendees]) lists the rows
    unordered, as if it were absent. *)
Theorem events_ordering_invalid r qs p :
  qd_get "ordering" (query_params r) = Some p →
  (∀ t, t ∈ strip_str <$> split_on "," p → (parse_term t).2 ∉ EventViewSet.ordering_fields) →
  EventViewSet.list_rows r qs = map_to_list (EventViewSet.filter_queryset r qs).
Proof.
  intros Hq Hinv. unfold EventViewSet.list_rows, get_ordering. rewrite Hq.
  replace (remove_invalid_fields _ _) with (@nil string); [by destruct (py_truthy _)|].
  symmetry. by apply remove_invalid_fields_nil.
Qed.

(** ** Witnesses *)

Lemma events_ordering_witness :
  EventViewSet.list_rows (ordering_request "-start_date") two_events ≡ₚ
    map_to_list (EventViewSet.filter_queryset (ordering_request "-start_date") two_events) ∧
  StronglySorted (λ x y : nat * Event.t,
      (if true then key_compare (EventViewSet.order_key "start_date" y.2)
                                (EventViewSet.order_key "start_date" x.2)
       else key_compare (EventViewSet.order_key "start_date" x.2)
                        (EventViewSet.order_key "start_date" y.2)) ≠ Gt)
    (EventViewSet.list_rows (ordering_request "-start_date") two_events).
Proof.
  apply (events_ordering (ordering_request "-start_date") two_events "start_date" true);
    [apply (bool_decide_unpack _); vm_compute; reflexivity|reflexivity].
Defined.

Lemma events_ordering_invalid_witness :
  EventViewSet.list_rows (ordering_request "organizer,-max_attendees") two_events =
    map_to_list (EventViewSet.filter_queryset (ordering_request "organizer,-max_attendees") two_events).
Proof.
  apply (events_ordering_invalid _ _ "organizer,-max_attendees"); [reflexivity|].
  apply (Forall_forall (λ t, (parse_term t).2 ∉ EventViewSet.ordering_fields)).
  apply (bool_decide_unpack _). vm_compute. reflexivity.
Defined.
