(* ===== verification/Registration.v ===== *)
(** * Registration: what [EventViewSet.register] guarantees

    The behaviour of [POST /events/{pk}/register/] on every branch of the
    code (anonymous caller, unknown event, already registered, capacity
    reached, created), the integrity of the database after it, the
    capacity bound it maintains when it is the only writer of attendance
    rows, the spec's capacity law over a sequence of calls
    ([register_seq]: N callers accepted, the next refused), and where the
    code departs from the spec: a [max_attendees] of 0 means no limit,
    cancelled attendances count toward capacity, the list filters of the
    query string apply to the event lookup, and the event's status is
    not checked. *)

From S2P Require Import Prelude PyStr Models Http Permissions Serializers Views.

Import EventViewSet (RegisterPlan, AlreadyRegistered, CapacityReached, CreateAttendance, register_check, register_commit, register, capacity_reached, already_registered_msg, capacity_msg, get_queryset, filter_queryset, search_fields, category_is).

(** Every event with a non-zero [max_attendees] has at most that many
    attendance rows. *)
Definition capacity_ok (db : DB.t) : Prop :=
  ∀ epk ev m, DB.events db !! epk = Some ev → Event.max_attendees ev = Some m → m ≠ 0 →
    qs_count (DB.event_attendances db epk) ≤ m.

(** No attendance row for [(epk, u)]. *)
Definition not_registered (db : DB.t) (epk u : nat) : Prop :=
  ∀ i a, DB.attendances db !! i = Some a →
    ¬ (Attendance.event a = epk ∧ Attendance.user a = u).

(** ** Reading the event *)

(** The HTTP status of a handler's result. *)
Definition http_status (o : Result APIError Response) : nat :=
  match o with Ok (code, _) => code | Err e => status_code e end.

(** A small database for the concrete runs: user 1 organizes event 0
    ("Jazz night", [max_attendees = Some 2]); users 2, 3 and 4 attend. *)
Definition sample_user (n : string) : User.t := User.mk n (n +:+ "@example.org") n n false.
Definition sample_event (cap : option nat) : Event.t :=
  Event.mk "Jazz night" "Live music" "Main hall" 100 200 1 1 None 1 None
           Event.upcoming false cap.
Definition sample_db (cap : option nat) (atts : gmap nat Attendance.t) : DB.t :=
  DB.mk (<[1:=sample_user "org"]> (<[2:=sample_user "ann"]>
          (<[3:=sample_user "bob"]> (<[4:=sample_user "cat"]> ∅))))
        ∅ (<[0:=sample_event cap]> ∅) atts 0 1 (S (size atts)).
Definition sample_request (u : nat) : Request := mkRequest (Some u) POST [] 50.
Definition anonymous_request : Request := mkRequest None POST [] 50.
Definition filtered_request (u : nat) (status : string) : Request :=
  mkRequest (Some u) POST [("status", status)] 50.
Definition cancelled_db : DB.t :=
  DB.mk (DB.users (sample_db (Some 2) ∅)) ∅
        (<[0 := Event.mk "Jazz night" "Live music" "Main hall" 100 200 1 1 None 1 None
                 Event.cancelled false (Some 2)]> ∅) ∅ 0 1 1.

(** A sequence of calls [POST /events/{pk}/register/], each on the
    database the previous one left: the responses in order and the final
    database. *)
Fixpoint register_seq (db : DB.t) (calls : list (Request * string))
    : list (Result APIError Response) * DB.t :=
  match calls with
  | [] => ([], db)
  | (r, pk) :: cs =>
      let '(o, db1) := register r db pk in
      let '(os, db2) := register_seq db1 cs in (o :: os, db2)
  end.

(** The caller of each call. *)
Definition callers (calls : list (Request * string)) : list (option nat) :=
  map (λ c, req_user c.1) calls.

(** A call by a user of the users table, not registered for event [epk],
    whose [get_object] finds [epk]. *)
Definition fresh_call (db : DB.t) (epk : nat) (ev : Event.t) (c : Request * string) : Prop :=
  ∃ u, req_user c.1 = Some u ∧ is_Some (DB.users db !! u) ∧ not_registered db epk u ∧
       EventViewSet.get_object c.1 db c.2 = Ok (epk, ev).

(** [n] rows fit under the event's limit (none, or 0, is no limit). *)
Definition room_for (ev : Event.t) (n : nat) : Prop :=
  ∀ m, Event.max_attendees ev = Some m → m ≠ 0 → n ≤ m.

Lemma search_filter_subseteq {A} fields terms (qs : gmap nat A) :
  search_filter fields terms qs ⊆ qs.
Proof. destruct terms; [done|]. apply map_filter_subseteq. Qed.

Lemma get_queryset_subseteq r db qs :
  get_queryset r db = Ok qs → qs ⊆ DB.events db.
Proof.
  unfold get_queryset. intros Hq.
  apply bind_Ok_iff in Hq as (q0 & Hq0 & Hq). injection Hq as <-.
  assert (q0 ⊆ DB.events db).
  { repeat case_match; simplify_eq; try done. apply map_filter_subseteq. }
  repeat case_match; repeat (etrans; [apply map_filter_subseteq|]); done.
Qed.

(** [get_queryset] reads the events table only. *)
Lemma get_queryset_events r db db' :
  DB.events db = DB.events db' → get_queryset r db = get_queryset r db'.
Proof. unfold get_queryset. by intros ->. Qed.

Lemma get_object_lookup {A} (qs : gmap nat A) pk k a :
  Views.get_object qs pk = Ok (k, a) → qs !! k = Some a.
Proof.
  unfold Views.get_object.
  destruct (py_int pk) as [z|]; [|discriminate].
  case_decide; [|discriminate].
  destruct (qs !! Z.to_nat z) eqn:Hk; [|discriminate].
  by intros [= <- <-].
Qed.

(** The event [get_object] returns is a row of the events table. *)
Lemma get_object_event r db pk epk ev :
  EventViewSet.get_object r db pk = Ok (epk, ev) → DB.events db !! epk = Some ev.
Proof.
  unfold EventViewSet.get_object. intros Hg. simpl_res.
  eapply lookup_weaken; [by eapply get_object_lookup|].
  etrans; [apply search_filter_subseteq|]. by eapply get_queryset_subseteq.
Qed.

Lemma get_object_events r db db' pk :
  DB.events db = DB.events db' →
  EventViewSet.get_object r db pk = EventViewSet.get_object r db' pk.
Proof. intros He. unfold EventViewSet.get_object. by rewrite (get_queryset_events r db db'). Qed.

(** ** The checks *)

(** With an authenticated caller, [register_check] is the duplicate check
    and then the capacity check on the event [get_object] found. *)
Lemma register_check_auth r db pk u :
  req_user r = Some u →
  register_check r db pk =
    (ev ← EventViewSet.get_object r db pk;
     Ok (if qs_exists (DB.attendance_of db ev.1 u) then AlreadyRegistered
         else if capacity_reached db ev.1 ev.2 then CapacityReached
         else CreateAttendance (Attendance.mk ev.1 u Attendance.registered (req_now r)))).
Proof.
  intros Hu. unfold register_check.
  rewrite check_permissions_authenticated by (unfold is_authenticated; by rewrite Hu).
  destruct (EventViewSet.get_object r db pk) as [[epk ev]|]; simpl; [|done].
  unfold request_user. rewrite Hu. simpl. by repeat case_match.
Qed.

Lemma capacity_reached_spec db epk e :
  capacity_reached db epk e = true ↔
  ∃ m, Event.max_attendees e = Some m ∧ m ≠ 0 ∧ m ≤ qs_count (DB.event_attendances db epk).
Proof.
  unfold capacity_reached. destruct (Event.max_attendees e) as [m|].
  - rewrite andb_true_iff, negb_true_iff, Nat.eqb_neq, Nat.leb_le. naive_solver.
  - naive_solver.
Qed.

Lemma not_registered_qs db epk u :
  not_registered db epk u ↔ qs_exists (DB.attendance_of db epk u) = false.
Proof. by rewrite DB.attendance_of_empty. Qed.

(** Inserting the fresh row [a] adds one to the count of its event. *)
Lemma event_attendances_insert db k a e :
  DB.attendances db !! k = None →
  qs_count (filter (λ kv : nat * Attendance.t, Attendance.event kv.2 = e)
              (<[k:=a]> (DB.attendances db))) =
    if decide (Attendance.event a = e) then S (qs_count (DB.event_attendances db e))
    else qs_count (DB.event_attendances db e).
Proof. intros Hk. by rewrite qs_count_insert_fresh. Qed.

(** What a [CreateAttendance] decision records about the request. *)
Lemma register_check_create r db pk a :
  register_check r db pk = Ok (CreateAttendance a) →
  ∃ u epk ev, req_user r = Some u ∧ EventViewSet.get_object r db pk = Ok (epk, ev) ∧
    a = Attendance.mk epk u Attendance.registered (req_now r) ∧
    not_registered db epk u ∧ capacity_reached db epk ev = false.
Proof.
  destruct (req_user r) as [u|] eqn:Hu.
  - rewrite (register_check_auth r db pk u Hu).
    destruct (EventViewSet.get_object r db pk) as [[epk ev]|] eqn:Hg; simpl; [|discriminate].
    destruct (qs_exists _) eqn:Hq; [discriminate|].
    destruct (capacity_reached _ _ _) eqn:Hc; [discriminate|].
    intros [= <-]. exists u, epk, ev. repeat split; try done. by apply not_registered_qs.
  - unfold register_check. by rewrite check_is_authenticated_anonymous.
Qed.

(** The commit of a [CreateAttendance] on a well-formed database. *)
Lemma register_commit_create db a :
  DB.wf db → DB.attendance_fk_ok db a = true →
  not_registered db (Attendance.event a) (Attendance.user a) →
  ∃ rep, register_commit (CreateAttendance a) db =
    (Ok (HTTP_201_CREATED, AttendanceBody rep),
     DB.mk (DB.users db) (DB.categories db) (DB.events db)
           (<[DB.seq_attendance db := a]> (DB.attendances db))
           (DB.seq_category db) (DB.seq_event db) (S (DB.seq_attendance db))) ∧
    AttendanceSerializer.id rep = DB.seq_attendance db.
Proof.
  intros Hwf Hfk Hnr. rewrite not_registered_qs in Hnr.
  unfold register_commit.
  erewrite (proj2 (DB.insert_attendance_Ok db a _ _)) by done.
  edestruct (attendance_to_representation_wf) as (rep & Hrep & _);
    [eapply DB.insert_attendance_wf; [done|by apply DB.insert_attendance_Ok]
    |simpl; apply lookup_insert_eq|].
  rewrite Hrep. simpl. exists rep. split; [done|].
  unfold AttendanceSerializer.to_representation in Hrep.
  repeat apply bind_Some in Hrep as (? & ? & Hrep). by injection Hrep as <-.
Qed.

(** ** The branches of [register] *)

(** An anonymous caller is refused with [NotAuthenticated] before
    anything is read, and the database is left as it was. *)
Theorem register_anonymous r db pk :
  req_user r = None → register r db pk = (Err NotAuthenticated, db).
Proof.
  intros Hu. unfold register, register_check.
  by rewrite check_is_authenticated_anonymous.
Qed.

(** The duplicate branch, shared by the theorems on one call and on two. *)
Lemma register_registered_branch r db pk u epk ev :
  req_user r = Some u → EventViewSet.get_object r db pk = Ok (epk, ev) →
  (∃ i a, DB.attendances db !! i = Some a ∧ Attendance.event a = epk ∧ Attendance.user a = u) →
  register r db pk = (Ok (HTTP_400_BAD_REQUEST, Detail already_registered_msg), db).
Proof.
  intros Hu Hg Hex. unfold register. rewrite (register_check_auth r db pk u Hu), Hg. simpl.
  replace (qs_exists _) with true; [done|]. symmetry.
  apply qs_exists_spec. naive_solver.
Qed.

(** C2 A caller who already has an attendance row for the event gets
    HTTP 400 "You are already registered for this event." and nothing is
    written, whatever the capacity. *)
Theorem register_already_registered r db pk u epk ev :
  req_user r = Some u → EventViewSet.get_object r db pk = Ok (epk, ev) →
  (∃ i a, DB.attendances db !! i = Some a ∧ Attendance.event a = epk ∧ Attendance.user a = u) →
  register r db pk = (Ok (HTTP_400_BAD_REQUEST, Detail already_registered_msg), db).
Proof. apply register_registered_branch. Qed.

(** C3 A caller not yet registered, for an event whose non-zero
    [max_attendees] is at most its number of attendance rows, gets HTTP
    400 "This event has reached maximum capacity." and nothing is
    written. *)
Theorem register_capacity_exceeded r db pk u epk ev m :
  req_user r = Some u → EventViewSet.get_object r db pk = Ok (epk, ev) →
  not_registered db epk u →
  Event.max_attendees ev = Some m → 0 < m → m ≤ qs_count (DB.event_attendances db epk) →
  register r db pk = (Ok (HTTP_400_BAD_REQUEST, Detail capacity_msg), db).
Proof.
  intros Hu Hg Hnr Hmax Hm Hc. unfold register. rewrite (register_check_auth r db pk u Hu), Hg.
  simpl. rewrite not_registered_qs in Hnr. rewrite Hnr.
  replace (capacity_reached db epk ev) with true; [done|]. symmetry.
  apply capacity_reached_spec. exists m. split_and!; [done|lia|done].
Qed.

(** The accepting branch, shared by the theorems on single calls and on
    sequences of calls. *)
Lemma register_accepts r db pk u epk ev :
  DB.wf db → req_user r = Some u → is_Some (DB.users db !! u) →
  EventViewSet.get_object r db pk = Ok (epk, ev) →
  not_registered db epk u → capacity_reached db epk ev = false →
  ∃ rep, register r db pk =
    (Ok (HTTP_201_CREATED, AttendanceBody rep),
     DB.mk (DB.users db) (DB.categories db) (DB.events db)
       (<[DB.seq_attendance db := Attendance.mk epk u Attendance.registered (req_now r)]>
          (DB.attendances db))
       (DB.seq_category db) (DB.seq_event db) (S (DB.seq_attendance db))) ∧
    AttendanceSerializer.id rep = DB.seq_attendance db.
Proof.
  intros Hwf Hu Huser Hg Hnr Hc. unfold register.
  rewrite (register_check_auth r db pk u Hu), Hg. simpl.
  pose proof Hnr as Hnr'. rewrite not_registered_qs in Hnr'. rewrite Hnr', Hc.
  apply register_commit_create; [done| |done].
  apply DB.attendance_fk_ok_iff. simpl. split; [|done].
  eexists. by eapply get_object_event.
Qed.

(** C1 Otherwise a registered caller (a row of the users table) gets
    HTTP 201 with the new attendance: one row [(event, caller,
    'registered', now)] is inserted at the next primary key, and no other
    table changes. *)
Theorem register_created r db pk u epk ev :
  DB.wf db → req_user r = Some u → is_Some (DB.users db !! u) →
  EventViewSet.get_object r db pk = Ok (epk, ev) →
  not_registered db epk u → capacity_reached db epk ev = false →
  ∃ rep, register r db pk =
    (Ok (HTTP_201_CREATED, AttendanceBody rep),
     DB.mk (DB.users db) (DB.categories db) (DB.events db)
       (<[DB.seq_attendance db := Attendance.mk epk u Attendance.registered (req_now r)]>
          (DB.attendances db))
       (DB.seq_category db) (DB.seq_event db) (S (DB.seq_attendance db))) ∧
    AttendanceSerializer.id rep = DB.seq_attendance db.
Proof. apply register_accepts. Qed.

(** ** Invariants *)

Lemma register_commit_wf plan db : DB.wf db → DB.wf (register_commit plan db).2.
Proof.
  intros Hwf. destruct plan as [| |a]; simpl; try done.
  destruct (DB.insert_attendance a db) as [[apk db']|] eqn:Hins; simpl; [|done].
  by eapply DB.insert_attendance_wf.
Qed.

Lemma register_keeps_wf r db pk : DB.wf db → DB.wf (register r db pk).2.
Proof.
  intros Hwf. unfold register.
  destruct (register_check r db pk); [by apply register_commit_wf|done].
Qed.


(** C4 When [register] is the only writer of attendance rows, no
    event ever has more attendance rows than a non-zero [max_attendees]:
    a row is only added while the count is below the limit. *)
Theorem register_capacity_ok r db pk :
  DB.wf db → capacity_ok db → capacity_ok (register r db pk).2.
Proof.
  intros Hwf Hcap. unfold register.
  destruct (register_check r db pk) as [[| |a]|] eqn:Hchk; simpl; try done.
  apply register_check_create in Hchk as (u & epk & ev & Hu & Hg & -> & Hnr & Hc).
  unfold register_commit.
  destruct (DB.insert_attendance _ db) as [[apk db']|] eqn:Hins; simpl; [|done].
  apply DB.insert_attendance_Ok in Hins as (_ & _ & -> & ->).
  intros e' ev' m He' Hm Hm0. unfold DB.event_attendances; simpl in *.
  rewrite event_attendances_insert by (by apply DB.seq_attendance_fresh). simpl.
  specialize (Hcap e' ev' m He' Hm Hm0).
  case_decide; [subst e'|done].
  apply get_object_event in Hg. rewrite Hg in He'. injection He' as <-.
  destruct (Nat.lt_ge_cases (qs_count (DB.event_attendances db epk)) m); [lia|].
  exfalso. assert (capacity_reached db epk ev = true) as Hc'; [|congruence].
  apply capacity_reached_spec. eauto.
Qed.

(** ** Registering twice, counting, and the spec's example *)

Lemma register_201_inv r db pk b db1 :
  register r db pk = (Ok (HTTP_201_CREATED, b), db1) →
  ∃ a apk, register_check r db pk = Ok (CreateAttendance a) ∧
           DB.insert_attendance a db = Ok (apk, db1).
Proof.
  unfold register. destruct (register_check r db pk) as [[| |a]|]; simpl; try by intros [=].
  unfold register_commit. destruct (DB.insert_attendance a db) as [[apk db']|] eqn:Hins;
    simpl; intros [=]; subst; eauto.
Qed.

(** A successful registration adds exactly one attendance row to
    the event: [attendees_count] goes up by one. *)
Theorem register_created_count r db pk epk ev b db1 :
  DB.wf db → EventViewSet.get_object r db pk = Ok (epk, ev) →
  register r db pk = (Ok (HTTP_201_CREATED, b), db1) →
  qs_count (DB.event_attendances db1 epk) = S (qs_count (DB.event_attendances db epk)).
Proof.
  intros Hwf Hg (a & apk & Hchk & Hins)%register_201_inv.
  apply register_check_create in Hchk as (u & epk' & ev' & _ & Hg' & -> & _).
  rewrite Hg in Hg'. injection Hg' as <- <-.
  apply DB.insert_attendance_Ok in Hins as (_ & _ & -> & ->).
  unfold DB.event_attendances at 1; simpl.
  rewrite event_attendances_insert by (by apply DB.seq_attendance_fresh).
  by rewrite decide_True.
Qed.

(** Registering twice for the same event: the second call answers
    HTTP 400 "already registered", writes nothing, and the caller has
    exactly one attendance row for the event. *)
Theorem register_twice r db pk u epk ev b db1 :
  DB.wf db → req_user r = Some u → EventViewSet.get_object r db pk = Ok (epk, ev) →
  register r db pk = (Ok (HTTP_201_CREATED, b), db1) →
  register r db1 pk = (Ok (HTTP_400_BAD_REQUEST, Detail already_registered_msg), db1) ∧
  qs_count (DB.attendance_of db1 epk u) = 1.
Proof.
  intros Hwf Hu Hg (a & apk & Hchk & Hins)%register_201_inv.
  apply register_check_create in Hchk as (u' & epk' & ev' & Hu' & Hg' & -> & Hnr & _).
  rewrite Hu in Hu'. injection Hu' as <-. rewrite Hg in Hg'. injection Hg' as <- <-.
  apply DB.insert_attendance_Ok in Hins as (_ & _ & -> & ->).
  split.
  - apply (register_registered_branch _ _ _ u epk ev); [done| |].
    + by rewrite <- Hg; apply get_object_events.
    + eexists _, _. simpl. split; [apply lookup_insert_eq|done].
  - unfold DB.attendance_of; simpl. rewrite qs_count_insert_fresh
      by (by apply DB.seq_attendance_fresh).
    rewrite decide_True by done. f_equal.
    apply map_size_empty_iff, map_empty_filter, map_Forall_lookup. exact Hnr.
Qed.

(** C23 The code's capacity test is Python truthiness:
    [max_attendees = 0] is falsy, so an event with [max_attendees] 0
    accepts every new caller, however many rows it has. *)
Theorem register_zero_capacity_unlimited r db pk u epk ev :
  DB.wf db → req_user r = Some u → is_Some (DB.users db !! u) →
  EventViewSet.get_object r db pk = Ok (epk, ev) → not_registered db epk u →
  Event.max_attendees ev = Some 0 →
  ∃ rep db', register r db pk = (Ok (HTTP_201_CREATED, AttendanceBody rep), db').
Proof.
  intros Hwf Hu Huser Hg Hnr Hmax.
  destruct (register_accepts r db pk u epk ev) as (rep & Hreg & _); eauto.
  unfold capacity_reached. by rewrite Hmax.
Qed.

(** The spec's example: with [max_attendees = 2], two callers
    register (201, 201), the third is refused for capacity (400), and
    the event then has 2 attendance rows. *)
Theorem spec_capacity_example :
  let '(r1, d1) := register (sample_request 2) (sample_db (Some 2) ∅) "0" in
  let '(r2, d2) := register (sample_request 3) d1 "0" in
  let '(r3, d3) := register (sample_request 4) d2 "0" in
  (http_status r1, http_status r2, r3, qs_count (DB.event_attendances d3 0)) =
  (201, 201, Ok (HTTP_400_BAD_REQUEST, Detail capacity_msg), 2).
Proof. vm_compute. reflexivity. Qed.


(** ** Sequences of registrations *)

Lemma capacity_room db epk ev n :
  room_for ev (qs_count (DB.event_attendances db epk) + S n) →
  capacity_reached db epk ev = false.
Proof.
  intros Hroom. destruct (capacity_reached db epk ev) eqn:Hc; [|done].
  apply capacity_reached_spec in Hc as (m & Hm & Hm0 & Hle).
  specialize (Hroom m Hm Hm0). lia.
Qed.

Lemma not_registered_insert db db' epk u k a :
  DB.attendances db' = <[k:=a]> (DB.attendances db) → not_registered db epk u →
  ¬ (Attendance.event a = epk ∧ Attendance.user a = u) → not_registered db' epk u.
Proof.
  intros Heq Hnr Ha i b. rewrite Heq, lookup_insert_Some.
  intros [[<- <-]|[_ Hb]]; [done|by eapply Hnr].
Qed.

(** A call that was fresh before another caller's row was inserted is
    still fresh after. *)
Lemma fresh_call_insert db db1 epk ev k a c :
  DB.users db1 = DB.users db → DB.events db1 = DB.events db →
  DB.attendances db1 = <[k:=a]> (DB.attendances db) →
  req_user c.1 ≠ Some (Attendance.user a) → fresh_call db epk ev c → fresh_call db1 epk ev c.
Proof.
  intros Hu He Ha Hne (u & Hcu & Huser & Hnr & Hg). exists u. rewrite Hu.
  split_and!; try done.
  - eapply not_registered_insert; [done|done|]. intros [_ <-]. congruence.
  - by rewrite (get_object_events _ db1 db).
Qed.

(** Fresh calls by distinct callers, with room for all of them, are all
    accepted; the event ends with that many more rows and the callers of
    no call stay unregistered. *)
Lemma register_seq_created calls : ∀ db epk ev,
  DB.wf db → Forall (fresh_call db epk ev) calls → NoDup (callers calls) →
  room_for ev (qs_count (DB.event_attendances db epk) + length calls) →
  (∃ reps, (register_seq db calls).1 = map (λ rep, Ok (HTTP_201_CREATED, AttendanceBody rep)) reps) ∧
  DB.wf (register_seq db calls).2 ∧
  DB.events (register_seq db calls).2 = DB.events db ∧
  qs_count (DB.event_attendances (register_seq db calls).2 epk) =
    qs_count (DB.event_attendances db epk) + length calls ∧
  ∀ u, Some u ∉ callers calls → not_registered db epk u →
    not_registered (register_seq db calls).2 epk u.
Proof.
  induction calls as [|[r pk] cs IH]; intros db epk ev Hwf Hf Hnd Hroom.
  { simpl. split_and!; [by exists []|done|done|lia|done]. }
  apply Forall_cons in Hf as [(u & Hu & Huser & Hnr & Hg) Hcs]. simpl in Hu, Hg.
  cbn [callers map fst] in Hnd |- *. rewrite Hu in Hnd |- *.
  apply NoDup_cons in Hnd as [Hnin Hnd].
  destruct (register_accepts r db pk u epk ev) as (rep & Hreg & _); try done.
  { apply (capacity_room _ _ _ (length cs)). exact Hroom. }
  pose proof (register_keeps_wf r db pk Hwf) as Hwf1. rewrite Hreg in Hwf1. simpl in Hwf1.
  simpl register_seq. rewrite Hreg.
  set (db1 := DB.mk _ _ _ _ _ _ _) in *.
  assert (qs_count (DB.event_attendances db1 epk) = S (qs_count (DB.event_attendances db epk))) as Hc1.
  { unfold DB.event_attendances at 1; simpl.
    rewrite event_attendances_insert by (by apply DB.seq_attendance_fresh).
    by rewrite decide_True. }
  destruct (IH db1 epk ev) as ([reps Hos] & Hwf2 & Hev2 & Hcnt2 & Hnr2); try done.
  { apply Forall_forall. intros c Hc.
    eapply (fresh_call_insert db db1 epk ev (DB.seq_attendance db)
              (Attendance.mk epk u Attendance.registered (req_now r)));
      [done|done|done| |by eapply Forall_forall in Hcs]. simpl. intros Hcu.
    apply Hnin, list_elem_of_In, in_map_iff. exists c. split; [done|by apply list_elem_of_In]. }
  { rewrite Hc1. intros m Hm Hm0. specialize (Hroom m Hm Hm0). simpl in Hroom. lia. }
  destruct (register_seq db1 cs) as [os db2]. simpl in *.
  split_and!; [by exists (rep :: reps); rewrite Hos|done|done|lia|].
  intros u' Hu' Hnr'. apply not_elem_of_cons in Hu' as [Hne Hu'].
  apply Hnr2; [done|]. eapply not_registered_insert; [done|done|]. simpl. naive_solver.
Qed.

(** C5 The spec's capacity law: on an event with [max_attendees = N]
    (N > 0) and [c] attendance rows, [N - c] calls by distinct users who
    are not registered are all accepted (HTTP 201), and the next call by
    another such user is refused with "This event has reached maximum
    capacity.", writing nothing. *)
Theorem register_capacity_after_n calls r pk db epk ev u N :
  DB.wf db → Forall (fresh_call db epk ev) calls → NoDup (callers calls) →
  Event.max_attendees ev = Some N → N ≠ 0 →
  qs_count (DB.event_attendances db epk) + length calls = N →
  req_user r = Some u → Some u ∉ callers calls → not_registered db epk u →
  EventViewSet.get_object r db pk = Ok (epk, ev) →
  (∃ reps, (register_seq db calls).1 = map (λ rep, Ok (HTTP_201_CREATED, AttendanceBody rep)) reps) ∧
  register r (register_seq db calls).2 pk =
    (Ok (HTTP_400_BAD_REQUEST, Detail capacity_msg), (register_seq db calls).2).
Proof.
  intros Hwf Hf Hnd Hmax HN Hcnt Hu Hnin Hnr Hg.
  destruct (register_seq_created calls db epk ev) as (Hos & _ & Hev & Hcnt' & Hnr');
    [done|done|done|intros m Hm _; rewrite Hmax in Hm; injection Hm; lia|].
  split; [done|].
  unfold register. rewrite (register_check_auth _ _ _ u Hu).
  rewrite (get_object_events _ _ db), Hg by done. simpl.
  specialize (Hnr' u Hnin Hnr). apply not_registered_qs in Hnr'. rewrite Hnr'.
  replace (capacity_reached _ _ _) with true; [done|]. symmetry.
  apply capacity_reached_spec. exists N. split_and!; [done|done|lia].
Qed.

(** ** What [register] does not check *)

(** Every event [get_queryset] keeps under a non-empty [status]
    parameter has that status. *)
Lemma get_queryset_status r db qs s k x :
  get_queryset r db = Ok qs → qd_get "status" (query_params r) = Some s → s ≠ ""%string →
  qs !! k = Some x → Event.status_value (Event.status x) = s.
Proof.
  unfold get_queryset. intros Hq Hs Hne Hk. rewrite Hs in Hq.
  apply bind_Ok_iff in Hq as (q0 & _ & Hq). injection Hq as <-.
  rewrite (bool_decide_eq_false_2 (s = ""%string)) in Hk by done. simpl in Hk.
  case_match; [apply map_lookup_filter_Some in Hk as [Hk _]|];
    apply map_lookup_filter_Some in Hk as [_ Hst]; simpl in Hst; congruence.
Qed.

(** C33 [register] finds its event through [get_object], which
    applies the list filters of [get_queryset]: an authenticated
    registration carrying a non-empty [status] query parameter that the
    event does not have is a 404, although the event exists. *)
Theorem register_filtered_not_found r db n e s :
  is_authenticated r = true → qd_get "category" (query_params r) = None →
  qd_get "status" (query_params r) = Some s → s ≠ ""%string →
  DB.events db !! n = Some e → Event.status_value (Event.status e) ≠ s →
  register r db (show_nat n) = (Err NotFound, db).
Proof.
  intros Hauth Hcat Hs Hne He Hst. unfold register, register_check.
  rewrite check_permissions_authenticated by done. simpl.
  unfold EventViewSet.get_object.
  assert (∃ qs, get_queryset r db = Ok qs) as [qs Hq].
  { unfold get_queryset. rewrite Hcat. by eexists. }
  rewrite Hq. simpl. unfold Views.get_object. rewrite py_int_of_show_nat.
  rewrite bool_decide_eq_true_2 by lia. rewrite Nat2Z.id.
  destruct (filter_queryset r qs !! n) as [x|] eqn:Hx; [|done].
  exfalso. apply Hst. eapply lookup_weaken in Hx; [|apply search_filter_subseteq].
  rewrite <- (get_queryset_status r db qs s n x Hq Hs Hne Hx).
  apply get_queryset_subseteq in Hq. eapply lookup_weaken in Hx; [|done].
  by rewrite He in Hx; injection Hx as ->.
Qed.

(** [register] does not look at the event's status: a caller can
    register for a cancelled event (HTTP 201). *)
Theorem register_cancelled_event :
  http_status (register (sample_request 2) cancelled_db "0").1 = HTTP_201_CREATED ∧
  Event.status <$> DB.events cancelled_db !! 0 = Some Event.cancelled.
Proof. vm_compute. auto. Qed.

(** ** Witnesses: each theorem applied to the sample database *)

Ltac wf_sample := apply DB.wfb_sound; vm_compute; reflexivity.

Lemma register_filtered_not_found_witness :
  register (filtered_request 2 "completed") (sample_db (Some 2) ∅) (show_nat 0) =
    (Err NotFound, sample_db (Some 2) ∅).
Proof.
  apply (register_filtered_not_found (filtered_request 2 "completed") (sample_db (Some 2) ∅) 0
           (sample_event (Some 2)) "completed"); try reflexivity; discriminate.
Defined.

Lemma register_anonymous_witness :
  register anonymous_request (sample_db (Some 2) ∅) "0" =
    (Err NotAuthenticated, sample_db (Some 2) ∅).
Proof. apply register_anonymous. reflexivity. Defined.

Lemma register_already_registered_witness :
  register (sample_request 2) (sample_db (Some 2) {[0 := Attendance.mk 0 2 Attendance.registered 10]}) "0" =
    (Ok (HTTP_400_BAD_REQUEST, Detail already_registered_msg),
     sample_db (Some 2) {[0 := Attendance.mk 0 2 Attendance.registered 10]}).
Proof.
  apply (register_already_registered (sample_request 2) (sample_db (Some 2) {[0 := Attendance.mk 0 2 Attendance.registered 10]}) "0" 2 0 (sample_event (Some 2))); [reflexivity|reflexivity|].
  exists 0, (Attendance.mk 0 2 Attendance.registered 10). split_and!; reflexivity.
Defined.

Lemma register_capacity_exceeded_witness :
  register (sample_request 2) (sample_db (Some 1) {[0 := Attendance.mk 0 4 Attendance.registered 10]}) "0" =
    (Ok (HTTP_400_BAD_REQUEST, Detail capacity_msg),
     sample_db (Some 1) {[0 := Attendance.mk 0 4 Attendance.registered 10]}).
Proof.
  apply (register_capacity_exceeded (sample_request 2) (sample_db (Some 1) {[0 := Attendance.mk 0 4 Attendance.registered 10]}) "0" 2 0 (sample_event (Some 1)) 1);
    [reflexivity|reflexivity|apply not_registered_qs; reflexivity|reflexivity|lia|].
  vm_compute. lia.
Defined.

Lemma register_created_witness :
  ∃ rep, register (sample_request 2) (sample_db (Some 2) ∅) "0" =
    (Ok (HTTP_201_CREATED, AttendanceBody rep),
     DB.mk (DB.users (sample_db (Some 2) ∅)) (DB.categories (sample_db (Some 2) ∅))
       (DB.events (sample_db (Some 2) ∅))
       (<[DB.seq_attendance (sample_db (Some 2) ∅) :=
            Attendance.mk 0 2 Attendance.registered (req_now (sample_request 2))]>
          (DB.attendances (sample_db (Some 2) ∅)))
       (DB.seq_category (sample_db (Some 2) ∅)) (DB.seq_event (sample_db (Some 2) ∅))
       (S (DB.seq_attendance (sample_db (Some 2) ∅)))) ∧
    AttendanceSerializer.id rep = DB.seq_attendance (sample_db (Some 2) ∅).
Proof.
  apply (register_created (sample_request 2) (sample_db (Some 2) ∅) "0" 2 0 (sample_event (Some 2)));
    [wf_sample|reflexivity|eexists; reflexivity|reflexivity
    |apply not_registered_qs; reflexivity|reflexivity].
Defined.


Lemma sample_capacity_ok cap : capacity_ok (sample_db cap ∅).
Proof.
  intros epk ev m He. simpl in He.
  apply lookup_insert_Some in He as [[<- <-]|[_ He]]; [|by rewrite lookup_empty in He].
  intros _ _. vm_compute. lia.
Qed.

Lemma register_capacity_ok_witness :
  capacity_ok (register (sample_request 2) (sample_db (Some 1) ∅) "0").2.
Proof. apply register_capacity_ok; [wf_sample|apply sample_capacity_ok]. Defined.

Lemma register_created_count_witness :
  qs_count (DB.event_attendances (register (sample_request 2) (sample_db (Some 2) ∅) "0").2 0) =
  S (qs_count (DB.event_attendances (sample_db (Some 2) ∅) 0)).
Proof.
  let b := eval vm_compute in
    (match (register (sample_request 2) (sample_db (Some 2) ∅) "0").1 with
     | Ok (_, b) => b | Err _ => NoContent end) in
  apply (register_created_count (sample_request 2) (sample_db (Some 2) ∅) "0" 0
           (sample_event (Some 2)) b); [wf_sample|reflexivity|vm_compute; reflexivity].
Defined.

Lemma register_twice_witness :
  register (sample_request 2) (register (sample_request 2) (sample_db (Some 2) ∅) "0").2 "0" =
    (Ok (HTTP_400_BAD_REQUEST, Detail already_registered_msg),
     (register (sample_request 2) (sample_db (Some 2) ∅) "0").2) ∧
  qs_count (DB.attendance_of (register (sample_request 2) (sample_db (Some 2) ∅) "0").2 0 2) = 1.
Proof.
  let b := eval vm_compute in
    (match (register (sample_request 2) (sample_db (Some 2) ∅) "0").1 with
     | Ok (_, b) => b | Err _ => NoContent end) in
  apply (register_twice (sample_request 2) (sample_db (Some 2) ∅) "0" 2 0
           (sample_event (Some 2)) b); [wf_sample|reflexivity|reflexivity|vm_compute; reflexivity].
Defined.

Lemma register_zero_capacity_unlimited_witness :
  ∃ rep db', register (sample_request 2)
               (sample_db (Some 0) {[0 := Attendance.mk 0 4 Attendance.registered 10]}) "0" =
             (Ok (HTTP_201_CREATED, AttendanceBody rep), db').
Proof.
  apply (register_zero_capacity_unlimited (sample_request 2) (sample_db (Some 0) {[0 := Attendance.mk 0 4 Attendance.registered 10]}) "0" 2 0 (sample_event (Some 0)));
    [wf_sample|reflexivity|eexists; reflexivity|reflexivity
    |apply not_registered_qs; reflexivity|reflexivity].
Defined.

Lemma register_capacity_after_n_witness :
  (∃ reps, (register_seq (sample_db (Some 2) ∅)
              [(sample_request 2, "0"); (sample_request 3, "0")]).1 =
           map (λ rep, Ok (HTTP_201_CREATED, AttendanceBody rep)) reps) ∧
  register (sample_request 4)
    (register_seq (sample_db (Some 2) ∅) [(sample_request 2, "0"); (sample_request 3, "0")]).2 "0" =
  (Ok (HTTP_400_BAD_REQUEST, Detail capacity_msg),
   (register_seq (sample_db (Some 2) ∅) [(sample_request 2, "0"); (sample_request 3, "0")]).2).
Proof.
  apply (register_capacity_after_n [(sample_request 2, "0"); (sample_request 3, "0")]
           (sample_request 4) "0" (sample_db (Some 2) ∅) 0 (sample_event (Some 2)) 4 2);
    [wf_sample| | |reflexivity|lia|vm_compute; reflexivity|reflexivity| |
     apply not_registered_qs; reflexivity|reflexivity].
  - constructor; [exists 2|constructor; [exists 3|constructor]];
      split_and!; try reflexivity; try (eexists; reflexivity);
      apply not_registered_qs; reflexivity.
  - apply (bool_decide_unpack _). vm_compute. reflexivity.
  - apply (bool_decide_unpack _). vm_compute. reflexivity.
Defined.
