(* ===== verification/Concurrency.v ===== *)
(** * Concurrency: interleaved registrations

    The code runs one request per worker, and nothing makes the checks
    of [register] and its INSERT atomic: several workers can read the
    database between one request's checks and its write.  A
    configuration is the database and the state of each in-flight
    registration ([Pending] before its checks, [Checked] with the
    decision taken, [Finished] with its result); [step] runs one phase of
    one request.  Running a request's two phases back to back is
    [EventViewSet.register].

    What the schema enforces holds in every reachable configuration
    ([reachable_wf]): the database's [unique_together] stops a second row
    for the same caller, so a racing duplicate ends in an
    [IntegrityError] (HTTP 500).  Capacity has no such guard: two
    requests that both pass the capacity check before either writes
    overbook the event ([concurrent_register_overbooks]). *)

From S2P Require Import Prelude PyStr Models Http Permissions Serializers Views Registration.

Import EventViewSet (RegisterPlan, AlreadyRegistered, CapacityReached, CreateAttendance, register_check, register_commit, register, capacity_reached, already_registered_msg, capacity_msg, get_queryset, filter_queryset, search_fields, category_is).

Inductive Thread :=
| Pending (r : Request) (pk : string)
| Checked (plan : RegisterPlan)
| Finished (o : Result APIError Response).

Record Config := mkConfig { cdb : DB.t; threads : list Thread }.

(** The outcome of the checks, as the thread's next state. *)
Definition after_check (res : Result APIError RegisterPlan) : Thread :=
  match res with Ok plan => Checked plan | Err e => Finished (Err e) end.

Inductive step : Config → Config → Prop :=
| step_check c i r pk :
    threads c !! i = Some (Pending r pk) →
    step c (mkConfig (cdb c) (<[i := after_check (register_check r (cdb c) pk)]> (threads c)))
| step_commit c i plan :
    threads c !! i = Some (Checked plan) →
    step c (mkConfig (register_commit plan (cdb c)).2
                     (<[i := Finished (register_commit plan (cdb c)).1]> (threads c))).

Definition reachable (c c' : Config) : Prop := rtc step c c'.

(** Two registrations for event 0 started together. *)
Definition two_requests (db : DB.t) (u1 u2 : nat) : Config :=
  mkConfig db [Pending (sample_request u1) "0"; Pending (sample_request u2) "0"].

(** ** Running one request without interleaving is [register] *)

(** A request whose checks and write run back to back produces
    what [EventViewSet.register] produces, on the database and as its
    result. *)
Lemma serial_run_is_register c i r pk :
  threads c !! i = Some (Pending r pk) →
  ∃ c', reachable c c' ∧ cdb c' = (register r (cdb c) pk).2 ∧
        threads c' !! i = Some (Finished (register r (cdb c) pk).1).
Proof.
  intros Hi. unfold register.
  destruct (register_check r (cdb c) pk) as [plan|e] eqn:Hchk.
  - set (c1 := mkConfig (cdb c) (<[i := Checked plan]> (threads c))).
    assert (Hlt : i < length (threads c)) by (by eapply lookup_lt_Some).
    exists (mkConfig (register_commit plan (cdb c)).2
              (<[i := Finished (register_commit plan (cdb c)).1]> (threads c1))).
    split; [|split; [done|]].
    + eapply rtc_l; [by apply step_check|]. rewrite Hchk. fold c1.
      eapply rtc_l; [|apply rtc_refl]. apply (step_commit c1 i plan).
      by apply list_lookup_insert_eq.
    + simpl. apply list_lookup_insert_eq. by rewrite length_insert.
  - eexists. split; [by apply rtc_once, step_check|]. simpl. split; [done|].
    rewrite Hchk. by apply list_lookup_insert_eq, (lookup_lt_Some _ _ _ Hi).
Qed.

(** ** What the database still guarantees *)

Lemma step_wf c c' : step c c' → DB.wf (cdb c) → DB.wf (cdb c').
Proof. intros [] Hwf; simpl; [done|]. by apply register_commit_wf. Qed.

(** [DB.wf] along any run. *)
Lemma reachable_keeps_wf c c' : reachable c c' → DB.wf (cdb c) → DB.wf (cdb c').
Proof. induction 1; eauto using step_wf. Qed.

(** C31 Every configuration reachable from a well-formed database,
    under any interleaving, has a well-formed database. *)
Theorem reachable_wf c c' : reachable c c' → DB.wf (cdb c) → DB.wf (cdb c').
Proof. apply reachable_keeps_wf. Qed.

(** [unique_together] leaves at most one row per [(event, user)]. *)
Lemma unique_attendance_of_le1 db e u : DB.wf db → qs_count (DB.attendance_of db e u) ≤ 1.
Proof.
  intros Hwf. unfold qs_count, DB.attendance_of.
  destruct (decide (filter (λ kv : nat * Attendance.t,
              Attendance.event kv.2 = e ∧ Attendance.user kv.2 = u) (DB.attendances db) = ∅))
    as [->|Hne]; [rewrite map_size_empty; lia|].
  apply map_choose in Hne as (i & a & Hi).
  pose proof Hi as [Ha [He Hu]]%map_lookup_filter_Some. simpl in He, Hu.
  enough (Heq : filter _ (DB.attendances db) = {[i := a]}) by (rewrite Heq, map_size_singleton; lia).
  apply map_eq. intros j. rewrite lookup_singleton. case_decide as Hij; [by subst|].
  apply map_lookup_filter_None. right. intros b Hb [Hbe Hbu]. simpl in Hbe, Hbu.
  apply Hij. eapply (DB.wf_unique _ Hwf i j); eauto; congruence.
Qed.

(** C7 However requests interleave, no caller ever has two
    attendance rows for one event. *)
Theorem concurrent_no_duplicate c c' e u :
  DB.wf (cdb c) → reachable c c' → qs_count (DB.attendance_of (cdb c') e u) ≤ 1.
Proof. intros Hwf Hr. apply unique_attendance_of_le1. by eapply reachable_keeps_wf. Qed.

(** ** What it does not *)

(** C6 Race on capacity: for an event with [max_attendees = 1] and no
    rows, two callers whose checks both run before either write both get
    HTTP 201, and the event ends with 2 rows, over its capacity. *)
Theorem concurrent_register_overbooks :
  capacity_ok (cdb (two_requests (sample_db (Some 1) ∅) 2 3)) ∧
  ∃ c, reachable (two_requests (sample_db (Some 1) ∅) 2 3) c ∧
       map (λ t, match t with Finished o => http_status o | _ => 0 end) (threads c) = [201; 201] ∧
       qs_count (DB.event_attendances (cdb c) 0) = 2 ∧
       ¬ capacity_ok (cdb c).
Proof.
  split.
  { intros epk ev m He Hm Hm0. vm_compute in He. destruct epk; vm_compute; lia. }
  eexists. split.
  { eapply rtc_l; [by apply (step_check _ 0 (sample_request 2) "0")|].
    eapply rtc_l; [by apply (step_check _ 1 (sample_request 3) "0")|].
    eapply rtc_l; [apply (step_commit _ 0); vm_compute; reflexivity|].
    eapply rtc_l; [apply (step_commit _ 1); vm_compute; reflexivity|].
    apply rtc_refl. }
  split; [vm_compute; reflexivity|]. split; [vm_compute; reflexivity|].
  intros Hcap. specialize (Hcap 0 (sample_event (Some 1)) 1 eq_refl eq_refl ltac:(lia)).
  vm_compute in Hcap. lia.
Qed.

(** C32 Race on the duplicate check: the same caller sending two
    registrations that both pass the check gets one HTTP 201 and one
    [IntegrityError] (HTTP 500), and a single row. *)
Theorem concurrent_duplicate_integrity_error :
  ∃ c, reachable (two_requests (sample_db (Some 5) ∅) 2 2) c ∧
       map (λ t, match t with Finished o => http_status o | _ => 0 end) (threads c) = [201; 500] ∧
       qs_count (DB.attendance_of (cdb c) 0 2) = 1.
Proof.
  eexists. split.
  { eapply rtc_l; [by apply (step_check _ 0 (sample_request 2) "0")|].
    eapply rtc_l; [by apply (step_check _ 1 (sample_request 2) "0")|].
    eapply rtc_l; [apply (step_commit _ 0); vm_compute; reflexivity|].
    eapply rtc_l; [apply (step_commit _ 1); vm_compute; reflexivity|].
    apply rtc_refl. }
  split; vm_compute; reflexivity.
Qed.

(** ** Witnesses *)

Lemma reachable_wf_witness :
  DB.wf (register_commit (CreateAttendance (Attendance.mk 0 2 Attendance.registered 50))
           (sample_db (Some 2) ∅)).2.
Proof.
  pose (c0 := mkConfig (sample_db (Some 2) ∅)
                [Checked (CreateAttendance (Attendance.mk 0 2 Attendance.registered 50))]).
  apply (reachable_wf c0
    (mkConfig (register_commit (CreateAttendance (Attendance.mk 0 2 Attendance.registered 50))
                 (cdb c0)).2
              (<[0 := Finished (register_commit (CreateAttendance
                        (Attendance.mk 0 2 Attendance.registered 50)) (cdb c0)).1]> (threads c0)))).
  - apply rtc_once. apply (step_commit c0 0). reflexivity.
  - apply DB.wfb_sound. vm_compute. reflexivity.
Defined.

Lemma concurrent_no_duplicate_witness :
  qs_count (DB.attendance_of (cdb (two_requests (sample_db (Some 2) ∅) 2 2)) 0 2) ≤ 1.
Proof.
  apply (concurrent_no_duplicate (two_requests (sample_db (Some 2) ∅) 2 2)).
  - apply DB.wfb_sound. vm_compute. reflexivity.
  - apply rtc_refl.
Defined.
