(* ===== verification/Endpoints.v ===== *)
(** * Endpoints: the other handlers of [views.py] and [events/views.py]

    The query parameters of [GET /events/] ([category], [status],
    [featured]), who sees which attendance rows, what [perform_create]
    sets, and where the generic CRUD endpoints depart from the spec:
    [organizer] can be reassigned by an update, [organizer_id] must be
    sent on create although it is overwritten, [POST /attendances/]
    bypasses the capacity check and accepts any [user_id], and the older
    [events/views.py] list view cannot build its query set. *)

From S2P Require Import Prelude PyStr Models Http Permissions Serializers Views Registration.

(** Whether [u] is a staff user, as [get_queryset] reads it. *)
Definition staff (db : DB.t) (u : nat) : bool :=
  match DB.users db !! u with Some x => User.is_staff x | None => false end.

Definition only_params (k v : string) (r : Request) : Prop := query_params r = [(k, v)].

(** A full event with one row, for the concrete runs of the generic
    attendance endpoint. *)
Definition full_db : DB.t := sample_db (Some 1) {[0 := Attendance.mk 0 4 Attendance.registered 10]}.

(** [PATCH /events/0/] by user 2, who does not organize event 0,
    naming user 3 as [organizer_id]. *)
Definition reassign_request : Request := mkRequest (Some 2) PATCH [] 60.
Definition reassign_body : EventInput.t :=
  EventInput.mk None None None None None None (Some 3) None None None None.

(** [POST /attendances/] by user 2 with [{"event_id": 0, "user_id": 3}]. *)
Definition proxy_request : Request := mkRequest (Some 2) POST [] 60.
Definition proxy_body : AttendanceSerializer.input :=
  AttendanceSerializer.mkInput (Some 0) (Some 3) None.

(** A complete [POST /events/] body, with and without [organizer_id]. *)
Definition event_body (org : option nat) : EventInput.t :=
  EventInput.mk (Some "Jazz night") (Some "Live music") (Some "Main hall") (Some 100)
                (Some 200) None org None None None None.

Definition get_request (params : list (string * string)) : Request :=
  mkRequest None GET params 60.

(** ** Filters of [GET /events/] *)

(** Read the query string of a request that carries one parameter. *)
Ltac qd_simpl Hq :=
  unfold only_params in Hq; rewrite Hq;
  repeat match goal with
  | |- context [qd_get ?k [(?k', ?v)]] =>
      first [ replace (qd_get k [(k', v)]) with (Some v) by reflexivity
            | replace (qd_get k [(k', v)]) with (@None string) by reflexivity ]
  end.

Lemma category_is_spec z e c :
  Z.of_nat c = z → EventViewSet.category_is z e = true ↔ Event.category e = Some c.
Proof.
  intros <-. unfold EventViewSet.category_is.
  destruct (Event.category e) as [c'|]; [|done].
  rewrite bool_decide_eq_true. split; [intros ?; f_equal; lia|by intros [= ->]].
Qed.

(** [?category=<id>] keeps exactly the events whose category is
    that id, the id written in decimal as a client sends it. *)
Theorem events_filter_category r db c :
  only_params "category" (show_nat c) r →
  EventViewSet.get_queryset r db =
    Ok (filter (λ kv : nat * Event.t, Event.category kv.2 = Some c) (DB.events db)).
Proof.
  intros Hq. unfold EventViewSet.get_queryset. qd_simpl Hq. simpl.
  rewrite py_int_of_show_nat. unfold py_truthy.
  rewrite bool_decide_eq_false_2 by apply show_nat_nonempty. simpl. f_equal.
  apply map_filter_ext. intros i e _. by apply category_is_spec.
Qed.

(** C29 A non-empty [category] that [int()] rejects makes the lookup
    raise [ValueError]: [GET /events/?category=abc] is a server error
    (500), not an empty list or a 400. *)
Theorem events_filter_category_not_int r db c :
  only_params "category" c r → c ≠ ""%string → py_int c = None →
  EventViewSet.get_queryset r db = Err (ServerError "ValueError").
Proof.
  intros Hq Hne Hint. unfold EventViewSet.get_queryset. qd_simpl Hq. simpl.
  unfold py_truthy. rewrite bool_decide_eq_false_2 by done. simpl. by rewrite Hint.
Qed.

(** [?featured=v] filters on [is_featured] exactly when [v]
    lower-cased is ["true"]; any other value leaves the list unfiltered. *)
Theorem events_filter_featured r db f :
  only_params "featured" f r →
  EventViewSet.get_queryset r db =
    Ok (if bool_decide (py_lower f = "true"%string)
        then filter (λ kv : nat * Event.t, Event.is_featured kv.2 = true) (DB.events db)
        else DB.events db).
Proof.
  intros Hq. unfold EventViewSet.get_queryset. qd_simpl Hq. simpl. unfold py_truthy.
  case_bool_decide as Hf; simpl.
  - subst f. reflexivity.
  - destruct (decide (py_lower f = "true"%string)) as [Hl|Hl].
    + by rewrite !bool_decide_eq_true_2 by (by rewrite Hl).
    + by rewrite !bool_decide_eq_false_2 by congruence.
Qed.

(** [?status=s] keeps the events whose stored status is [s]. *)
Lemma events_filter_status r db s :
  only_params "status" s r → s ≠ ""%string →
  EventViewSet.get_queryset r db =
    Ok (filter (λ kv : nat * Event.t, Event.status_value (Event.status kv.2) = s) (DB.events db)).
Proof.
  intros Hq Hs. unfold EventViewSet.get_queryset. qd_simpl Hq. simpl.
  unfold py_truthy. rewrite bool_decide_eq_false_2 by done. simpl. f_equal.
  apply map_filter_ext. naive_solver.
Qed.

(** ** Who sees which attendance rows *)

Lemma attendance_queryset_lookup db u i a :
  AttendanceViewSet.get_queryset db u !! i = Some a ↔
  DB.attendances db !! i = Some a ∧ (staff db u = true ∨ Attendance.user a = u).
Proof.
  unfold AttendanceViewSet.get_queryset, staff, DB.user_attendances.
  destruct (DB.users db !! u) as [x|]; [destruct (User.is_staff x)|];
    rewrite ?map_lookup_filter_Some; naive_solver.
Qed.

(** C16 [GET /attendances/] shows a staff user every row and anyone
    else exactly their own rows. *)
Theorem attendance_visibility db u i a :
  AttendanceViewSet.get_queryset db u !! i = Some a ↔
  DB.attendances db !! i = Some a ∧ (staff db u = true ∨ Attendance.user a = u).
Proof. apply attendance_queryset_lookup. Qed.

(** C30 [GET /attendances/my_events/] is the caller's own rows, for
    staff too; for a non-staff caller it is the same response as
    [GET /attendances/]. *)
Theorem my_events_own_rows r db u :
  req_user r = Some u → staff db u = false →
  AttendanceViewSet.my_events r db = AttendanceViewSet.list r db.
Proof.
  intros Hu Hs. unfold AttendanceViewSet.my_events, AttendanceViewSet.list.
  rewrite check_permissions_authenticated by (unfold is_authenticated; by rewrite Hu).
  simpl. unfold request_user. rewrite Hu. simpl.
  unfold AttendanceViewSet.get_queryset. unfold staff in Hs.
  destruct (DB.users db !! u) as [x|]; [by rewrite Hs|done].
Qed.

(** What [is_valid()] without errors guarantees of the row an event
    update writes: its organizer and category exist. *)
Lemma event_errors_fk db partial d epk e o now :
  DB.wf db → DB.events db !! epk = Some e → EventInput.errors db partial d = [] →
  EventInput.organizer_id d = Some o →
  DB.event_fk_ok db (EventInput.apply_to d o now e) = true.
Proof.
  intros Hwf He Herr Ho. unfold EventInput.errors in Herr.
  do 5 apply app_eq_nil in Herr as [_ Herr].
  apply app_eq_nil in Herr as [Horg Herr]. apply app_eq_nil in Herr as [Hcat _].
  apply DB.event_fk_ok_iff. simpl. split.
  - rewrite Ho in Horg. unfold AttendanceSerializer.pk_field in Horg.
    case_bool_decide; [done|discriminate].
  - intros c Hc. unfold EventInput.category_field in Hcat.
    destruct (EventInput.category d) as [[c'|]|] eqn:Hcd; simpl in Hc.
    + injection Hc as ->. unfold AttendanceSerializer.pk_field in Hcat.
      case_bool_decide; [done|discriminate].
    + discriminate.
    + pose proof (DB.wf_event_fk db Hwf epk e He) as Hfk.
      apply DB.event_fk_ok_iff in Hfk as [_ Hcat']. by apply Hcat'.
Qed.

(** C25 [PUT]/[PATCH /events/{pk}/] is open to every authenticated
    caller and writes [organizer_id]: whoever calls, a body that passes
    validation and names [organizer_id = o] rewrites the event with
    organizer [o] (the spec calls the organizer immutable, fixed to the
    creator). *)
Theorem event_update_any_caller r db pk partial d epk e o :
  DB.wf db → is_authenticated r = true → EventViewSet.get_object r db pk = Ok (epk, e) →
  EventInput.errors db partial d = [] → EventInput.organizer_id d = Some o →
  ∃ rep, EventViewSet.update r db pk partial d =
    (Ok (HTTP_200_OK, EventBody rep),
     DB.mk (DB.users db) (DB.categories db)
       (<[epk := EventInput.apply_to d o (req_now r) e]> (DB.events db))
       (DB.attendances db) (DB.seq_category db) (DB.seq_event db) (DB.seq_attendance db)) ∧
    Event.organizer (EventInput.apply_to d o (req_now r) e) = o.
Proof.
  intros Hwf Hauth Hg Herr Ho. pose proof (get_object_event _ _ _ _ _ Hg) as He.
  unfold EventViewSet.update.
  rewrite check_permissions_authenticated by done. simpl. rewrite Hg. simpl.
  rewrite Herr, bool_decide_eq_true_2 by done. simpl. rewrite Ho. simpl.
  unfold DB.update_event. rewrite (event_errors_fk db partial d epk e o) by done. simpl.
  set (db' := DB.mk _ _ _ _ _ _ _).
  destruct (event_representation db' epk (EventInput.apply_to d o (req_now r) e))
    as (rep & Hrep & _).
  { eapply DB.update_event_wf; [done|by eexists|].
    unfold DB.update_event. rewrite (event_errors_fk db partial d epk e o) by done. done. }
  { apply lookup_insert_eq. }
  rewrite Hrep. simpl. by exists rep.
Qed.

(** ** [POST /attendances/] *)

(** C24 [POST /attendances/] goes through the generic [create]:
    for any authenticated caller [u] and any body naming an event [e]
    and a user [v] (not necessarily [u]) with no row for [(e, v)], the
    row [(e, v, 'registered')] is inserted with HTTP 201, whatever the
    event's [max_attendees] and its number of rows: the capacity check
    of [register] is bypassed and a caller can register someone else. *)
Theorem attendance_create_any_user r db d u e v :
  DB.wf db → req_user r = Some u →
  AttendanceSerializer.in_event_id d = Some e → AttendanceSerializer.in_user_id d = Some v →
  AttendanceSerializer.in_status d = None →
  is_Some (DB.events db !! e) → is_Some (DB.users db !! v) → not_registered db e v →
  ∃ rep, AttendanceViewSet.create r db d =
    (Ok (HTTP_201_CREATED, AttendanceBody rep),
     DB.mk (DB.users db) (DB.categories db) (DB.events db)
       (<[DB.seq_attendance db := Attendance.mk e v Attendance.registered (req_now r)]>
          (DB.attendances db))
       (DB.seq_category db) (DB.seq_event db) (S (DB.seq_attendance db))).
Proof.
  intros Hwf Hu He Hv Hs He' Hv' Hnr. unfold AttendanceViewSet.create.
  rewrite check_permissions_authenticated by (unfold is_authenticated; by rewrite Hu).
  simpl. unfold AttendanceSerializer.validate. rewrite He, Hv, Hs. simpl.
  rewrite !bool_decide_eq_true_2 by done. simpl.
  pose proof Hnr as Hq. apply not_registered_qs in Hq. rewrite Hq. simpl.
  set (a := Attendance.mk e v Attendance.registered (req_now r)).
  set (db' := DB.mk _ _ _ (<[DB.seq_attendance db := a]> _) _ _ _).
  assert (DB.insert_attendance a db = Ok (DB.seq_attendance db, db')) as Hins.
  { apply DB.insert_attendance_Ok. split_and!; [|exact Hq|reflexivity|reflexivity].
    apply DB.attendance_fk_ok_iff. by split. }
  rewrite Hins.
  destruct (attendance_to_representation_wf db' (DB.seq_attendance db) a) as (rep & Hrep & _);
    [by eapply DB.insert_attendance_wf|apply lookup_insert_eq|].
  rewrite Hrep. simpl. by exists rep.
Qed.

(** The [UniqueTogetherValidator]: a create naming an
    [(event, user)] pair that already has a row is refused with "You have
    already registered for this event." and nothing is written. *)
Theorem attendance_create_duplicate r db d u e v :
  req_user r = Some u →
  AttendanceSerializer.in_event_id d = Some e → AttendanceSerializer.in_user_id d = Some v →
  AttendanceSerializer.in_status d = None →
  is_Some (DB.events db !! e) → is_Some (DB.users db !! v) →
  (∃ i a, DB.attendances db !! i = Some a ∧ Attendance.event a = e ∧ Attendance.user a = v) →
  AttendanceViewSet.create r db d = (Err (NonFieldError AttendanceSerializer.unique_msg), db).
Proof.
  intros Hu He Hv Hs He' Hv' Hex. unfold AttendanceViewSet.create.
  rewrite check_permissions_authenticated by (unfold is_authenticated; by rewrite Hu).
  simpl. unfold AttendanceSerializer.validate. rewrite He, Hv, Hs. simpl.
  rewrite !bool_decide_eq_true_2 by done. simpl.
  replace (qs_exists (DB.attendance_of db e v)) with true; [done|].
  symmetry. apply qs_exists_spec. naive_solver.
Qed.

(** ** [events/views.py] *)


(** ** Creating and updating events *)

(** Only safe methods are open to anonymous callers: a [GET] on
    the events or categories endpoints passes the permission check, and
    an anonymous [POST /events/] is refused with [NotAuthenticated]
    before its body is read. *)
Theorem events_anonymous_access r db d :
  req_user r = None →
  (check_permissions EventViewSet.permission_classes r = Ok () ↔ req_method r ∈ SAFE_METHODS) ∧
  (req_method r = POST → EventViewSet.create r db d = (Err NotAuthenticated, db)).
Proof.
  intros Hu. split.
  - rewrite check_permissions_Ok. simpl.
    unfold is_authenticated_or_read_only_has_permission, is_authenticated. rewrite Hu.
    rewrite orb_false_r. apply bool_decide_eq_true.
  - intros Hm. unfold EventViewSet.create, check_permissions. simpl.
    unfold is_authenticated_or_read_only_has_permission, is_authenticated. rewrite Hm, Hu.
    reflexivity.
Qed.

(** [perform_create] sees the validated body of an authenticated POST. *)
Lemma event_create_auth r db d u :
  req_user r = Some u →
  EventViewSet.create r db d =
    if bool_decide (EventInput.errors db false d = []) then
      let e := EventInput.apply_to d u (req_now r) (EventInput.defaults (req_now r)) in
      match DB.insert_event e db with
      | Err _ => (Err (ServerError "IntegrityError"), db)
      | Ok (pk, db') =>
          (rep ← of_option (ServerError "DoesNotExist") (EventSerializer.to_representation db' pk e);
           Ok (HTTP_201_CREATED, EventBody rep), db')
      end
    else (Err (FieldErrors (EventInput.errors db false d)), db).
Proof.
  intros Hu. unfold EventViewSet.create.
  rewrite check_permissions_authenticated by (unfold is_authenticated; by rewrite Hu).
  simpl. destruct (bool_decide _); simpl; [|done].
  unfold request_user. by rewrite Hu.
Qed.

(** C27 [perform_create] makes the caller the organizer of the event
    it creates, whatever [organizer_id] the body names. *)
Theorem event_create_sets_organizer r db d u b db' :
  DB.wf db → req_user r = Some u → EventViewSet.create r db d = (Ok (HTTP_201_CREATED, b), db') →
  ∃ pk e, DB.events db !! pk = None ∧ DB.events db' !! pk = Some e ∧ Event.organizer e = u.
Proof.
  intros Hwf Hu. rewrite (event_create_auth r db d u Hu).
  destruct (bool_decide _); [|by intros [=]]. cbv zeta.
  set (e := EventInput.apply_to d u (req_now r) (EventInput.defaults (req_now r))).
  destruct (DB.insert_event e db) as [[pk db1]|] eqn:Hins; [|by intros [=]].
  unfold DB.insert_event, guard_or in Hins.
  destruct (DB.event_fk_ok db e); simpl in Hins; [|discriminate]. injection Hins as <- <-.
  destruct (of_option _ _); intros [=]; subst.
  exists (DB.seq_event db), e.
  split_and!; [by apply DB.seq_event_fresh|simpl; apply lookup_insert_eq|done].
Qed.

(** Although [perform_create] overwrites it, [organizer_id] is a
    required field of [EventSerializer]: an authenticated create that
    leaves it out is refused with a 400 naming it. *)
Theorem event_create_requires_organizer_id r db d u :
  req_user r = Some u → EventInput.organizer_id d = None →
  ∃ errs, EventViewSet.create r db d = (Err (FieldErrors errs), db) ∧
          ("organizer_id"%string, AttendanceSerializer.required_msg) ∈ errs.
Proof.
  intros Hu Ho. rewrite (event_create_auth r db d u Hu).
  assert (Hin : ("organizer_id"%string, AttendanceSerializer.required_msg)
                  ∈ EventInput.errors db false d).
  { unfold EventInput.errors. rewrite Ho. cbn [AttendanceSerializer.pk_field]. set_solver. }
  rewrite bool_decide_eq_false_2 by (intros Hnil; rewrite Hnil in Hin; set_solver).
  eauto.
Qed.

(** ** Witnesses *)

Lemma events_filter_category_witness :
  EventViewSet.get_queryset (get_request [("category", show_nat 5)]) (sample_db (Some 2) ∅) =
    Ok (filter (λ kv : nat * Event.t, Event.category kv.2 = Some 5)
               (DB.events (sample_db (Some 2) ∅))).
Proof. apply events_filter_category. reflexivity. Defined.

Lemma events_filter_category_not_int_witness :
  EventViewSet.get_queryset (get_request [("category", "abc")]) (sample_db (Some 2) ∅) =
    Err (ServerError "ValueError").
Proof. apply (events_filter_category_not_int _ _ "abc"); [reflexivity|discriminate|reflexivity]. Defined.

Lemma events_filter_featured_witness :
  EventViewSet.get_queryset (get_request [("featured", "TRUE")]) (sample_db (Some 2) ∅) =
    Ok (if bool_decide (py_lower "TRUE" = "true"%string)
        then filter (λ kv : nat * Event.t, Event.is_featured kv.2 = true)
                    (DB.events (sample_db (Some 2) ∅))
        else DB.events (sample_db (Some 2) ∅)).
Proof. apply events_filter_featured. reflexivity. Defined.

Lemma event_update_any_caller_witness :
  ∃ rep, EventViewSet.update reassign_request (sample_db (Some 2) ∅) "0" true reassign_body =
    (Ok (HTTP_200_OK, EventBody rep),
     DB.mk (DB.users (sample_db (Some 2) ∅)) (DB.categories (sample_db (Some 2) ∅))
       (<[0 := EventInput.apply_to reassign_body 3 (req_now reassign_request) (sample_event (Some 2))]>
          (DB.events (sample_db (Some 2) ∅)))
       (DB.attendances (sample_db (Some 2) ∅)) (DB.seq_category (sample_db (Some 2) ∅))
       (DB.seq_event (sample_db (Some 2) ∅)) (DB.seq_attendance (sample_db (Some 2) ∅))) ∧
    Event.organizer (EventInput.apply_to reassign_body 3 (req_now reassign_request)
                       (sample_event (Some 2))) = 3.
Proof.
  apply (event_update_any_caller reassign_request (sample_db (Some 2) ∅) "0" true reassign_body
           0 (sample_event (Some 2)) 3);
    [wf_sample|reflexivity|reflexivity|vm_compute; reflexivity|reflexivity].
Defined.

(** User 2 registers user 3 for event 0, which is already at its
    [max_attendees = 1] with the row of user 4. *)
Lemma attendance_create_any_user_witness :
  ∃ rep, AttendanceViewSet.create proxy_request full_db proxy_body =
    (Ok (HTTP_201_CREATED, AttendanceBody rep),
     DB.mk (DB.users full_db) (DB.categories full_db) (DB.events full_db)
       (<[DB.seq_attendance full_db := Attendance.mk 0 3 Attendance.registered (req_now proxy_request)]>
          (DB.attendances full_db))
       (DB.seq_category full_db) (DB.seq_event full_db) (S (DB.seq_attendance full_db))).
Proof.
  apply (attendance_create_any_user proxy_request full_db proxy_body 2 0 3);
    [wf_sample|reflexivity|reflexivity|reflexivity|reflexivity|eexists; reflexivity
    |eexists; reflexivity|apply not_registered_qs; reflexivity].
Defined.

Lemma my_events_own_rows_witness :
  AttendanceViewSet.my_events (sample_request 2) (sample_db (Some 2) ∅) =
  AttendanceViewSet.list (sample_request 2) (sample_db (Some 2) ∅).
Proof. apply (my_events_own_rows _ _ 2); reflexivity. Defined.

Lemma events_anonymous_access_witness :
  (check_permissions EventViewSet.permission_classes anonymous_request = Ok () ↔
   req_method anonymous_request ∈ SAFE_METHODS) ∧
  (req_method anonymous_request = POST →
   EventViewSet.create anonymous_request (sample_db (Some 2) ∅) (event_body (Some 1)) =
     (Err NotAuthenticated, sample_db (Some 2) ∅)).
Proof. apply events_anonymous_access. reflexivity. Defined.

Lemma event_create_sets_organizer_witness :
  ∃ pk e, DB.events (sample_db (Some 2) ∅) !! pk = None ∧
    DB.events (EventViewSet.create (sample_request 2) (sample_db (Some 2) ∅) (event_body (Some 1))).2
      !! pk = Some e ∧
    Event.organizer e = 2.
Proof.
  let b := eval vm_compute in
    (match (EventViewSet.create (sample_request 2) (sample_db (Some 2) ∅) (event_body (Some 1))).1 with
     | Ok (_, b) => b | Err _ => NoContent end) in
  apply (event_create_sets_organizer (sample_request 2) (sample_db (Some 2) ∅) (event_body (Some 1)) 2 b);
    [apply DB.wfb_sound; vm_compute; reflexivity|reflexivity|vm_compute; reflexivity].
Defined.

Lemma event_create_requires_organizer_id_witness :
  ∃ errs, EventViewSet.create (sample_request 2) (sample_db (Some 2) ∅) (event_body None) =
            (Err (FieldErrors errs), sample_db (Some 2) ∅) ∧
          ("organizer_id"%string, AttendanceSerializer.required_msg) ∈ errs.
Proof. apply (event_create_requires_organizer_id _ _ _ 2); reflexivity. Defined.

Lemma attendance_create_duplicate_witness :
  AttendanceViewSet.create proxy_request full_db (AttendanceSerializer.mkInput (Some 0) (Some 4) None) =
    (Err (NonFieldError AttendanceSerializer.unique_msg), full_db).
Proof.
  apply (attendance_create_duplicate _ _ _ 2 0 4);
    [reflexivity|reflexivity|reflexivity|reflexivity|eexists; reflexivity|eexists; reflexivity|].
  exists 0, (Attendance.mk 0 4 Attendance.registered 10). split_and!; reflexivity.
Defined.
