(* ===== verification/Routing.v ===== *)
(** * Routing: [event_app/urls.py] and DRF's [DefaultRouter]

    urls.py registers [CategoryViewSet], [EventViewSet] and
    [AttendanceViewSet] on a [DefaultRouter] under the prefixes
    [categories], [events] and [attendances].  The router writes one
    regular expression per route ([SimpleRouter.routes]: the list route,
    the list-level [@action]s, the detail route, the detail-level
    [@action]s), puts the API root first and adds a format-suffixed copy
    after each pattern ([format_suffix_patterns]).  Django resolves a
    path to the first pattern that matches it; the view then checks
    permissions and dispatches the method to a handler of Views.v, or
    answers 405.

    Module [Router] holds the patterns as token lists ([Token]) read by
    [match_tokens], the route table ([urlpatterns]), [resolve],
    [reverse], [dispatch], which runs the handler a request reaches, and
    [serve], which runs a sequence of requests. *)

From S2P Require Import Prelude PyStr Models Http Permissions Serializers Views.
From Stdlib Require Import Ascii String.

Module Router.

(** ** Regular expressions of the router *)

(** [[^/.]+], DRF's default [lookup_value_regex]. *)
Definition is_lookup_char (c : ascii) : bool :=
  negb (Ascii.eqb c "/" || Ascii.eqb c ".").

(** [[a-z0-9]], the characters [format_suffix_patterns] allows. *)
Definition is_format_char (c : ascii) : bool :=
  let n := nat_of_ascii c in ((97 <=? n) && (n <=? 122)) || ((48 <=? n) && (n <=? 57)).

(** The longest prefix of [s] whose characters satisfy [p], and the rest. *)
Fixpoint span (p : ascii → bool) (s : string) : string * string :=
  match s with
  | EmptyString => (EmptyString, EmptyString)
  | String c s' =>
      if p c then let '(a, b) := span p s' in (String c a, b) else (EmptyString, s)
  end.

(** [s] without its prefix [l], when [s] starts with [l]. *)
Fixpoint strip_prefix (l s : string) : option string :=
  match l, s with
  | EmptyString, _ => Some s
  | String a l', String b s' => if Ascii.eqb a b then strip_prefix l' s' else None
  | String _ _, EmptyString => None
  end.

(** [str.rstrip('/')]. *)
Fixpoint rstrip_slash (s : string) : string :=
  match s with
  | EmptyString => EmptyString
  | String c s' =>
      let r := rstrip_slash s' in
      if Ascii.eqb c "/" && String.eqb r "" then EmptyString else String c r
  end.

(** A pattern read left to right: a literal, the group
    [(?P<pk>[^/.]+)], the end [$], or the format suffix
    [\.(?P<format>[a-z0-9]+)/?$]. *)
Inductive Token := TLit (l : string) | TPk | TEnd | TFormat.

#[export] Instance Token_eq_dec : EqDecision Token.
Proof. solve_decision. Defined.

(** [RegexPattern.match]: Django matches an endpoint pattern ending in
    [$] with [fullmatch], so [$] is the end of the path.  Each
    [[^/.]+] and [[a-z0-9]+] is followed by a character it cannot
    contain or by the end, so the greedy match is the only one and no
    backtracking is needed.  The result is the captured [pk] and
    [format]. *)
Fixpoint match_tokens (ts : list Token) (s : string) (pk : option string)
    : option (option string * option string) :=
  match ts with
  | [] => None
  | TLit l :: ts' =>
      match strip_prefix l s with Some s' => match_tokens ts' s' pk | None => None end
  | TPk :: ts' =>
      let '(a, b) := span is_lookup_char s in
      if String.eqb a "" then None else match_tokens ts' b (Some a)
  | TEnd :: _ => if String.eqb s "" then Some (pk, None) else None
  | TFormat :: _ =>
      match s with
      | String c s' =>
          if Ascii.eqb c "." then
            let '(f, rest) := span is_format_char s' in
            if String.eqb f "" then None
            else if String.eqb rest "" || String.eqb rest "/" then Some (pk, Some f) else None
          else None
      | EmptyString => None
      end
  end.

(** [format_suffix_patterns]: the pattern with its [$] and trailing
    slashes removed, then [\.(?P<format>[a-z0-9]+)/?$]. *)
Definition suffixed (ts : list Token) : list Token :=
  match rev ts with
  | TEnd :: TLit l :: rest => rev rest ++ [TLit (rstrip_slash l); TFormat]
  | TEnd :: rest => rev rest ++ [TFormat]
  | _ => ts
  end.

(** ** The route table *)

Inductive ViewSetId := Categories | Events | Attendances.

#[export] Instance ViewSetId_eq_dec : EqDecision ViewSetId.
Proof. solve_decision. Defined.

(** [router.register(r'categories', CategoryViewSet)] and so on. *)
Definition prefix (v : ViewSetId) : string :=
  match v with Categories => "categories" | Events => "events" | Attendances => "attendances" end.

(** [get_default_basename]: [queryset.model._meta.object_name.lower()]. *)
Definition basename (v : ViewSetId) : string :=
  match v with Categories => "category" | Events => "event" | Attendances => "attendance" end.

(** The handler a route and method lead to. *)
Inductive Action :=
| ARoot | AList | ACreate | ARetrieve | AUpdate | APartialUpdate | ADestroy
| ARegister | AAttendees | AMyEvents.

#[export] Instance Action_eq_dec : EqDecision Action.
Proof. solve_decision. Defined.

(** An [@action]: its name (also its [url_path]), [detail], [methods]. *)
Record ExtraAction := mkExtra {
  xa_name : string; xa_detail : bool; xa_methods : list Method; xa_action : Action
}.

#[export] Instance ExtraAction_eq_dec : EqDecision ExtraAction.
Proof. solve_decision. Defined.

(** [get_extra_actions()], in name order ([inspect.getmembers]). *)
Definition extra_actions (v : ViewSetId) : list ExtraAction :=
  match v with
  | Categories => []
  | Events => [mkExtra "attendees" true [GET] AAttendees; mkExtra "register" true [POST] ARegister]
  | Attendances => [mkExtra "my_events" false [GET] AMyEvents]
  end.

Inductive Route :=
| RootRoute
| ListRoute (v : ViewSetId)
| DetailRoute (v : ViewSetId)
| ExtraRoute (v : ViewSetId) (x : ExtraAction).

#[export] Instance Route_eq_dec : EqDecision Route.
Proof. solve_decision. Defined.

(** [SimpleRouter.get_routes]: the list route, the list-level actions,
    the detail route, the detail-level actions. *)
Definition get_routes (v : ViewSetId) : list Route :=
  [ListRoute v] ++ (ExtraRoute v <$> List.filter (λ x, negb (xa_detail x)) (extra_actions v))
  ++ [DetailRoute v] ++ (ExtraRoute v <$> List.filter xa_detail (extra_actions v)).

(** The [router.register] calls, in the order of urls.py. *)
Definition registry : list ViewSetId := [Categories; Events; Attendances].

(** [^{prefix}/$], [^{prefix}/{url_path}/$], [^{prefix}/{lookup}/$],
    [^{prefix}/{lookup}/{url_path}/$]; the root is [^$]. *)
Definition route_tokens (rt : Route) : list Token :=
  match rt with
  | RootRoute => [TEnd]
  | ListRoute v => [TLit (prefix v +:+ "/"); TEnd]
  | DetailRoute v => [TLit (prefix v +:+ "/"); TPk; TLit "/"; TEnd]
  | ExtraRoute v x =>
      if xa_detail x then [TLit (prefix v +:+ "/"); TPk; TLit ("/" +:+ xa_name x +:+ "/"); TEnd]
      else [TLit (prefix v +:+ "/" +:+ xa_name x +:+ "/"); TEnd]
  end.

(** The [name] of each URL: [{basename}-list], [{basename}-detail],
    [{basename}-{url_name}] with [url_name] the action's name with [_]
    replaced by [-]; the root is [api-root]. *)
Definition route_name (rt : Route) : string :=
  match rt with
  | RootRoute => "api-root"
  | ListRoute v => basename v +:+ "-list"
  | DetailRoute v => basename v +:+ "-detail"
  | ExtraRoute v x => basename v +:+ "-" +:+ py_replace_char "_"%char "-"%char (xa_name x)
  end.

(** Every route of the router, the root first. *)
Definition routes : list Route := RootRoute :: List.concat (get_routes <$> registry).

(** [DefaultRouter.get_urls] after [format_suffix_patterns]: each
    pattern followed by its suffixed copy. *)
Definition urlpatterns : list (Route * list Token) :=
  List.concat ((λ rt, [(rt, route_tokens rt); (rt, suffixed (route_tokens rt))]) <$> routes).

(** The first pattern that matches [path] (the part of the URL the
    [include] hands to the router), with the captured [pk] and
    [format]. *)
Fixpoint first_match (ps : list (Route * list Token)) (path : string)
    : option (Route * option string * option string) :=
  match ps with
  | [] => None
  | (rt, ts) :: ps' =>
      match match_tokens ts path None with
      | Some (pk, fmt) => Some (rt, pk, fmt)
      | None => first_match ps' path
      end
  end.

Definition resolve (path : string) : option (Route * option string * option string) :=
  first_match urlpatterns path.

(** [reverse(name, kwargs={'pk': pk})]: the pattern with [pk] in its
    group. *)
Fixpoint render (ts : list Token) (pk : string) : string :=
  match ts with
  | [] => ""
  | TLit l :: ts' => l +:+ render ts' pk
  | TPk :: ts' => pk +:+ render ts' pk
  | TEnd :: _ | TFormat :: _ => ""
  end.

Definition reverse (rt : Route) (pk : string) : string := render (route_tokens rt) pk.

(** ** Dispatch *)

(** The [actions] a route passes to [as_view]: [{'get': 'list',
    'post': 'create'}], [{'get': 'retrieve', 'put': 'update', 'patch':
    'partial_update', 'delete': 'destroy'}], an action's [methods]; the
    root view has [get]. *)
Definition method_map (rt : Route) : list (Method * Action) :=
  match rt with
  | RootRoute => [(GET, ARoot)]
  | ListRoute _ => [(GET, AList); (POST, ACreate)]
  | DetailRoute _ => [(GET, ARetrieve); (PUT, AUpdate); (PATCH, APartialUpdate); (DELETE, ADestroy)]
  | ExtraRoute _ x => (λ m, (m, xa_action x)) <$> xa_methods x
  end.

Definition lookup_method (m : Method) (l : list (Method * Action)) : option Action :=
  snd <$> list_find (λ p, p.1 = m) l ≫= λ p, Some p.2.

(** The handler of a method; [head] falls back to [get] (Django's
    [View.setup], DRF's [ViewSetMixin.as_view]). *)
Definition action_for (rt : Route) (m : Method) : option Action :=
  match lookup_method m (method_map rt) with
  | Some a => Some a
  | None => if decide (m = HEAD) then lookup_method GET (method_map rt) else None
  end.

(** The [permission_classes] in force on a route: the viewset's, or the
    ones the [@action] sets; [AllowAny] on the root view. *)
Definition route_check (rt : Route) (r : Request) : Result APIError unit :=
  match rt with
  | RootRoute => check_permissions AllowAny_ r
  | ListRoute Categories | DetailRoute Categories =>
      check_permissions CategoryViewSet.permission_classes r
  | ListRoute Events | DetailRoute Events => check_permissions EventViewSet.permission_classes r
  | ListRoute Attendances | DetailRoute Attendances =>
      check_permissions AttendanceViewSet.permission_classes r
  | ExtraRoute Events _ => check_permissions IsAuthenticated_ r
  | ExtraRoute Categories _ => check_permissions CategoryViewSet.permission_classes r
  | ExtraRoute Attendances _ => check_permissions AttendanceViewSet.permission_classes r
  end.

(** The renderers' formats: [JSONRenderer] and [BrowsableAPIRenderer],
    DRF's [DEFAULT_RENDERER_CLASSES]. *)
Definition renderer_formats : list string := ["json"; "api"].

(** [DefaultContentNegotiation.select_renderer]: a format from the URL
    suffix or the [?format=] parameter must name a renderer, or the
    request is a 404. *)
Definition negotiate (suffix : option string) (r : Request) : bool :=
  let fmt := match suffix with Some f => Some f | None => qd_get "format" (query_params r) end in
  match fmt with
  | Some f => if py_truthy (Some f) then bool_decide (f ∈ renderer_formats) else true
  | None => true
  end.

(** The body of a request as each serializer reads it. *)
Record Payload := mkPayload {
  event_data : EventInput.t;
  attendance_data : AttendanceSerializer.input;
  category_data : CategoryInput.t
}.

(** [APIRootView.get]: the list URL of each registered prefix. *)
Definition root_links : list (string * string) :=
  (λ v, (prefix v, reverse (ListRoute v) "")) <$> registry.

(** The handler an action names, on the route's viewset. *)
Definition run (rt : Route) (a : Action) (r : Request) (pk : string) (body : Payload)
    (db : DB.t) : Outcome :=
  match rt, a with
  | RootRoute, _ => ((check_permissions AllowAny_ r;; Ok (HTTP_200_OK, ApiRoot root_links)), db)
  | _, AList | _, ARoot =>
      match rt with
      | ListRoute Categories => (CategoryViewSet.list r db, db)
      | ListRoute Events => (EventViewSet.list r db, db)
      | _ => (AttendanceViewSet.list r db, db)
      end
  | ListRoute Categories, ACreate => CategoryViewSet.create r db (category_data body)
  | ListRoute Events, ACreate => EventViewSet.create r db (event_data body)
  | ListRoute Attendances, ACreate => AttendanceViewSet.create r db (attendance_data body)
  | DetailRoute Categories, ARetrieve => (CategoryViewSet.retrieve r db pk, db)
  | DetailRoute Events, ARetrieve => (EventViewSet.retrieve r db pk, db)
  | DetailRoute Attendances, ARetrieve => (AttendanceViewSet.retrieve r db pk, db)
  | DetailRoute Categories, AUpdate => CategoryViewSet.update r db pk false (category_data body)
  | DetailRoute Events, AUpdate => EventViewSet.update r db pk false (event_data body)
  | DetailRoute Attendances, AUpdate => AttendanceViewSet.update r db pk false (attendance_data body)
  | DetailRoute Categories, APartialUpdate => CategoryViewSet.update r db pk true (category_data body)
  | DetailRoute Events, APartialUpdate => EventViewSet.update r db pk true (event_data body)
  | DetailRoute Attendances, APartialUpdate =>
      AttendanceViewSet.update r db pk true (attendance_data body)
  | DetailRoute Categories, ADestroy => CategoryViewSet.destroy r db pk
  | DetailRoute Events, ADestroy => EventViewSet.destroy r db pk
  | DetailRoute Attendances, ADestroy => AttendanceViewSet.destroy r db pk
  | _, ARegister => EventViewSet.register r db pk
  | _, AAttendees => (EventViewSet.attendees r db pk, db)
  | _, AMyEvents => (AttendanceViewSet.my_events r db, db)
  | _, _ => (Err (MethodNotAllowed (req_method r)), db)
  end.

(** A request for [path]: Django's 404 when no pattern matches; DRF's
    [APIView.dispatch] otherwise: [initial()] negotiates the format,
    then the handler of the method runs (it checks the permissions
    first); a method without a handler is checked against the
    permissions and then answered by [options] or
    [http_method_not_allowed]. *)
Definition dispatch (r : Request) (path : string) (body : Payload) (db : DB.t) : Outcome :=
  match resolve path with
  | None => (Err NotFound, db)
  | Some (rt, pk, suffix) =>
      if negb (negotiate suffix r) then (Err NotFound, db) else
      match action_for rt (req_method r) with
      | Some a => run rt a r (default "" pk) body db
      | None =>
          match route_check rt r with
          | Err e => (Err e, db)
          | Ok _ =>
              if decide (req_method r = OPTIONS) then (Ok (HTTP_200_OK, Metadata), db)
              else (Err (MethodNotAllowed (req_method r)), db)
          end
      end
  end.

(** The [pk] a route's pattern captures. *)
Definition route_pk (rt : Route) (d : string) : option string :=
  match rt with
  | DetailRoute _ => Some d
  | ExtraRoute _ x => if xa_detail x then Some d else None
  | _ => None
  end.

(** The number of [pk] groups of a pattern. *)
Definition pk_count (ts : list Token) : nat :=
  List.length (List.filter (λ t, bool_decide (t = TPk)) ts).

(** What the round-trip proofs need of a pattern of the table: a
    route's own pattern, with at most one [pk] group, or a pattern
    without [$] (a suffixed copy, whose matches carry a format). *)
Definition pattern_ok (p : Route * list Token) : bool :=
  (bool_decide (p.2 = route_tokens p.1) && (pk_count p.2 <=? 1))
  || negb (bool_decide (TEnd ∈ p.2)).

(** [POST /events/{pk}/register/]. *)
Definition register_route : Route := ExtraRoute Events (mkExtra "register" true [POST] ARegister).

(** The handlers that only read. *)
Definition read_action (a : Action) : bool :=
  match a with ARoot | AList | ARetrieve | AAttendees | AMyEvents => true | _ => false end.

(** Requests served one after another, each on the database the
    previous one left: the responses in order and the final database. *)
Fixpoint serve (db : DB.t) (reqs : list (Request * string * Payload))
    : list (Result APIError Response) * DB.t :=
  match reqs with
  | [] => ([], db)
  | (r, path, body) :: rs =>
      let '(o, db1) := dispatch r path body db in
      let '(os, db2) := serve db1 rs in (o :: os, db2)
  end.

(** An empty request body, for the concrete runs. *)
Definition sample_payload : Payload :=
  mkPayload (EventInput.mk None None None None None None None None None None None)
            (AttendanceSerializer.mkInput None None None) (CategoryInput.mk None None).

(** ** Facts *)

(** Concrete paths are built by [+:+]; let [simpl] and [cbn] compute it. *)
#[local] Arguments String.append : simpl nomatch.

Lemma is_lookup_char_digit c : is_digit_char c → is_lookup_char c = true.
Proof. intros (k & Hk & ->). do 10 (destruct k as [|k]; [reflexivity|]). lia. Qed.

Lemma span_digits d s :
  Forall is_digit_char (list_ascii_of_string d) →
  span is_lookup_char (d +:+ String "/" s) = (d, String "/" s).
Proof.
  induction d as [|c d IH]; intros Hd; [done|].
  simpl in Hd. apply Forall_cons in Hd as [Hc Hd]. simpl.
  rewrite is_lookup_char_digit by done. by rewrite IH.
Qed.

(** [str(n)] is a digit followed by digits. *)
Lemma show_nat_cons n :
  ∃ k d, k < 10 ∧ show_nat n = String (digit_char k) d ∧
         Forall is_digit_char (list_ascii_of_string d).
Proof.
  pose proof (show_nat_nonempty n) as Hne. pose proof (show_nat_fuel_digits (S n) n) as Hd.
  unfold show_nat in *. destruct (show_nat_fuel (S n) n) as [|c l]; [done|].
  apply Forall_cons in Hd as [(k & Hk & ->) Hl].
  exists k, (string_of_list_ascii l). split_and!; [done|done|].
  by rewrite list_ascii_of_string_of_list_ascii.
Qed.

Lemma elem_of_routes rt :
  rt ∈ routes ↔ rt = RootRoute ∨ rt = ListRoute Categories ∨ rt = DetailRoute Categories ∨
    rt = ListRoute Events ∨ rt = DetailRoute Events ∨
    rt = ExtraRoute Events (mkExtra "attendees" true [GET] AAttendees) ∨
    rt = ExtraRoute Events (mkExtra "register" true [POST] ARegister) ∨
    rt = ListRoute Attendances ∨ rt = ExtraRoute Attendances (mkExtra "my_events" false [GET] AMyEvents) ∨
    rt = DetailRoute Attendances.
Proof. unfold routes. simpl. rewrite !elem_of_cons, elem_of_nil. naive_solver. Qed.

(** Evaluates [resolve] on a path holding a decimal [pk] that starts
    with a known digit. *)
Ltac resolve_digits Hd :=
  repeat (progress cbn || rewrite span_digits by exact Hd); reflexivity.

Lemma resolve_reverse_digits rt n :
  rt ∈ routes → resolve (reverse rt (show_nat n)) = Some (rt, route_pk rt (show_nat n), None).
Proof.
  destruct (show_nat_cons n) as (k & d & Hk & -> & Hd).
  rewrite elem_of_routes. intros Hrt.
  do 10 (destruct k as [|k];
    [repeat destruct Hrt as [->|Hrt]; try subst rt; resolve_digits Hd|]). lia.
Qed.

(** C21 Resolving the URL [reverse] builds for a route and a numeric
    primary key gives back that route and key: no earlier pattern of
    the router (a list action, another viewset's route, a
    format-suffixed copy) captures it. *)
Theorem resolve_reverse rt n :
  rt ∈ routes → resolve (reverse rt (show_nat n)) = Some (rt, route_pk rt (show_nat n), None).
Proof. apply resolve_reverse_digits. Qed.


(** ** Parsing a path back *)

Lemma strip_prefix_Some l s s' : strip_prefix l s = Some s' → s = l +:+ s'.
Proof.
  revert s. induction l as [|a l IH]; intros [|b s]; simpl; try congruence.
  destruct (Ascii.eqb a b) eqn:E; [|discriminate].
  apply Ascii.eqb_eq in E as ->. intros H. f_equal. by apply IH.
Qed.

Lemma span_app p s a b : span p s = (a, b) → s = a +:+ b.
Proof.
  revert a b. induction s as [|c s IH]; intros a b; simpl; [by intros [= <- <-]|].
  destruct (p c); [|by intros [= <- <-]].
  destruct (span p s) as [a' b'] eqn:E. intros [= <- <-]. simpl. f_equal. by apply IH.
Qed.

Lemma pk_count_0 ts : pk_count ts = 0 → TPk ∉ ts.
Proof.
  unfold pk_count. induction ts as [|t ts IH]; simpl; [intros _; apply not_elem_of_nil|].
  case_bool_decide; [discriminate|]. intros H0. apply not_elem_of_cons. auto.
Qed.

(** Without a [pk] group the captured [pk] is the one given. *)
Lemma match_tokens_no_pk ts s p q x :
  TPk ∉ ts → match_tokens ts s p = Some (q, x) → q = p.
Proof.
  revert s. induction ts as [|[l| | |] ts IH]; intros s Hpk; simpl; try discriminate.
  - apply not_elem_of_cons in Hpk as [_ Hpk].
    destruct (strip_prefix l s); [by apply IH|discriminate].
  - exfalso. apply Hpk, list_elem_of_here.
  - destruct (String.eqb s ""); [by intros [= <- _]|discriminate].
  - repeat case_match; congruence.
Qed.

(** A match of a pattern without [$] carries a format. *)
Lemma match_tokens_format ts s p q x :
  TEnd ∉ ts → match_tokens ts s p = Some (q, x) → x ≠ None.
Proof.
  revert s p. induction ts as [|[l| | |] ts IH]; intros s p Hend; simpl; try discriminate.
  - apply not_elem_of_cons in Hend as [_ Hend].
    destruct (strip_prefix l s); [by apply IH|discriminate].
  - apply not_elem_of_cons in Hend as [_ Hend].
    destruct (span _ s). case_match; [discriminate|by apply IH].
  - exfalso. apply Hend, list_elem_of_here.
  - repeat case_match; congruence.
Qed.

(** A path matched by a pattern with at most one [pk] group, up to [$],
    is the pattern rendered with the captured [pk]. *)
Lemma match_tokens_render ts s p q :
  pk_count ts ≤ 1 → match_tokens ts s p = Some (q, None) → render ts (default "" q) = s.
Proof.
  revert s p. induction ts as [|[l| | |] ts IH]; intros s p Hc; simpl; try discriminate.
  - destruct (strip_prefix l s) as [s'|] eqn:Hs; [|discriminate].
    intros Hm. rewrite (strip_prefix_Some _ _ _ Hs). f_equal. by eapply IH.
  - destruct (span is_lookup_char s) as [a b] eqn:Hsp. case_match; [discriminate|].
    intros Hm. unfold pk_count in Hc. simpl in Hc.
    assert (TPk ∉ ts) as Hno by (apply pk_count_0; unfold pk_count; lia).
    assert (render ts (default "" q) = b) as Hb by (eapply IH; [unfold pk_count; lia|done]).
    rewrite (match_tokens_no_pk _ _ _ _ _ Hno Hm) in Hb |- *. simpl in *.
    rewrite (span_app _ _ _ _ Hsp). by rewrite Hb.
  - destruct (String.eqb s "") eqn:E; [|discriminate]. apply String.eqb_eq in E. by subst.
  - repeat case_match; congruence.
Qed.

Lemma first_match_In ps s rt q x :
  first_match ps s = Some (rt, q, x) → ∃ ts, (rt, ts) ∈ ps ∧ match_tokens ts s None = Some (q, x).
Proof.
  induction ps as [|[rt' ts] ps IH]; simpl; [discriminate|].
  destruct (match_tokens ts s None) as [[q' x']|] eqn:Hm.
  - intros [= -> -> ->]. exists ts. split; [apply list_elem_of_here|done].
  - intros (ts' & Hin & Hm')%IH. exists ts'. split; [by apply list_elem_of_further|done].
Qed.

Lemma urlpatterns_ok : Forall (λ p, pattern_ok p = true ∧ p.1 ∈ routes) urlpatterns.
Proof. apply (bool_decide_unpack _). vm_compute. reflexivity. Qed.

Lemma resolve_route path rt pk x :
  resolve path = Some (rt, pk, x) →
  rt ∈ routes ∧ ∃ ts, pattern_ok (rt, ts) = true ∧ match_tokens ts path None = Some (pk, x).
Proof.
  unfold resolve. intros (ts & Hin & Hm)%first_match_In.
  pose proof (proj1 (Forall_forall _ _) urlpatterns_ok _ Hin) as [Hok Hrt].
  split; [done|]. by exists ts.
Qed.

(** The other round trip: a path that resolves to a route
    without a format suffix is the URL [reverse] builds for that route
    and the captured [pk]. *)
Theorem reverse_resolve path rt pk :
  resolve path = Some (rt, pk, None) → reverse rt (default "" pk) = path.
Proof.
  intros (_ & ts & Hok & Hm)%resolve_route.
  unfold pattern_ok in Hok. simpl in Hok. apply orb_true_iff in Hok as [Hok|Hok].
  - apply andb_true_iff in Hok as [Heq Hc].
    apply bool_decide_eq_true in Heq. apply Nat.leb_le in Hc. subst ts.
    by eapply match_tokens_render.
  - apply negb_true_iff, bool_decide_eq_false in Hok.
    by apply match_tokens_format in Hm.
Qed.


(** ** Dispatch *)

(** The handlers a safe method reaches on the router's routes. *)
Lemma action_for_safe rt m a :
  rt ∈ routes → m ∈ SAFE_METHODS → action_for rt m = Some a → read_action a = true.
Proof.
  rewrite elem_of_routes. unfold SAFE_METHODS. rewrite !elem_of_cons, elem_of_nil.
  intros Hrt Hm. repeat destruct Hrt as [->|Hrt]; try subst rt;
    repeat destruct Hm as [->|Hm]; try done; by intros [= <-].
Qed.

Lemma run_read rt a r pk body db : read_action a = true → (run rt a r pk body db).2 = db.
Proof.
  destruct a; try discriminate; intros _;
    destruct rt as [|[]|[]|[] x]; reflexivity.
Qed.

(** A request for the URL of a route with a numeric primary key,
    with a method the route maps and no unknown format, runs [run] on
    the route's action with that key. *)
Theorem dispatch_reaches rt n r a body db :
  rt ∈ routes → action_for rt (req_method r) = Some a → negotiate None r = true →
  dispatch r (reverse rt (show_nat n)) body db =
    run rt a r (default "" (route_pk rt (show_nat n))) body db.
Proof.
  intros Hrt Ha Hn. unfold dispatch.
  rewrite resolve_reverse_digits by done. rewrite Hn. simpl. by rewrite Ha.
Qed.

Lemma dispatch_reaches_at rt n r a path body db :
  rt ∈ routes → action_for rt (req_method r) = Some a → negotiate None r = true →
  reverse rt (show_nat n) = path →
  dispatch r path body db = run rt a r (default "" (route_pk rt (show_nat n))) body db.
Proof. intros ??? <-. by apply dispatch_reaches. Qed.

Ltac reach rt a n Hn :=
  rewrite (dispatch_reaches_at rt n _ a);
  [reflexivity | apply elem_of_routes; naive_solver | reflexivity | apply Hn | reflexivity].

(** [GET /events/{pk}/register/]: the route only maps [post],
    and [initial()] checks the action's [IsAuthenticated] before the
    method is looked up, so an anonymous caller gets 403
    ([NotAuthenticated]) and an authenticated one 405; nothing is
    written. *)
Theorem dispatch_register_get n r body db :
  req_method r = GET → negotiate None r = true →
  dispatch r (reverse register_route (show_nat n)) body db =
    ((if is_authenticated r then Err (MethodNotAllowed GET) else Err NotAuthenticated), db).
Proof.
  intros Hm Hn. unfold dispatch.
  rewrite resolve_reverse_digits by (apply elem_of_routes; naive_solver). rewrite Hn, Hm.
  cbn. unfold check_permissions. cbn. unfold is_authenticated_has_permission.
  by destruct (is_authenticated r).
Qed.

(** C20 Whatever the path, a [GET], [HEAD] or [OPTIONS] request
    leaves the database as it was: every handler a safe method reaches
    only reads. *)
Theorem dispatch_safe_read_only r path body db :
  req_method r ∈ SAFE_METHODS → (dispatch r path body db).2 = db.
Proof.
  intros Hm. unfold dispatch.
  destruct (resolve path) as [[[rt pk] sfx]|] eqn:Hres; [|done].
  destruct (negotiate sfx r); [|done]. simpl.
  destruct (action_for rt (req_method r)) as [a|] eqn:Ha.
  - apply run_read. eapply action_for_safe; [|done|done].
    by apply resolve_route in Hres as [? _].
  - destruct (route_check rt r); [case_decide|]; done.
Qed.

(** C22 The endpoint table of the events API as [DefaultRouter]
    builds it from [router.register('events', EventViewSet)] and
    [router.register('attendances', AttendanceViewSet)]: for a numeric
    key [n] and a query string without a [format], each URL and method
    below reaches exactly the [EventViewSet] or [AttendanceViewSet]
    handler of views.py named on its right, with the key of the URL and
    the serializer input of the body, and nothing else runs. *)
Theorem dispatch_event_endpoints u q now n body db :
  qd_get "format" q = None →
  let req m := mkRequest u m q now in
  let pk := show_nat n in
  dispatch (req GET) "events/" body db = (EventViewSet.list (req GET) db, db) ∧
  dispatch (req POST) "events/" body db = EventViewSet.create (req POST) db (event_data body) ∧
  dispatch (req GET) ("events/" +:+ pk +:+ "/") body db =
    (EventViewSet.retrieve (req GET) db pk, db) ∧
  dispatch (req PUT) ("events/" +:+ pk +:+ "/") body db =
    EventViewSet.update (req PUT) db pk false (event_data body) ∧
  dispatch (req PATCH) ("events/" +:+ pk +:+ "/") body db =
    EventViewSet.update (req PATCH) db pk true (event_data body) ∧
  dispatch (req DELETE) ("events/" +:+ pk +:+ "/") body db = EventViewSet.destroy (req DELETE) db pk ∧
  dispatch (req POST) ("events/" +:+ pk +:+ "/register/") body db =
    EventViewSet.register (req POST) db pk ∧
  dispatch (req GET) ("events/" +:+ pk +:+ "/attendees/") body db =
    (EventViewSet.attendees (req GET) db pk, db) ∧
  dispatch (req GET) "attendances/" body db = (AttendanceViewSet.list (req GET) db, db) ∧
  dispatch (req POST) "attendances/" body db =
    AttendanceViewSet.create (req POST) db (attendance_data body) ∧
  dispatch (req DELETE) ("attendances/" +:+ pk +:+ "/") body db =
    AttendanceViewSet.destroy (req DELETE) db pk ∧
  dispatch (req GET) "attendances/my_events/" body db =
    (AttendanceViewSet.my_events (req GET) db, db).
Proof.
  intros Hq req pk.
  assert (Hn : ∀ m, negotiate None (req m) = true) by (intros m; unfold negotiate; simpl; by rewrite Hq).
  split_and!; [
    reach (ListRoute Events) AList n Hn | reach (ListRoute Events) ACreate n Hn
  | reach (DetailRoute Events) ARetrieve n Hn | reach (DetailRoute Events) AUpdate n Hn
  | reach (DetailRoute Events) APartialUpdate n Hn | reach (DetailRoute Events) ADestroy n Hn
  | reach (ExtraRoute Events (mkExtra "register" true [POST] ARegister)) ARegister n Hn
  | reach (ExtraRoute Events (mkExtra "attendees" true [GET] AAttendees)) AAttendees n Hn
  | reach (ListRoute Attendances) AList n Hn | reach (ListRoute Attendances) ACreate n Hn
  | reach (DetailRoute Attendances) ADestroy n Hn
  | reach (ExtraRoute Attendances (mkExtra "my_events" false [GET] AMyEvents)) AMyEvents n Hn ].
Qed.

(** ** Witnesses *)

Lemma resolve_reverse_witness :
  resolve (reverse register_route (show_nat 42)) =
    Some (register_route, route_pk register_route (show_nat 42), None).
Proof.
  apply resolve_reverse. apply (bool_decide_unpack _). vm_compute. reflexivity.
Defined.

Lemma reverse_resolve_witness :
  resolve "events/7/register/" = Some (register_route, Some "7", None) ∧
  reverse register_route (default "" (Some "7")) = "events/7/register/".
Proof.
  split; [reflexivity|].
  apply (reverse_resolve "events/7/register/" register_route (Some "7")). reflexivity.
Defined.

Lemma dispatch_event_endpoints_witness :
  dispatch (mkRequest (Some 2) POST [] 50) ("events/" +:+ show_nat 0 +:+ "/register/")
    sample_payload (DB.mk ∅ ∅ ∅ ∅ 0 0 0) =
  EventViewSet.register (mkRequest (Some 2) POST [] 50) (DB.mk ∅ ∅ ∅ ∅ 0 0 0) (show_nat 0).
Proof.
  destruct (dispatch_event_endpoints (Some 2) [] 50 0 sample_payload (DB.mk ∅ ∅ ∅ ∅ 0 0 0)
    eq_refl) as (_ & _ & _ & _ & _ & _ & H & _).
  exact H.
Defined.

Lemma dispatch_register_get_witness :
  dispatch (mkRequest None GET [] 50) (reverse register_route (show_nat 3))
    sample_payload (DB.mk ∅ ∅ ∅ ∅ 0 0 0) =
  ((if is_authenticated (mkRequest None GET [] 50) then Err (MethodNotAllowed GET)
    else Err NotAuthenticated), DB.mk ∅ ∅ ∅ ∅ 0 0 0).
Proof. apply dispatch_register_get; reflexivity. Defined.

Lemma dispatch_safe_read_only_witness :
  (dispatch (mkRequest (Some 2) HEAD [] 50) "attendances/my_events/" sample_payload
     (DB.mk ∅ ∅ ∅ ∅ 0 0 0)).2 = DB.mk ∅ ∅ ∅ ∅ 0 0 0.
Proof.
  apply dispatch_safe_read_only. apply (bool_decide_unpack _). vm_compute. reflexivity.
Defined.

End Router.
