(* ===== verification/Integrity.v ===== *)
(** * Integrity: every request keeps the database well formed

    One lemma per handler of Views.v that writes ([create], [update],
    [destroy] of each viewset, and [register]): from a database that
    satisfies [DB.wf] (foreign keys, [unique_together], key sequences)
    the handler leaves one that satisfies it, on every branch.  The
    read-only handlers return the database they were given.  Section
    [api_invariant] lifts any property that every writing handler keeps
    to a request through the router of Routing.v ([dispatch_preserves])
    and to any sequence of requests ([serve_preserves]); [serve_wf] is
    its instance for [DB.wf]. *)

From S2P Require Import Prelude PyStr Models Http Permissions Serializers Views Registration Routing.

Import Router.

(** ** Each handler *)

Section handlers.
Context (r : Request) (pk : string) (partial : bool).

Lemma event_create_wf db d : DB.wf db → DB.wf (EventViewSet.create r db d).2.
Proof.
  intros Hwf. unfold EventViewSet.create.
  destruct (_ ≫= _) as [user|]; [|done].
  destruct (DB.insert_event _ db) as [[k db']|] eqn:Hins; [|done].
  by eapply DB.insert_event_wf.
Qed.

Lemma event_update_wf db d : DB.wf db → DB.wf (EventViewSet.update r db pk partial d).2.
Proof.
  intros Hwf. unfold EventViewSet.update.
  destruct (_ ≫= _) as [[epk e]|] eqn:Hchk; [|done].
  simpl_res. destruct (DB.update_event _ _ db) as [db'|] eqn:Hup; [|done].
  eapply DB.update_event_wf; [done| |done]. eexists. by eapply get_object_event.
Qed.

Lemma event_destroy_wf db : DB.wf db → DB.wf (EventViewSet.destroy r db pk).2.
Proof.
  intros Hwf. unfold EventViewSet.destroy.
  destruct (_ ≫= _) as [[epk e]|]; [by apply DB.delete_event_wf|done].
Qed.

Lemma attendance_queryset_subseteq db u : AttendanceViewSet.get_queryset db u ⊆ DB.attendances db.
Proof. unfold AttendanceViewSet.get_queryset. case_match; [done|apply map_filter_subseteq]. Qed.

Lemma attendance_create_wf db d : DB.wf db → DB.wf (AttendanceViewSet.create r db d).2.
Proof.
  intros Hwf. unfold AttendanceViewSet.create.
  destruct (_ ≫= _) as [v|]; [|done].
  destruct (DB.insert_attendance _ db) as [[k db']|] eqn:Hins; [|done].
  by eapply DB.insert_attendance_wf.
Qed.

Lemma attendance_update_wf db d :
  DB.wf db → DB.wf (AttendanceViewSet.update r db pk partial d).2.
Proof.
  intros Hwf. unfold AttendanceViewSet.update.
  destruct (_ ≫= _) as [[[apk a] v]|] eqn:Hchk; [|done].
  simpl_res. destruct (DB.update_attendance _ _ db) as [db'|] eqn:Hup; [|done].
  eapply DB.update_attendance_wf; [done| |done]. eexists.
  eapply lookup_weaken; [by eapply get_object_lookup|apply attendance_queryset_subseteq].
Qed.

Lemma attendance_destroy_wf db : DB.wf db → DB.wf (AttendanceViewSet.destroy r db pk).2.
Proof.
  intros Hwf. unfold AttendanceViewSet.destroy.
  destruct (_ ≫= _) as [[apk a]|]; [by apply DB.delete_attendance_wf|done].
Qed.

Lemma category_create_wf db d : DB.wf db → DB.wf (CategoryViewSet.create r db d).2.
Proof.
  intros Hwf. unfold CategoryViewSet.create.
  destruct (_ ≫= _); [|done].
  pose proof (DB.insert_category_wf db (CategoryInput.apply_to d CategoryInput.defaults) Hwf).
  by destruct (DB.insert_category _ db).
Qed.

Lemma category_update_wf db d :
  DB.wf db → DB.wf (CategoryViewSet.update r db pk partial d).2.
Proof.
  intros Hwf. unfold CategoryViewSet.update.
  destruct (_ ≫= _) as [[cpk c]|] eqn:Hchk; [|done].
  simpl_res. apply DB.update_category_wf; [done|]. eexists.
  eapply lookup_weaken; [by eapply get_object_lookup|apply search_filter_subseteq].
Qed.

Lemma category_destroy_wf db : DB.wf db → DB.wf (CategoryViewSet.destroy r db pk).2.
Proof.
  intros Hwf. unfold CategoryViewSet.destroy.
  destruct (_ ≫= _) as [[cpk c]|]; [by apply DB.delete_category_wf|done].
Qed.

End handlers.

(** ** Any invariant kept by every handler that writes *)

Section api_invariant.
Variable P : DB.t → Prop.
Hypothesis event_create_P : ∀ r db d, P db → P (EventViewSet.create r db d).2.
Hypothesis event_update_P : ∀ r db pk partial d, P db → P (EventViewSet.update r db pk partial d).2.
Hypothesis event_destroy_P : ∀ r db pk, P db → P (EventViewSet.destroy r db pk).2.
Hypothesis register_P : ∀ r db pk, P db → P (EventViewSet.register r db pk).2.
Hypothesis attendance_create_P : ∀ r db d, P db → P (AttendanceViewSet.create r db d).2.
Hypothesis attendance_update_P :
  ∀ r db pk partial d, P db → P (AttendanceViewSet.update r db pk partial d).2.
Hypothesis attendance_destroy_P : ∀ r db pk, P db → P (AttendanceViewSet.destroy r db pk).2.
Hypothesis category_create_P : ∀ r db d, P db → P (CategoryViewSet.create r db d).2.
Hypothesis category_update_P :
  ∀ r db pk partial d, P db → P (CategoryViewSet.update r db pk partial d).2.
Hypothesis category_destroy_P : ∀ r db pk, P db → P (CategoryViewSet.destroy r db pk).2.

(** Whatever route and action, the handler [run] selects keeps [P]. *)
Lemma run_preserves rt a r pk body db : P db → P (run rt a r pk body db).2.
Proof. intros HP. destruct rt as [|[]|[]|[] x], a; simpl; auto. Qed.

(** One request, whatever its path, method, caller and body. *)
Lemma dispatch_preserves r path body db : P db → P (dispatch r path body db).2.
Proof.
  intros HP. unfold dispatch.
  destruct (resolve path) as [[[rt pk] sfx]|]; [|done].
  destruct (negotiate sfx r); [|done]. simpl.
  destruct (action_for rt (req_method r)); [by apply run_preserves|].
  destruct (route_check rt r); [case_decide|]; done.
Qed.

(** Any sequence of requests. *)
Lemma serve_preserves reqs db : P db → P (serve db reqs).2.
Proof.
  revert db. induction reqs as [|[[r path] body] rs IH]; intros db HP; simpl; [done|].
  pose proof (dispatch_preserves r path body db HP) as HP1.
  destruct (dispatch r path body db) as [o db1]. simpl in HP1.
  specialize (IH db1 HP1). by destruct (serve db1 rs).
Qed.

End api_invariant.

(** ** Integrity *)

(** C9 Any sequence of requests the router serves, whatever their
    paths, methods, callers and bodies, and whether they succeed or
    fail, leaves a well-formed database well formed: no foreign key,
    [unique_together] pair or key sequence is ever broken. *)
Theorem serve_wf reqs db : DB.wf db → DB.wf (serve db reqs).2.
Proof.
  apply serve_preserves; intros; auto using event_create_wf, event_update_wf,
    event_destroy_wf, register_keeps_wf, attendance_create_wf, attendance_update_wf,
    attendance_destroy_wf, category_create_wf, category_update_wf, category_destroy_wf.
Qed.

Lemma serve_wf_witness :
  DB.wf (serve (sample_db (Some 2) ∅)
           [(sample_request 2, "events/0/register/", sample_payload);
            (sample_request 2, "events/0/", sample_payload);
            (mkRequest (Some 1) DELETE [] 60, "events/0/", sample_payload)]).2.
Proof. apply serve_wf. apply DB.wfb_sound. vm_compute. reflexivity. Defined.
