(* ===== verification/Constraints.v ===== *)
(** * Constraints: validation is complete for the database constraints

    The database rejects a write that breaks a foreign key or
    [unique_together] with an [IntegrityError], which no view catches:
    an HTTP 500.  The views try to prevent that with checks of their
    own: the serializers' [PrimaryKeyRelatedField]s and
    [UniqueTogetherValidator], and [register]'s duplicate check.  This
    file shows that, one request at a time, these checks are enough:
    - every write a handler attempts after its checks passed satisfies
      the constraints ([attendance_validation_refines] for the
      [UniqueTogetherValidator] and the keys of the attendance create
      and update; [apply_to_fk] for events; [register_server_ok] for
      [register]'s duplicate check);
    - on a well-formed database, for callers that are users of the
      [User] table, the only 500 the API answers is the [ValueError] of a
      non-integer [?category=] (Endpoints.v); no [IntegrityError] and no
      failed serialization ([serve_server_errors]).
    Concurrency.v shows that the first point fails under interleaving:
    two registrations whose checks both run before either insert end in
    an [IntegrityError]. *)

From S2P Require Import Prelude PyStr Models Http Permissions Serializers Ordering Views Registration Routing Integrity.
From Stdlib Require Import Ascii String.

Import Router.

(** The outcome is not an HTTP 500, but for the [ValueError] of
    [int(category)] in [EventViewSet.get_queryset]. *)
Definition server_ok {A} (o : Result APIError A) : Prop :=
  match o with Err (ServerError s) => s = "ValueError"%string | _ => True end.

(** The authenticated caller, if any, is a row of the [User] table, as
    Django's authentication guarantees. *)
Definition caller_ok (db : DB.t) (r : Request) : Prop :=
  ∀ u, req_user r = Some u → is_Some (DB.users db !! u).

Create HintDb server.

(** ** The steps that fail with a client error *)

Lemma server_ok_bind {A B} (m : Result APIError A) (f : A → Result APIError B) :
  server_ok m → (∀ x, m = Ok x → server_ok (f x)) → server_ok (m ≫= f).
Proof. destruct m; simpl; auto. Qed.

Lemma server_ok_Ok {A} (a : A) : server_ok (Ok a : Result APIError A).
Proof. done. Qed.

Lemma server_ok_of_option {A} (o : option A) : is_Some o → server_ok (of_option (ServerError "DoesNotExist") o).
Proof. by intros [a ->]. Qed.

Lemma check_permissions_server_ok {P} `{Permission P} (p : P) r : server_ok (check_permissions p r).
Proof. unfold check_permissions. by repeat case_match. Qed.

Lemma request_user_server_ok r : server_ok (request_user r).
Proof. unfold request_user. by case_match. Qed.

Lemma guard_or_server_ok l b : server_ok (guard_or (FieldErrors l) b).
Proof. by destruct b. Qed.

Lemma get_object_server_ok {A} (qs : gmap nat A) pk : server_ok (Views.get_object qs pk).
Proof. unfold Views.get_object. by repeat case_match. Qed.

Lemma get_queryset_server_ok r db : server_ok (EventViewSet.get_queryset r db).
Proof.
  unfold EventViewSet.get_queryset. apply server_ok_bind; [|done]. by repeat case_match.
Qed.

Lemma event_get_object_server_ok r db pk : server_ok (EventViewSet.get_object r db pk).
Proof.
  apply server_ok_bind; [apply get_queryset_server_ok|intros; apply get_object_server_ok].
Qed.

Lemma validate_server_ok db inst partial d :
  server_ok (AttendanceSerializer.validate db inst partial d).
Proof.
  unfold AttendanceSerializer.validate. apply server_ok_bind; [apply guard_or_server_ok|].
  intros _ _. apply server_ok_bind; [unfold guard_or; by case_match|done].
Qed.

#[export] Hint Resolve server_ok_Ok check_permissions_server_ok request_user_server_ok
  guard_or_server_ok get_object_server_ok get_queryset_server_ok event_get_object_server_ok
  validate_server_ok : server.

(** [server_bind]: split a [≫=] into its steps, closing the steps that
    only fail with a client error. *)
Ltac server_bind :=
  repeat first [solve [auto with server]
               |apply server_ok_bind; [solve [auto with server]|intros ?x ?Hx]].

Lemma server_ok_Err {A} (m : Result APIError A) e (db : DB.t) :
  m = Err e → server_ok m → server_ok ((Err e : Result APIError Response), db).1.
Proof. by intros ->. Qed.

(** ** Serializing rows of a well-formed database *)

Lemma event_list_rows_lookup r qs kv :
  kv ∈ EventViewSet.list_rows r qs → qs !! kv.1 = Some kv.2.
Proof.
  unfold EventViewSet.list_rows. rewrite order_by_Permutation.
  destruct kv as [k e]. rewrite elem_of_map_to_list. intros Hk.
  eapply lookup_weaken; [done|apply search_filter_subseteq].
Qed.

Lemma event_serialize db pk e :
  DB.wf db → DB.events db !! pk = Some e →
  is_Some (EventSerializer.to_representation db pk e).
Proof. intros Hwf He. destruct (event_representation db pk e Hwf He) as (rep & -> & _). by eexists. Qed.

Lemma attendance_serialize db pk a :
  DB.wf db → DB.attendances db !! pk = Some a →
  is_Some (AttendanceSerializer.to_representation db pk a).
Proof.
  intros Hwf Ha. destruct (attendance_to_representation_wf db pk a Hwf Ha) as (rep & -> & _).
  by eexists.
Qed.

Lemma attendance_serialize_many db qs :
  DB.wf db → qs ⊆ DB.attendances db → is_Some (AttendanceSerializer.to_representation_many db qs).
Proof. intros Hwf Hsub. destruct (to_representation_many_wf db qs Hwf Hsub) as (reps & -> & _). by eexists. Qed.

(** ** The handlers that only read *)

Section readers.
Context (r : Request) (db : DB.t) (pk : string) (Hwf : DB.wf db).

Lemma event_list_server_ok : server_ok (EventViewSet.list r db).
Proof.
  unfold EventViewSet.list. server_bind. apply server_ok_bind; [|done].
  apply server_ok_of_option, mapM_is_Some_2, Forall_forall. intros [k e] Hk. simpl.
  apply event_serialize; [done|]. apply event_list_rows_lookup in Hk.
  eapply lookup_weaken; [done|]. by eapply get_queryset_subseteq.
Qed.

Lemma event_retrieve_server_ok : server_ok (EventViewSet.retrieve r db pk).
Proof.
  unfold EventViewSet.retrieve. server_bind. destruct x0 as [epk e].
  apply server_ok_bind; [|done]. apply server_ok_of_option, event_serialize; [done|].
  by eapply get_object_event.
Qed.

Lemma attendees_server_ok : server_ok (EventViewSet.attendees r db pk).
Proof.
  unfold EventViewSet.attendees. server_bind. apply server_ok_bind; [|done].
  apply server_ok_of_option, attendance_serialize_many; [done|apply map_filter_subseteq].
Qed.

Lemma attendance_list_server_ok : server_ok (AttendanceViewSet.list r db).
Proof.
  unfold AttendanceViewSet.list. server_bind. apply server_ok_bind; [|done].
  apply server_ok_of_option, attendance_serialize_many; [done|apply attendance_queryset_subseteq].
Qed.

Lemma attendance_retrieve_server_ok : server_ok (AttendanceViewSet.retrieve r db pk).
Proof.
  unfold AttendanceViewSet.retrieve. server_bind. destruct x1 as [apk a].
  apply server_ok_bind; [|done]. apply server_ok_of_option, attendance_serialize; [done|].
  eapply lookup_weaken; [by eapply get_object_lookup|apply attendance_queryset_subseteq].
Qed.

Lemma my_events_server_ok : server_ok (AttendanceViewSet.my_events r db).
Proof.
  unfold AttendanceViewSet.my_events. server_bind. apply server_ok_bind; [|done].
  apply server_ok_of_option, attendance_serialize_many; [done|apply map_filter_subseteq].
Qed.

Lemma category_list_server_ok : server_ok (CategoryViewSet.list r db).
Proof. unfold CategoryViewSet.list. by server_bind. Qed.

Lemma category_retrieve_server_ok : server_ok (CategoryViewSet.retrieve r db pk).
Proof. unfold CategoryViewSet.retrieve. by server_bind. Qed.

End readers.

(** ** The checks before each write *)

(** A [PrimaryKeyRelatedField] without error: the key names a row, or
    a partial update left it out. *)
Lemma pk_field_nil {A} fname (table : gmap nat A) partial v :
  AttendanceSerializer.pk_field fname table partial v = [] →
  (v = None ∧ partial = true) ∨ ∃ k, v = Some k ∧ is_Some (table !! k).
Proof.
  unfold AttendanceSerializer.pk_field. destruct v as [k|].
  - case_bool_decide; [|discriminate]. eauto.
  - destruct partial; [auto|discriminate].
Qed.

(** The row an event create or update saves has valid foreign keys when
    its organizer exists and the row it starts from has a valid
    category. *)
Lemma apply_to_fk db partial d o now e :
  EventInput.errors db partial d = [] → is_Some (DB.users db !! o) →
  (∀ c, Event.category e = Some c → is_Some (DB.categories db !! c)) →
  DB.event_fk_ok db (EventInput.apply_to d o now e) = true.
Proof.
  intros Herr Ho Hcat. unfold EventInput.errors in Herr.
  do 6 apply app_eq_nil in Herr as [_ Herr]. apply app_eq_nil in Herr as [Hc _].
  apply DB.event_fk_ok_iff. split; [done|]. simpl. intros c.
  unfold EventInput.category_field in Hc.
  destruct (EventInput.category d) as [[c'|]|]; simpl; [|discriminate|apply Hcat].
  intros [= ->]. destruct (pk_field_nil _ _ _ _ Hc) as [[? _]|(k & [= <-] & Hk)]; done.
Qed.

Lemma errors_organizer db partial d o :
  EventInput.errors db partial d = [] → EventInput.organizer_id d = Some o →
  is_Some (DB.users db !! o).
Proof.
  intros Herr Ho. unfold EventInput.errors in Herr.
  do 5 apply app_eq_nil in Herr as [_ Herr]. apply app_eq_nil in Herr as [Horg _].
  rewrite Ho in Horg. destruct (pk_field_nil _ _ _ _ Horg) as [[? _]|(k & [= <-] & Hk)]; done.
Qed.

Lemma request_user_Ok r u : request_user r = Ok u → req_user r = Some u.
Proof. unfold request_user. by case_match; intros; simplify_eq. Qed.

(** [err_branch Hm]: the handler stopped at a check; the error is the
    one of its scrutinee [Hm], a client error. *)
Ltac err_branch Hm :=
  eapply server_ok_Err; [exact Hm|]; server_bind; auto with server.

(** ** The handlers that write *)

Section writers.
Context (r : Request) (db : DB.t) (pk : string) (partial : bool)
  (Hwf : DB.wf db) (Hcaller : caller_ok db r).

Lemma event_create_server_ok d : server_ok (EventViewSet.create r db d).1.
Proof.
  unfold EventViewSet.create. destruct (_ ≫= _) as [user|err] eqn:Hm; [|err_branch Hm].
  simpl_res. apply request_user_Ok, Hcaller in H1.
  set (e := EventInput.apply_to d user (req_now r) (EventInput.defaults (req_now r))).
  assert (DB.event_fk_ok db e = true) as Hok.
  { apply apply_to_fk with false; [by case_bool_decide|done|done]. }
  unfold DB.insert_event. rewrite Hok. simpl.
  apply server_ok_bind; [|done]. apply server_ok_of_option, event_serialize; [|apply lookup_insert_eq].
  apply (DB.insert_event_wf db e (DB.seq_event db)); [done|]. unfold DB.insert_event. by rewrite Hok.
Qed.

Lemma event_update_server_ok d : server_ok (EventViewSet.update r db pk partial d).1.
Proof.
  unfold EventViewSet.update. destruct (_ ≫= _) as [[epk e]|err] eqn:Hm; [|err_branch Hm].
  simpl_res. pose proof (get_object_event _ _ _ _ _ H0) as He.
  assert (EventInput.errors db partial d = []) as Herr by by case_bool_decide.
  pose proof (DB.wf_event_fk db Hwf epk e He) as Hfk.
  apply DB.event_fk_ok_iff in Hfk as [Horg Hcat].
  assert (DB.event_fk_ok db (EventInput.apply_to d (default (Event.organizer e)
            (EventInput.organizer_id d)) (req_now r) e) = true) as Hok.
  { apply apply_to_fk with partial; [done| |done].
    destruct (EventInput.organizer_id d) as [o|] eqn:Ho; [by eapply errors_organizer|done]. }
  unfold DB.update_event. rewrite Hok. simpl.
  apply server_ok_bind; [|done]. apply server_ok_of_option, event_serialize; [|apply lookup_insert_eq].
  eapply DB.update_event_wf; [done|by eexists|]. unfold DB.update_event. by rewrite Hok.
Qed.

Lemma event_destroy_server_ok : server_ok (EventViewSet.destroy r db pk).1.
Proof.
  unfold EventViewSet.destroy. destruct (_ ≫= _) as [[epk e]|err] eqn:Hm; [done|err_branch Hm].
Qed.

End writers.

(** ** The attendance serializer against [unique_together] *)

Lemma pk_field_required {A} fname (table : gmap nat A) v :
  AttendanceSerializer.pk_field fname table false v = [] → ∃ k, v = Some k ∧ is_Some (table !! k).
Proof. intros H. by destruct (pk_field_nil _ _ _ _ H) as [[_ ?]|?]. Qed.

(** What [is_valid()] on a create guarantees: both keys name rows and
    no row has the pair yet. *)
Lemma validate_create_Ok db d v :
  AttendanceSerializer.validate db None false d = Ok v →
  is_Some (DB.events db !! AttendanceSerializer.v_event v) ∧
  is_Some (DB.users db !! AttendanceSerializer.v_user v) ∧
  qs_exists (DB.attendance_of db (AttendanceSerializer.v_event v) (AttendanceSerializer.v_user v)) = false.
Proof.
  unfold AttendanceSerializer.validate. cbv zeta. intros H. simpl_res.
  apply bool_decide_eq_true in Heqb0 as Herr.
  apply app_eq_nil in Herr as [He Herr]. apply app_eq_nil in Herr as [Hu _].
  destruct (pk_field_required _ _ _ He) as (e & He' & Hex).
  destruct (pk_field_required _ _ _ Hu) as (u & Hu' & Hux).
  rewrite He', Hu' in *. simpl. by split_and!.
Qed.

(** What [is_valid()] on an update of row [apk] guarantees: the keys,
    given or kept, name rows, and no other row has the pair. *)
Lemma validate_update_Ok db apk a partial d v :
  DB.wf db → DB.attendances db !! apk = Some a →
  AttendanceSerializer.validate db (Some (apk, a)) partial d = Ok v →
  is_Some (DB.events db !! AttendanceSerializer.v_event v) ∧
  is_Some (DB.users db !! AttendanceSerializer.v_user v) ∧
  qs_exists (filter (λ kv : nat * Attendance.t, kv.1 ≠ apk)
    (DB.attendance_of db (AttendanceSerializer.v_event v) (AttendanceSerializer.v_user v))) = false.
Proof.
  intros Hwf Ha. pose proof (DB.wf_attendance_fk db Hwf apk a Ha) as Hfk.
  apply DB.attendance_fk_ok_iff in Hfk as [Hev Hus].
  unfold AttendanceSerializer.validate. cbv zeta. intros H. simpl_res.
  apply bool_decide_eq_true in Heqb0 as Herr.
  apply app_eq_nil in Herr as [He Herr]. apply app_eq_nil in Herr as [Hu _]. simpl.
  split_and!; [| |done].
  - destruct (pk_field_nil _ _ _ _ He) as [[-> _]|(k & -> & ?)]; done.
  - destruct (pk_field_nil _ _ _ _ Hu) as [[-> _]|(k & -> & ?)]; done.
Qed.

Lemma attendance_create_insert db d v s t :
  AttendanceSerializer.validate db None false d = Ok v →
  ∃ apk db', DB.insert_attendance
    (Attendance.mk (AttendanceSerializer.v_event v) (AttendanceSerializer.v_user v) s t) db = Ok (apk, db').
Proof.
  intros H. destruct (validate_create_Ok db d v H) as (He & Hu & Hq).
  eexists _, _. apply DB.insert_attendance_Ok. split_and!; [|done|done|done].
  by apply DB.attendance_fk_ok_iff.
Qed.

Lemma attendance_update_write db apk a partial d v s t :
  DB.wf db → DB.attendances db !! apk = Some a →
  AttendanceSerializer.validate db (Some (apk, a)) partial d = Ok v →
  DB.update_attendance apk
    (Attendance.mk (AttendanceSerializer.v_event v) (AttendanceSerializer.v_user v) s t) db =
  Ok (DB.set_attendances (<[apk := Attendance.mk (AttendanceSerializer.v_event v)
                                     (AttendanceSerializer.v_user v) s t]> (DB.attendances db)) db).
Proof.
  intros Hwf Ha Hv. destruct (validate_update_Ok db apk a partial d v Hwf Ha Hv) as (He & Hu & Hq).
  unfold DB.update_attendance. simpl.
  assert (DB.attendance_fk_ok db (Attendance.mk (AttendanceSerializer.v_event v)
            (AttendanceSerializer.v_user v) s t) = true) as -> by by apply DB.attendance_fk_ok_iff.
  simpl. by rewrite Hq.
Qed.

Section attendance_writers.
Context (r : Request) (db : DB.t) (pk : string) (partial : bool)
  (Hwf : DB.wf db) (Hcaller : caller_ok db r).

Lemma attendance_create_server_ok d : server_ok (AttendanceViewSet.create r db d).1.
Proof.
  unfold AttendanceViewSet.create. destruct (_ ≫= _) as [v|err] eqn:Hm; [|err_branch Hm].
  simpl_res. set (a := Attendance.mk _ _ _ _).
  destruct (attendance_create_insert db d v (default Attendance.registered (AttendanceSerializer.v_status v))
              (req_now r) H0) as (apk & db' & Hins).
  fold a in Hins. rewrite Hins. simpl.
  apply server_ok_bind; [|done]. apply server_ok_of_option, attendance_serialize.
  - by eapply DB.insert_attendance_wf.
  - apply DB.insert_attendance_Ok in Hins as (_ & _ & -> & ->). apply lookup_insert_eq.
Qed.

Lemma attendance_update_server_ok d : server_ok (AttendanceViewSet.update r db pk partial d).1.
Proof.
  unfold AttendanceViewSet.update. destruct (_ ≫= _) as [[[apk a] v]|err] eqn:Hm; [|err_branch Hm].
  simpl_res. rename H2 into Hv.
  assert (DB.attendances db !! apk = Some a) as Ha.
  { eapply lookup_weaken; [by eapply get_object_lookup|apply attendance_queryset_subseteq]. }
  rewrite (attendance_update_write db apk a partial d v _ _ Hwf Ha Hv). simpl.
  apply server_ok_bind; [|done]. apply server_ok_of_option, attendance_serialize.
  - eapply DB.update_attendance_wf; [done|by eexists|].
    by apply (attendance_update_write db apk a partial d v).
  - apply lookup_insert_eq.
Qed.

Lemma attendance_destroy_server_ok : server_ok (AttendanceViewSet.destroy r db pk).1.
Proof.
  unfold AttendanceViewSet.destroy. destruct (_ ≫= _) as [[apk a]|err] eqn:Hm; [done|err_branch Hm].
Qed.

(** [register]: its duplicate check is the [unique_together] of the
    insert, and the caller and the event are rows. *)
Lemma register_server_ok : server_ok (EventViewSet.register r db pk).1.
Proof.
  unfold EventViewSet.register. destruct (EventViewSet.register_check r db pk) as [plan|err] eqn:Hm.
  - destruct plan as [| |a]; [done|done|]. simpl.
    destruct (register_check_create r db pk a Hm) as (u & epk & ev & Hu & Hg & -> & Hnot & _).
    assert (∃ apk db', DB.insert_attendance (Attendance.mk epk u Attendance.registered (req_now r)) db
              = Ok (apk, db')) as (apk & db' & Hins).
    { eexists _, _. apply DB.insert_attendance_Ok. split_and!; [|by apply not_registered_qs|done|done].
      apply DB.attendance_fk_ok_iff. split; [eexists; by eapply get_object_event|by apply Hcaller]. }
    rewrite Hins. apply server_ok_bind; [|done]. apply server_ok_of_option, attendance_serialize.
    + by eapply DB.insert_attendance_wf.
    + apply DB.insert_attendance_Ok in Hins as (_ & _ & -> & ->). apply lookup_insert_eq.
  - eapply server_ok_Err; [exact Hm|]. unfold EventViewSet.register_check. server_bind.
    destruct x0 as [epk e]. server_bind. by repeat case_match.
Qed.

Lemma category_create_server_ok d : server_ok (CategoryViewSet.create r db d).1.
Proof.
  unfold CategoryViewSet.create. destruct (_ ≫= _) as [u|err] eqn:Hm; [|err_branch Hm].
  by destruct (DB.insert_category _ db).
Qed.

Lemma category_update_server_ok d : server_ok (CategoryViewSet.update r db pk partial d).1.
Proof.
  unfold CategoryViewSet.update. destruct (_ ≫= _) as [[cpk c]|err] eqn:Hm; [done|err_branch Hm].
Qed.

Lemma category_destroy_server_ok : server_ok (CategoryViewSet.destroy r db pk).1.
Proof.
  unfold CategoryViewSet.destroy. destruct (_ ≫= _) as [[cpk c]|err] eqn:Hm; [done|err_branch Hm].
Qed.

End attendance_writers.

(** ** No request changes the [User] table *)

Lemma insert_event_users e db pk db' :
  DB.insert_event e db = Ok (pk, db') → DB.users db' = DB.users db.
Proof. unfold DB.insert_event. intros H. by simpl_res. Qed.

Lemma update_event_users epk e db db' :
  DB.update_event epk e db = Ok db' → DB.users db' = DB.users db.
Proof. unfold DB.update_event. intros H. by simpl_res. Qed.

Lemma insert_attendance_users a db pk db' :
  DB.insert_attendance a db = Ok (pk, db') → DB.users db' = DB.users db.
Proof. by intros (_ & _ & _ & ->)%DB.insert_attendance_Ok. Qed.

Lemma update_attendance_users apk a db db' :
  DB.update_attendance apk a db = Ok db' → DB.users db' = DB.users db.
Proof. unfold DB.update_attendance. intros H. by simpl_res. Qed.

Section users.
Context (r : Request) (db : DB.t) (pk : string) (partial : bool).

Lemma event_create_users d : DB.users (EventViewSet.create r db d).2 = DB.users db.
Proof.
  unfold EventViewSet.create. destruct (_ ≫= _); [|done].
  destruct (DB.insert_event _ db) as [[k db']|] eqn:Hins; [by eapply insert_event_users|done].
Qed.

Lemma event_update_users d : DB.users (EventViewSet.update r db pk partial d).2 = DB.users db.
Proof.
  unfold EventViewSet.update. destruct (_ ≫= _) as [[epk e]|]; [|done].
  destruct (DB.update_event _ _ db) eqn:Hup; [by eapply update_event_users|done].
Qed.

Lemma event_destroy_users : DB.users (EventViewSet.destroy r db pk).2 = DB.users db.
Proof. unfold EventViewSet.destroy. by destruct (_ ≫= _) as [[]|]. Qed.

Lemma register_users : DB.users (EventViewSet.register r db pk).2 = DB.users db.
Proof.
  unfold EventViewSet.register. destruct (EventViewSet.register_check r db pk) as [[| |a]|]; try done.
  simpl. destruct (DB.insert_attendance a db) as [[apk db']|] eqn:Hins; [by eapply insert_attendance_users|done].
Qed.

Lemma attendance_create_users d : DB.users (AttendanceViewSet.create r db d).2 = DB.users db.
Proof.
  unfold AttendanceViewSet.create. destruct (_ ≫= _); [|done].
  destruct (DB.insert_attendance _ db) as [[apk db']|] eqn:Hins; [by eapply insert_attendance_users|done].
Qed.

Lemma attendance_update_users d :
  DB.users (AttendanceViewSet.update r db pk partial d).2 = DB.users db.
Proof.
  unfold AttendanceViewSet.update. destruct (_ ≫= _) as [[[apk a] v]|]; [|done].
  destruct (DB.update_attendance _ _ db) eqn:Hup; [by eapply update_attendance_users|done].
Qed.

Lemma attendance_destroy_users : DB.users (AttendanceViewSet.destroy r db pk).2 = DB.users db.
Proof. unfold AttendanceViewSet.destroy. by destruct (_ ≫= _) as [[]|]. Qed.

Lemma category_create_users d : DB.users (CategoryViewSet.create r db d).2 = DB.users db.
Proof. unfold CategoryViewSet.create. by destruct (_ ≫= _). Qed.

Lemma category_update_users d :
  DB.users (CategoryViewSet.update r db pk partial d).2 = DB.users db.
Proof. unfold CategoryViewSet.update. by destruct (_ ≫= _) as [[]|]. Qed.

Lemma category_destroy_users : DB.users (CategoryViewSet.destroy r db pk).2 = DB.users db.
Proof. unfold CategoryViewSet.destroy. by destruct (_ ≫= _) as [[]|]. Qed.

End users.

(** What one request keeps: a well-formed database with the same users. *)
Lemma dispatch_wf_users U r path body db :
  DB.wf db → DB.users db = U →
  DB.wf (dispatch r path body db).2 ∧ DB.users (dispatch r path body db).2 = U.
Proof.
  intros Hwf Hu. apply (dispatch_preserves (λ db, DB.wf db ∧ DB.users db = U)); [..|done];
    intros; destruct_and!; split;
    eauto using event_create_wf, event_update_wf, event_destroy_wf, register_keeps_wf,
      attendance_create_wf, attendance_update_wf, attendance_destroy_wf, category_create_wf,
      category_update_wf, category_destroy_wf;
    by rewrite ?event_create_users, ?event_update_users, ?event_destroy_users, ?register_users,
      ?attendance_create_users, ?attendance_update_users, ?attendance_destroy_users,
      ?category_create_users, ?category_update_users, ?category_destroy_users.
Qed.

(** ** Through the router *)

Lemma caller_ok_users db db' r : DB.users db' = DB.users db → caller_ok db r → caller_ok db' r.
Proof. intros Hu Hc u Hr. rewrite Hu. by apply Hc. Qed.

Lemma run_server_ok rt a r pk body db :
  DB.wf db → caller_ok db r → server_ok (run rt a r pk body db).1.
Proof.
  intros Hwf Hc. destruct rt as [|[]|[]|[] x], a; simpl;
    eauto using event_list_server_ok, event_retrieve_server_ok, attendees_server_ok,
      attendance_list_server_ok, attendance_retrieve_server_ok, my_events_server_ok,
      category_list_server_ok, category_retrieve_server_ok, event_create_server_ok,
      event_update_server_ok, event_destroy_server_ok, attendance_create_server_ok,
      attendance_update_server_ok, attendance_destroy_server_ok, register_server_ok,
      category_create_server_ok, category_update_server_ok, category_destroy_server_ok;
    server_bind.
Qed.

Lemma route_check_server_ok rt r : server_ok (route_check rt r).
Proof. destruct rt as [|[]|[]|[] x]; simpl; auto with server. Qed.

Lemma dispatch_server_ok r path body db :
  DB.wf db → caller_ok db r → server_ok (dispatch r path body db).1.
Proof.
  intros Hwf Hc. unfold dispatch.
  destruct (resolve path) as [[[rt pk] sfx]|]; [|done].
  destruct (negotiate sfx r); [|done]. simpl.
  destruct (action_for rt (req_method r)); [by apply run_server_ok|].
  destruct (route_check rt r) eqn:Hrc; [by case_decide|].
  simpl. pose proof (route_check_server_ok rt r) as H. by rewrite Hrc in H.
Qed.

(** ** The constraints, and the responses of a sequence of requests *)

(** C8 On a well-formed database, the attendance serializer's
    checks refine the database's constraints: when [is_valid()] accepts
    a create, the [INSERT] of the validated [(event, user)] satisfies the
    foreign keys and [unique_together]; when it accepts an update of row
    [apk], so does the [UPDATE] of that row, whatever the status and
    time saved with them. *)
Theorem attendance_validation_refines db :
  DB.wf db →
  (∀ d v s t, AttendanceSerializer.validate db None false d = Ok v →
     ∃ apk db', DB.insert_attendance
       (Attendance.mk (AttendanceSerializer.v_event v) (AttendanceSerializer.v_user v) s t) db =
       Ok (apk, db')) ∧
  (∀ apk a partial d v s t, DB.attendances db !! apk = Some a →
     AttendanceSerializer.validate db (Some (apk, a)) partial d = Ok v →
     ∃ db', DB.update_attendance apk
       (Attendance.mk (AttendanceSerializer.v_event v) (AttendanceSerializer.v_user v) s t) db =
       Ok db').
Proof.
  intros Hwf. split.
  - intros d v s t. apply attendance_create_insert.
  - intros apk a partial d v s t Ha Hv. eexists. by eapply attendance_update_write.
Qed.

(** C10 Served one at a time, requests never make the database
    raise an [IntegrityError] and never fail to serialize a row: from a
    well-formed database, for callers that are users, every response of
    any sequence of requests, whatever their paths, methods and bodies,
    is either not a 500 or the [ValueError] of a non-integer
    [?category=]. *)
Theorem serve_server_errors reqs db :
  DB.wf db → Forall (λ q : Request * string * Payload, caller_ok db q.1.1) reqs →
  Forall server_ok (serve db reqs).1.
Proof.
  revert db. induction reqs as [|[[r path] body] rs IH]; intros db Hwf Hc; simpl; [constructor|].
  apply Forall_cons in Hc as [Hr Hrs].
  pose proof (dispatch_server_ok r path body db Hwf Hr) as Ho.
  destruct (dispatch_wf_users (DB.users db) r path body db Hwf eq_refl) as [Hwf1 Hu1].
  destruct (dispatch r path body db) as [o db1]. simpl in *.
  specialize (IH db1 Hwf1). destruct (serve db1 rs) as [os db2]. simpl in *.
  constructor; [done|]. apply IH. eapply Forall_impl; [exact Hrs|].
  intros q. by apply caller_ok_users.
Qed.

(** ** Witnesses *)

Lemma attendance_validation_refines_witness :
  (∀ d v s t, AttendanceSerializer.validate (sample_db (Some 2) ∅) None false d = Ok v →
     ∃ apk db', DB.insert_attendance
       (Attendance.mk (AttendanceSerializer.v_event v) (AttendanceSerializer.v_user v) s t)
       (sample_db (Some 2) ∅) = Ok (apk, db')) ∧
  (∀ apk a partial d v s t, DB.attendances (sample_db (Some 2) ∅) !! apk = Some a →
     AttendanceSerializer.validate (sample_db (Some 2) ∅) (Some (apk, a)) partial d = Ok v →
     ∃ db', DB.update_attendance apk
       (Attendance.mk (AttendanceSerializer.v_event v) (AttendanceSerializer.v_user v) s t)
       (sample_db (Some 2) ∅) = Ok db').
Proof. apply attendance_validation_refines. apply DB.wfb_sound. vm_compute. reflexivity. Defined.

Lemma serve_server_errors_witness :
  Forall server_ok (serve (sample_db (Some 2) ∅)
    [(sample_request 2, "events/0/register/", sample_payload);
     (sample_request 2, "events/0/register/", sample_payload);
     (sample_request 3, "attendances/", sample_payload);
     (mkRequest (Some 1) DELETE [] 60, "events/0/", sample_payload)]).1.
Proof.
  apply serve_server_errors; [apply DB.wfb_sound; vm_compute; reflexivity|].
  repeat constructor; intros u [= <-]; by eexists.
Defined.
