(* ===== verification/Bounds.v ===== *)
(** * Bounds: every row the API writes fits the columns of models.py

    Two column invariants that the database does not enforce and the
    serializers' field checks do:
    - [DB.bounded] (Models.v): [Category.name] and [Event.title],
      [Event.location] within their [max_length], [Event.max_attendees]
      within the range of a [PositiveIntegerField] (SQLite ignores the
      length of a [VARCHAR]);
    - [db_trimmed]: the text columns a serializer writes are stripped of
      surrounding whitespace ([trim_whitespace]) and, for the columns
      without [blank=True], not empty.
    Both are [columns_ok Pc Pe]: a predicate on every category row and
    one on every event row.  Section [columns] shows, for any such pair
    closed under the serializers' writes, that every handler keeps
    [columns_ok] on every branch, and so, by [serve_preserves] of
    Integrity.v, does any sequence of requests. *)

From S2P Require Import Prelude PyStr Models Http Permissions Serializers Ordering Views Registration Routing Integrity.
From Stdlib Require Import Ascii String.

Import Router.

(** [DB.bounded] is decidable, so a concrete database is checked by
    evaluation. *)
#[global] Instance event_bounded_dec e : Decision (Event.bounded e).
Proof.
  unfold Event.bounded. apply and_dec; [apply _|apply and_dec; [apply _|]].
  destruct (Event.max_attendees e) as [m|];
    [destruct (decide (Z.of_nat m ≤ Event.max_attendees_max)%Z) as [Hm|Hm]|left; discriminate].
  - left. by intros ? [= <-].
  - right. intros H. by apply Hm, H.
Defined.

#[global] Instance category_bounded_dec c : Decision (Category.bounded c).
Proof. unfold Category.bounded. apply _. Defined.

#[global] Instance db_bounded_dec db : Decision (DB.bounded db).
Proof. unfold DB.bounded. apply _. Defined.

(** A predicate on every row of the two tables the serializers write. *)
Definition columns_ok (Pc : Category.t → Prop) (Pe : Event.t → Prop) (db : DB.t) : Prop :=
  map_Forall (λ _, Pc) (DB.categories db) ∧ map_Forall (λ _, Pe) (DB.events db).

(** A text value as a [CharField] with [trim_whitespace] leaves it, and
    not blank. *)
Definition text_ok (s : string) : Prop := EventInput.trimmed s = s ∧ s ≠ ""%string.

Definition event_trimmed (e : Event.t) : Prop :=
  text_ok (Event.title e) ∧ text_ok (Event.description e) ∧ text_ok (Event.location e).

(** [Category.description] has [blank=True, null=True]: only trimmed. *)
Definition category_trimmed (c : Category.t) : Prop :=
  text_ok (Category.name c) ∧
  from_option (λ s, EventInput.trimmed s = s) True (Category.description c).

Definition db_trimmed : DB.t → Prop := columns_ok category_trimmed event_trimmed.

#[global] Instance text_ok_dec s : Decision (text_ok s).
Proof. unfold text_ok. apply _. Defined.

#[global] Instance event_trimmed_dec e : Decision (event_trimmed e).
Proof. unfold event_trimmed. apply _. Defined.

#[global] Instance category_trimmed_dec c : Decision (category_trimmed c).
Proof. unfold category_trimmed. destruct (Category.description c); simpl; apply _. Defined.

#[global] Instance db_trimmed_dec db : Decision (db_trimmed db).
Proof. unfold db_trimmed, columns_ok. apply _. Defined.

(** ** The field checks *)

Lemma char_field_bounded fname n partial v s :
  EventInput.char_field fname (Some n) partial v = [] → v = Some s →
  String.length (EventInput.trimmed s) ≤ n.
Proof.
  intros H ->. unfold EventInput.char_field in H. cbv zeta in H.
  case_bool_decide; [discriminate|]. by case_bool_decide.
Qed.

(** A [CharField] that passed validation writes a value within its
    [max_length], or leaves the old one. *)
Lemma from_option_bounded fname n partial v old :
  EventInput.char_field fname (Some n) partial v = [] → String.length old ≤ n →
  String.length (from_option EventInput.trimmed old v) ≤ n.
Proof.
  intros H Hold. destruct v as [s|]; [|done]. by apply (char_field_bounded fname n partial (Some s)).
Qed.

Lemma max_attendees_field_bounded v old :
  EventInput.max_attendees_field v = [] →
  (∀ m, old = Some m → (Z.of_nat m ≤ Event.max_attendees_max)%Z) →
  ∀ m, default old (option_map (option_map Z.to_nat) v) = Some m →
    (Z.of_nat m ≤ Event.max_attendees_max)%Z.
Proof.
  intros H Hold m. destruct v as [[z|]|]; simpl; [|discriminate|apply Hold].
  intros [= <-]. unfold EventInput.max_attendees_field in H.
  case_bool_decide; [discriminate|]. case_bool_decide; [discriminate|].
  unfold EventInput.positive_integer_max in *. lia.
Qed.

Lemma apply_to_bounded db partial d o now e :
  EventInput.errors db partial d = [] → Event.bounded e →
  Event.bounded (EventInput.apply_to d o now e).
Proof.
  intros Herr (Ht & Hl & Hm). unfold EventInput.errors in Herr.
  apply app_eq_nil in Herr as [Htitle Herr]. apply app_eq_nil in Herr as [_ Herr].
  apply app_eq_nil in Herr as [Hloc Herr]. do 5 apply app_eq_nil in Herr as [_ Herr].
  split_and!; simpl.
  - by eapply from_option_bounded.
  - by eapply from_option_bounded.
  - by apply max_attendees_field_bounded.
Qed.

Lemma defaults_bounded now : Event.bounded (EventInput.defaults now).
Proof. split_and!; simpl; [lia|lia|discriminate]. Qed.

Lemma category_apply_to_bounded partial d c :
  CategoryInput.errors partial d = [] → Category.bounded c →
  Category.bounded (CategoryInput.apply_to d c).
Proof. intros H Hc. unfold Category.bounded. simpl. by eapply from_option_bounded. Qed.

(** [trim_whitespace] is idempotent. *)
Lemma trimmed_idem s : EventInput.trimmed (EventInput.trimmed s) = EventInput.trimmed s.
Proof.
  unfold EventInput.trimmed. rewrite list_ascii_of_string_of_list_ascii. by rewrite py_strip_idem.
Qed.

Lemma char_field_text_ok fname m partial v old :
  EventInput.char_field fname m partial v = [] → (partial = true → text_ok old) →
  text_ok (from_option EventInput.trimmed old v).
Proof.
  unfold EventInput.char_field. destruct v as [s|]; simpl; [|by destruct partial; auto].
  intros H _. case_bool_decide as Hb; [discriminate|]. split; [apply trimmed_idem|done].
Qed.

Lemma apply_to_trimmed db partial d o now e :
  EventInput.errors db partial d = [] → (partial = true → event_trimmed e) →
  event_trimmed (EventInput.apply_to d o now e).
Proof.
  intros Herr He. unfold EventInput.errors in Herr.
  apply app_eq_nil in Herr as [Ht Herr]. apply app_eq_nil in Herr as [Hd Herr].
  apply app_eq_nil in Herr as [Hl _].
  split_and!; simpl; eapply char_field_text_ok; eauto; intros Hp; apply He, Hp.
Qed.

Lemma category_apply_to_trimmed partial d c :
  CategoryInput.errors partial d = [] → (partial = true → text_ok (Category.name c)) →
  from_option (λ s, EventInput.trimmed s = s) True (Category.description c) →
  category_trimmed (CategoryInput.apply_to d c).
Proof.
  intros Herr Hn Hd. split; simpl; [by eapply char_field_text_ok|].
  destruct (CategoryInput.description d) as [[s|]|]; simpl; [apply trimmed_idem|done|done].
Qed.

(** ** The writes and the handlers, for any column invariant *)

Section columns.
Variables (Pc : Category.t → Prop) (Pe : Event.t → Prop).
Hypothesis Pe_create : ∀ db d o now,
  EventInput.errors db false d = [] → Pe (EventInput.apply_to d o now (EventInput.defaults now)).
Hypothesis Pe_update : ∀ db partial d o now e,
  EventInput.errors db partial d = [] → Pe e → Pe (EventInput.apply_to d o now e).
Hypothesis Pe_set_category : ∀ e, Pe e → Pe (Event.set_category None e).
Hypothesis Pc_create : ∀ d,
  CategoryInput.errors false d = [] → Pc (CategoryInput.apply_to d CategoryInput.defaults).
Hypothesis Pc_update : ∀ partial d c,
  CategoryInput.errors partial d = [] → Pc c → Pc (CategoryInput.apply_to d c).

Lemma columns_tables db db' :
  DB.events db' = DB.events db → DB.categories db' = DB.categories db →
  columns_ok Pc Pe db → columns_ok Pc Pe db'.
Proof. intros He Hc. unfold columns_ok. by rewrite He, Hc. Qed.

Lemma insert_event_columns db e pk db' :
  DB.insert_event e db = Ok (pk, db') → columns_ok Pc Pe db → Pe e → columns_ok Pc Pe db'.
Proof.
  unfold DB.insert_event. intros H [Hc He] Hb. simpl_res.
  split; simpl; [done|]. by apply map_Forall_insert_2.
Qed.

Lemma update_event_columns db epk e db' :
  DB.update_event epk e db = Ok db' → columns_ok Pc Pe db → Pe e → columns_ok Pc Pe db'.
Proof.
  unfold DB.update_event. intros H [Hc He] Hb. simpl_res.
  split; simpl; [done|]. by apply map_Forall_insert_2.
Qed.

Lemma insert_attendance_tables a db pk db' :
  DB.insert_attendance a db = Ok (pk, db') →
  DB.events db' = DB.events db ∧ DB.categories db' = DB.categories db.
Proof. by intros (_ & _ & _ & ->)%DB.insert_attendance_Ok. Qed.

Lemma update_attendance_tables pk a db db' :
  DB.update_attendance pk a db = Ok db' →
  DB.events db' = DB.events db ∧ DB.categories db' = DB.categories db.
Proof. unfold DB.update_attendance. intros H. by simpl_res. Qed.

Lemma delete_event_columns db pk : columns_ok Pc Pe db → columns_ok Pc Pe (DB.delete_event pk db).
Proof. intros [Hc He]. split; simpl; [done|]. by apply map_Forall_delete. Qed.

Lemma delete_category_columns db pk :
  columns_ok Pc Pe db → columns_ok Pc Pe (DB.delete_category pk db).
Proof.
  intros [Hc He]. split; simpl; [by apply map_Forall_delete|].
  apply map_Forall_fmap. intros i e Hi. simpl. pose proof (He i e Hi). destruct (decide _); auto.
Qed.

Context (r : Request) (pk : string) (partial : bool).

Lemma event_create_columns db d :
  columns_ok Pc Pe db → columns_ok Pc Pe (EventViewSet.create r db d).2.
Proof.
  intros Hb. unfold EventViewSet.create.
  destruct (_ ≫= _) as [user|] eqn:Hchk; [|done]. simpl_res.
  destruct (DB.insert_event _ db) as [[k db']|] eqn:Hins; [|done].
  eapply insert_event_columns; [done|done|]. apply Pe_create with db. by case_bool_decide.
Qed.

Lemma event_update_columns db d :
  columns_ok Pc Pe db → columns_ok Pc Pe (EventViewSet.update r db pk partial d).2.
Proof.
  intros Hb. unfold EventViewSet.update.
  destruct (_ ≫= _) as [[epk e]|] eqn:Hchk; [|done]. simpl_res.
  destruct (DB.update_event _ _ db) as [db'|] eqn:Hup; [|done].
  eapply update_event_columns; [done|done|].
  apply Pe_update with db partial; [by case_bool_decide|].
  apply (proj2 Hb epk). by eapply get_object_event.
Qed.

Lemma event_destroy_columns db :
  columns_ok Pc Pe db → columns_ok Pc Pe (EventViewSet.destroy r db pk).2.
Proof.
  intros Hb. unfold EventViewSet.destroy.
  destruct (_ ≫= _) as [[epk e]|]; [by apply delete_event_columns|done].
Qed.

Lemma register_columns db : columns_ok Pc Pe db → columns_ok Pc Pe (EventViewSet.register r db pk).2.
Proof.
  intros Hb. unfold EventViewSet.register.
  destruct (EventViewSet.register_check r db pk) as [[| |a]|]; simpl; try done.
  destruct (DB.insert_attendance a db) as [[apk db']|] eqn:Hins; [|done].
  apply insert_attendance_tables in Hins as [He Hc]. by eapply columns_tables.
Qed.

Lemma attendance_create_columns db d :
  columns_ok Pc Pe db → columns_ok Pc Pe (AttendanceViewSet.create r db d).2.
Proof.
  intros Hb. unfold AttendanceViewSet.create.
  destruct (_ ≫= _); [|done].
  destruct (DB.insert_attendance _ db) as [[apk db']|] eqn:Hins; [|done].
  apply insert_attendance_tables in Hins as [He Hc]. by eapply columns_tables.
Qed.

Lemma attendance_update_columns db d :
  columns_ok Pc Pe db → columns_ok Pc Pe (AttendanceViewSet.update r db pk partial d).2.
Proof.
  intros Hb. unfold AttendanceViewSet.update.
  destruct (_ ≫= _) as [[[apk a] v]|]; [|done].
  destruct (DB.update_attendance _ _ db) as [db'|] eqn:Hup; [|done].
  apply update_attendance_tables in Hup as [He Hc]. by eapply columns_tables.
Qed.

Lemma attendance_destroy_columns db :
  columns_ok Pc Pe db → columns_ok Pc Pe (AttendanceViewSet.destroy r db pk).2.
Proof.
  intros Hb. unfold AttendanceViewSet.destroy.
  destruct (_ ≫= _) as [[apk a]|]; [|done]. by eapply columns_tables.
Qed.

Lemma category_create_columns db d :
  columns_ok Pc Pe db → columns_ok Pc Pe (CategoryViewSet.create r db d).2.
Proof.
  intros [Hc He]. unfold CategoryViewSet.create.
  destruct (_ ≫= _) eqn:Hchk; [|done]. simpl_res. simpl.
  split; simpl; [|done]. apply map_Forall_insert_2; [|done].
  apply Pc_create. by case_bool_decide.
Qed.

Lemma category_update_columns db d :
  columns_ok Pc Pe db → columns_ok Pc Pe (CategoryViewSet.update r db pk partial d).2.
Proof.
  intros [Hc He]. unfold CategoryViewSet.update.
  destruct (_ ≫= _) as [[cpk c]|] eqn:Hchk; [|done]. simpl_res. simpl.
  split; simpl; [|done]. apply map_Forall_insert_2; [|done].
  apply Pc_update with partial; [by case_bool_decide|].
  apply (Hc cpk). eapply lookup_weaken; [by eapply get_object_lookup|apply search_filter_subseteq].
Qed.

Lemma category_destroy_columns db :
  columns_ok Pc Pe db → columns_ok Pc Pe (CategoryViewSet.destroy r db pk).2.
Proof.
  intros Hb. unfold CategoryViewSet.destroy.
  destruct (_ ≫= _) as [[cpk c]|]; [by apply delete_category_columns|done].
Qed.

End columns.

(** Any sequence of requests keeps a column invariant that the
    serializers' writes keep. *)
Lemma serve_columns Pc Pe reqs db :
  (∀ db d o now, EventInput.errors db false d = [] →
     Pe (EventInput.apply_to d o now (EventInput.defaults now))) →
  (∀ db partial d o now e, EventInput.errors db partial d = [] → Pe e →
     Pe (EventInput.apply_to d o now e)) →
  (∀ e, Pe e → Pe (Event.set_category None e)) →
  (∀ d, CategoryInput.errors false d = [] → Pc (CategoryInput.apply_to d CategoryInput.defaults)) →
  (∀ partial d c, CategoryInput.errors partial d = [] → Pc c → Pc (CategoryInput.apply_to d c)) →
  columns_ok Pc Pe db → columns_ok Pc Pe (serve db reqs).2.
Proof.
  intros ?????. apply serve_preserves; intros;
    eauto using event_create_columns, event_update_columns, event_destroy_columns,
      register_columns, attendance_create_columns, attendance_update_columns,
      attendance_destroy_columns, category_create_columns, category_update_columns,
      category_destroy_columns.
Qed.

(** C11 Any sequence of requests served by the router keeps every
    row within the column limits of models.py: category names within
    100 characters, event titles and locations within 200, and
    [max_attendees] at most 2147483647 (a [PositiveIntegerField]), which
    the database itself does not check. *)
Theorem serve_bounded reqs db : DB.bounded db → DB.bounded (serve db reqs).2.
Proof.
  apply (serve_columns Category.bounded Event.bounded).
  - intros. apply apply_to_bounded with db0 false; [done|apply defaults_bounded].
  - intros. eapply apply_to_bounded; eassumption.
  - by intros e (?&?&?).
  - intros. apply category_apply_to_bounded with false; [done|]. unfold Category.bounded. simpl. lia.
  - intros. eapply category_apply_to_bounded; eassumption.
Qed.

(** C12 Any sequence of requests served by the router keeps every
    text column a serializer writes stripped of surrounding whitespace,
    and the columns without [blank=True] (event title, description,
    location; category name) non-empty: [trim_whitespace] and the
    blank check run on every create, update and partial update. *)
Theorem serve_trimmed reqs db : db_trimmed db → db_trimmed (serve db reqs).2.
Proof.
  apply serve_columns.
  - intros. by eapply apply_to_trimmed.
  - intros. eapply apply_to_trimmed; eauto.
  - done.
  - intros d Hd. apply (category_apply_to_trimmed false); [done|discriminate|exact I].
  - intros partial d c Hd [??]. by apply (category_apply_to_trimmed partial).
Qed.

Lemma serve_bounded_witness :
  DB.bounded (serve (sample_db (Some 2) ∅)
                [(sample_request 2, "events/0/register/", sample_payload);
                 (sample_request 2, "events/0/", sample_payload);
                 (mkRequest (Some 1) DELETE [] 60, "categories/0/", sample_payload)]).2.
Proof. apply serve_bounded. apply (bool_decide_unpack _). vm_compute. reflexivity. Defined.

Lemma serve_trimmed_witness :
  db_trimmed (serve (sample_db (Some 2) ∅)
                [(sample_request 2, "events/0/register/", sample_payload);
                 (mkRequest (Some 1) DELETE [] 60, "categories/0/", sample_payload)]).2.
Proof. apply serve_trimmed. apply (bool_decide_unpack _). vm_compute. reflexivity. Defined.
