(* ===== verification/RoundTrip.v ===== *)
(** * RoundTrip: sending an event's representation back

    A client that edits an event typically [GET]s [/events/{pk}/],
    changes some keys of the JSON and sends it back.  This file shows
    what sending it back unchanged does.  [EventInput.of_representation]
    is the body the serializer reads from that JSON: its writable
    fields, without [organizer_id], which is write-only and so never in
    a representation.
    - [PATCH] ([partial=True]) with it validates and is the same request
      as [PATCH] with [{}]: the row is saved unchanged but for
      [updated_at] ([auto_now]), which becomes the time of the request
      ([event_patch_roundtrip]).  This needs the row to be one the
      serializers could have written: its text columns trimmed and not
      blank ([db_trimmed]), within their limits ([DB.bounded]), with
      its foreign keys valid ([DB.wf]); Integrity.v and Bounds.v show
      that every request keeps these.
    - [PUT] with it is refused: [organizer_id] is required
      ([event_put_roundtrip_refused]).
    The [image] column is restricted to [null]: a stored image is sent
    as a URL, which [ImageField] does not accept as an upload (uploads
    are not modelled). *)

From S2P Require Import Prelude PyStr Models Http Permissions Serializers Ordering Views Registration Routing Integrity Bounds.
From Stdlib Require Import Ascii String.

(** The caller of the concrete run: user 2, [PATCH] at time 300. *)
Definition patch_request (m : Method) : Request := mkRequest (Some 2) m [] 300.

(** ** The fields of a representation *)

Lemma to_representation_fields db pk e rep :
  EventSerializer.to_representation db pk e = Some rep →
  EventSerializer.title rep = Event.title e ∧ EventSerializer.description rep = Event.description e ∧
  EventSerializer.location rep = Event.location e ∧
  EventSerializer.start_date rep = Event.start_date e ∧ EventSerializer.end_date rep = Event.end_date e ∧
  EventSerializer.image rep = Event.image e ∧ EventSerializer.category rep = Event.category e ∧
  EventSerializer.status rep = Event.status_value (Event.status e) ∧
  EventSerializer.is_featured rep = Event.is_featured e ∧
  EventSerializer.max_attendees rep = Event.max_attendees e.
Proof.
  unfold EventSerializer.to_representation.
  destruct (DB.users db !! Event.organizer e); [|discriminate]. by intros [= <-].
Qed.

(** A stored text value passes its [CharField] again. *)
Lemma char_field_stored fname m partial s :
  text_ok s → from_option (λ n, String.length s ≤ n) True m →
  EventInput.char_field fname m partial (Some s) = [].
Proof.
  intros [Ht Hne] Hm. unfold EventInput.char_field. fold (EventInput.trimmed s). rewrite Ht.
  rewrite bool_decide_eq_false_2 by done.
  destruct m as [n|]; [by rewrite bool_decide_eq_true_2|done].
Qed.

(** The representation of a stored row validates, but for the missing
    [organizer_id], which only a [PATCH] may leave out. *)
Lemma of_representation_errors db partial epk e rep :
  DB.wf db → DB.bounded db → db_trimmed db → DB.events db !! epk = Some e →
  EventSerializer.to_representation db epk e = Some rep →
  EventInput.errors db partial (EventInput.of_representation rep) =
    if partial then [] else [("organizer_id", AttendanceSerializer.required_msg)].
Proof.
  intros Hwf [_ Hb] [_ Ht] He Hrep.
  destruct (Hb epk e He) as (Htl & Hll & Hm). destruct (Ht epk e He) as (Ht1 & Ht2 & Ht3).
  apply to_representation_fields in Hrep as (H1 & H2 & H3 & H4 & H5 & H6 & H7 & H8 & H9 & H10).
  pose proof (DB.wf_event_fk db Hwf epk e He) as Hfk.
  apply DB.event_fk_ok_iff in Hfk as [_ Hcat].
  unfold EventInput.errors, EventInput.of_representation. cbn [EventInput.title
    EventInput.description EventInput.location EventInput.start_date EventInput.end_date
    EventInput.organizer_id EventInput.category EventInput.status EventInput.max_attendees].
  rewrite H1, H2, H3, H7, H8, H10.
  rewrite !char_field_stored by done.
  assert (EventInput.category_field db (Some (Event.category e)) = []) as ->.
  { unfold EventInput.category_field, AttendanceSerializer.pk_field.
    destruct (Event.category e) as [c|]; [|done]. by rewrite bool_decide_eq_true_2 by auto. }
  assert (EventInput.status_field (Some (Event.status_value (Event.status e))) = []) as ->.
  { unfold EventInput.status_field. by rewrite (proj2 (status_of_value_Some _ (Event.status e))). }
  assert (EventInput.max_attendees_field (Some (Z.of_nat <$> Event.max_attendees e)) = []) as ->.
  { unfold EventInput.max_attendees_field. destruct (Event.max_attendees e) as [m|]; [|done].
    simpl. specialize (Hm m eq_refl). unfold EventInput.positive_integer_max.
    rewrite !bool_decide_eq_false_2 by lia. done. }
  by destruct partial.
Qed.

(** Saving the representation's fields over the row is a [touch]. *)
Lemma apply_to_of_representation db epk e rep now :
  db_trimmed db → DB.events db !! epk = Some e →
  EventSerializer.to_representation db epk e = Some rep →
  EventInput.apply_to (EventInput.of_representation rep) (Event.organizer e) now e = Event.touch now e.
Proof.
  intros [_ Ht] He Hrep. destruct (Ht epk e He) as ([Ht1 _] & [Ht2 _] & [Ht3 _]).
  apply to_representation_fields in Hrep as (H1 & H2 & H3 & H4 & H5 & H6 & H7 & H8 & H9 & H10).
  unfold EventInput.apply_to, EventInput.of_representation, Event.touch.
  cbn -[Event.status_of_value EventInput.trimmed Z.to_nat Z.of_nat].
  rewrite H1, H2, H3, H4, H5, H6, H7, H8, H9, H10, Ht1, Ht2, Ht3.
  rewrite (proj2 (status_of_value_Some _ (Event.status e))) by done. simpl.
  f_equal. destruct (Event.max_attendees e); simpl; [by rewrite Nat2Z.id|done].
Qed.

Lemma apply_to_empty e now :
  EventInput.apply_to EventInput.empty (Event.organizer e) now e = Event.touch now e.
Proof. by destruct e. Qed.

(** Two valid bodies that save the same row are the same update. *)
Lemma event_update_congr r db pk partial d1 d2 epk e :
  EventViewSet.get_object r db pk = Ok (epk, e) →
  EventInput.errors db partial d1 = [] → EventInput.errors db partial d2 = [] →
  EventInput.apply_to d1 (default (Event.organizer e) (EventInput.organizer_id d1)) (req_now r) e =
  EventInput.apply_to d2 (default (Event.organizer e) (EventInput.organizer_id d2)) (req_now r) e →
  EventViewSet.update r db pk partial d1 = EventViewSet.update r db pk partial d2.
Proof.
  intros Hg H1 H2 Heq. unfold EventViewSet.update.
  destruct (check_permissions _ r); [|done]. simpl. rewrite Hg. simpl.
  rewrite H1, H2, !bool_decide_eq_true_2 by done. simpl. by rewrite Heq.
Qed.

(** [PATCH] with [{}] by an authenticated caller saves the row touched. *)
Lemma event_patch_empty r db pk epk e :
  DB.wf db → is_authenticated r = true → EventViewSet.get_object r db pk = Ok (epk, e) →
  ∃ rep', EventViewSet.update r db pk true EventInput.empty =
    (Ok (HTTP_200_OK, EventBody rep'),
     DB.mk (DB.users db) (DB.categories db)
       (<[epk := Event.touch (req_now r) e]> (DB.events db))
       (DB.attendances db) (DB.seq_category db) (DB.seq_event db) (DB.seq_attendance db)).
Proof.
  intros Hwf Hauth Hg. pose proof (get_object_event _ _ _ _ _ Hg) as He.
  assert (DB.event_fk_ok db (Event.touch (req_now r) e) = true) as Hfk.
  { rewrite <- (DB.wf_event_fk db Hwf epk e He). by destruct e. }
  unfold EventViewSet.update.
  rewrite check_permissions_authenticated by done. simpl. rewrite Hg. simpl.
  rewrite apply_to_empty. unfold DB.update_event. rewrite Hfk. simpl.
  set (db' := DB.mk _ _ _ _ _ _ _).
  destruct (event_representation db' epk (Event.touch (req_now r) e)) as (rep & Hrep & _).
  { eapply DB.update_event_wf; [done|by eexists|]. unfold DB.update_event. by rewrite Hfk. }
  { apply lookup_insert_eq. }
  rewrite Hrep. simpl. by exists rep.
Qed.

(** C15 Round trip of an event through its representation: an
    authenticated [PATCH /events/{pk}/] whose body is the JSON a [GET]
    returned for the row (with no image) passes validation and is the
    same request as [PATCH] with [{}]: it answers 200 and stores the row
    unchanged but for [updated_at], set to the time of the request. *)
Theorem event_patch_roundtrip r db pk epk e rep :
  DB.wf db → DB.bounded db → db_trimmed db → is_authenticated r = true →
  EventViewSet.get_object r db pk = Ok (epk, e) →
  EventSerializer.to_representation db epk e = Some rep → Event.image e = None →
  EventViewSet.update r db pk true (EventInput.of_representation rep) =
    EventViewSet.update r db pk true EventInput.empty ∧
  ∃ rep', EventViewSet.update r db pk true EventInput.empty =
    (Ok (HTTP_200_OK, EventBody rep'),
     DB.mk (DB.users db) (DB.categories db)
       (<[epk := Event.touch (req_now r) e]> (DB.events db))
       (DB.attendances db) (DB.seq_category db) (DB.seq_event db) (DB.seq_attendance db)).
Proof.
  intros Hwf Hb Ht Hauth Hg Hrep _. pose proof (get_object_event _ _ _ _ _ Hg) as He.
  split; [|by apply event_patch_empty].
  apply (event_update_congr _ _ _ _ _ _ epk e); [done| |done|].
  - by rewrite (of_representation_errors db true epk e rep).
  - simpl. rewrite apply_to_empty. by eapply apply_to_of_representation.
Qed.

(** C28 [PUT /events/{pk}/] with the JSON a [GET] returned for the
    row is refused with 400 [{"organizer_id": ["This field is
    required."]}] and writes nothing: the representation cannot carry
    the write-only [organizer_id], which a full update requires. *)
Theorem event_put_roundtrip_refused r db pk epk e rep :
  DB.wf db → DB.bounded db → db_trimmed db → is_authenticated r = true →
  EventViewSet.get_object r db pk = Ok (epk, e) →
  EventSerializer.to_representation db epk e = Some rep →
  EventViewSet.update r db pk false (EventInput.of_representation rep) =
    (Err (FieldErrors [("organizer_id", AttendanceSerializer.required_msg)]), db).
Proof.
  intros Hwf Hb Ht Hauth Hg Hrep. pose proof (get_object_event _ _ _ _ _ Hg) as He.
  unfold EventViewSet.update.
  rewrite check_permissions_authenticated by done. simpl. rewrite Hg. simpl.
  by rewrite (of_representation_errors db false epk e rep).
Qed.

(** ** Witnesses *)

Lemma event_patch_roundtrip_witness :
  EventViewSet.update (patch_request PATCH) (sample_db (Some 2) ∅) "0" true
    (EventInput.of_representation
       (EventSerializer.mk 0 "Jazz night" "Live music" "Main hall" 100 200 1 1 None
          (UserSerializer.mk 1 "org" "org@example.org" "org" "org") None None "upcoming"
          false (Some 2) 0)) =
    EventViewSet.update (patch_request PATCH) (sample_db (Some 2) ∅) "0" true EventInput.empty ∧
  ∃ rep', EventViewSet.update (patch_request PATCH) (sample_db (Some 2) ∅) "0" true EventInput.empty =
    (Ok (HTTP_200_OK, EventBody rep'),
     DB.mk (DB.users (sample_db (Some 2) ∅)) (DB.categories (sample_db (Some 2) ∅))
       (<[0 := Event.touch (req_now (patch_request PATCH)) (sample_event (Some 2))]>
          (DB.events (sample_db (Some 2) ∅)))
       (DB.attendances (sample_db (Some 2) ∅)) (DB.seq_category (sample_db (Some 2) ∅))
       (DB.seq_event (sample_db (Some 2) ∅)) (DB.seq_attendance (sample_db (Some 2) ∅))).
Proof.
  apply (event_patch_roundtrip _ _ _ 0 (sample_event (Some 2)));
    [apply DB.wfb_sound; vm_compute; reflexivity
    |apply (bool_decide_unpack _); vm_compute; reflexivity
    |apply (bool_decide_unpack _); vm_compute; reflexivity
    |reflexivity|reflexivity|reflexivity|reflexivity].
Defined.

Lemma event_put_roundtrip_refused_witness :
  EventViewSet.update (patch_request PUT) (sample_db (Some 2) ∅) "0" false
    (EventInput.of_representation
       (EventSerializer.mk 0 "Jazz night" "Live music" "Main hall" 100 200 1 1 None
          (UserSerializer.mk 1 "org" "org@example.org" "org" "org") None None "upcoming"
          false (Some 2) 0)) =
    (Err (FieldErrors [("organizer_id", AttendanceSerializer.required_msg)]), sample_db (Some 2) ∅).
Proof.
  apply (event_put_roundtrip_refused _ _ _ 0 (sample_event (Some 2)));
    [apply DB.wfb_sound; vm_compute; reflexivity
    |apply (bool_decide_unpack _); vm_compute; reflexivity
    |apply (bool_decide_unpack _); vm_compute; reflexivity
    |reflexivity|reflexivity|reflexivity].
Defined.
