(* ===== verification/Ownership.v ===== *)
(** * Ownership: whose rows a caller can change

    views.py restricts attendance rows by owner only through
    [AttendanceViewSet.get_queryset]: a non-staff caller's query set is
    their own rows, and [get_object] looks the [pk] up in it.  So the
    generic [PUT]/[PATCH]/[DELETE /attendances/{pk}/] of a non-staff
    caller leave every row of another user as it was
    ([attendance_writes_own_rows]).  Events have no such restriction:
    [EventViewSet] uses [IsAuthenticatedOrReadOnly] and the unfiltered
    query set, so any authenticated caller, organizer or not, deletes
    any event, and with it ([on_delete=CASCADE]) every user's
    registration for it ([event_destroy_any_caller]), and any category,
    whose events then lose their category ([on_delete=SET_NULL];
    [category_destroy_any_caller]). *)

From S2P Require Import Prelude PyStr Models Http Permissions Serializers Ordering Views Registration Routing Integrity Endpoints.
From Stdlib Require Import Ascii String.

(** ** Fixtures of the concrete runs *)

(** User 2 is not staff and holds row 0; user 3 holds row 1.  User 2
    updates, then deletes, row 0; row 1 stays. *)
Definition two_rows : gmap nat Attendance.t :=
  {[0 := Attendance.mk 0 2 Attendance.registered 10; 1 := Attendance.mk 0 3 Attendance.registered 11]}.

(** Category 0, holding event 0 of user 1, deleted by user 3. *)
Definition categorised_db : DB.t :=
  DB.mk (DB.users (sample_db (Some 2) ∅)) {[0 := Category.mk "Music" None]}
        {[0 := Event.mk "Jazz night" "Live music" "Main hall" 100 200 1 1 None 1 (Some 0)
                 Event.upcoming false (Some 2)]} ∅ 1 1 0.

(** ** Lookups in a non-staff caller's query set *)

Lemma attendance_get_object_own db u pk apk a :
  staff db u = false →
  Views.get_object (AttendanceViewSet.get_queryset db u) pk = Ok (apk, a) →
  DB.attendances db !! apk = Some a ∧ Attendance.user a = u.
Proof.
  intros Hs Hg. apply get_object_lookup in Hg.
  apply attendance_queryset_lookup in Hg as [Hk [Hst|Hu]]; [congruence|done].
Qed.

(** A row of another user is not the one a non-staff caller's
    [get_object] finds. *)
Lemma attendance_get_object_other db u pk apk a0 k a :
  staff db u = false →
  Views.get_object (AttendanceViewSet.get_queryset db u) pk = Ok (apk, a0) →
  DB.attendances db !! k = Some a → Attendance.user a ≠ u → k ≠ apk.
Proof.
  intros Hs Hg Hk Hu ->. destruct (attendance_get_object_own db u pk apk a0 Hs Hg) as [Ha Hu0].
  congruence.
Qed.

(** ** The handlers *)

Lemma attendance_update_other r db pk partial d u k a :
  req_user r = Some u → staff db u = false →
  DB.attendances db !! k = Some a → Attendance.user a ≠ u →
  DB.attendances (AttendanceViewSet.update r db pk partial d).2 !! k = Some a.
Proof.
  intros Hr Hs Hk Hu. unfold AttendanceViewSet.update.
  destruct (check_permissions _ r); [|done]. simpl. unfold request_user. rewrite Hr. simpl.
  destruct (Views.get_object _ pk) as [[apk b]|] eqn:Hg; [|done]. simpl.
  destruct (AttendanceSerializer.validate _ _ _ _); [|done]. simpl.
  destruct (DB.update_attendance _ _ db) as [db'|] eqn:Hup; [|done]. simpl.
  unfold DB.update_attendance in Hup. simpl_res. simpl.
  rewrite lookup_insert_ne; [done|]. symmetry. by eapply attendance_get_object_other.
Qed.

Lemma attendance_destroy_other r db pk u k a :
  req_user r = Some u → staff db u = false →
  DB.attendances db !! k = Some a → Attendance.user a ≠ u →
  DB.attendances (AttendanceViewSet.destroy r db pk).2 !! k = Some a.
Proof.
  intros Hr Hs Hk Hu. unfold AttendanceViewSet.destroy.
  destruct (check_permissions _ r); [|done]. simpl. unfold request_user. rewrite Hr. simpl.
  destruct (Views.get_object _ pk) as [[apk b]|] eqn:Hg; [|done]. simpl.
  rewrite lookup_delete_ne; [done|]. symmetry. by eapply attendance_get_object_other.
Qed.

(** C17 A non-staff caller's [PUT], [PATCH] and [DELETE] on
    [/attendances/{pk}/] never change or delete a row of another user:
    whatever the [pk] and the body, every attendance row whose user is
    not the caller is, after the request, as it was. *)
Theorem attendance_writes_own_rows r db pk partial d u k a :
  req_user r = Some u → staff db u = false →
  DB.attendances db !! k = Some a → Attendance.user a ≠ u →
  DB.attendances (AttendanceViewSet.update r db pk partial d).2 !! k = Some a ∧
  DB.attendances (AttendanceViewSet.destroy r db pk).2 !! k = Some a.
Proof. intros. split; [by eapply attendance_update_other|by eapply attendance_destroy_other]. Qed.

(** C26 [DELETE /events/{pk}/] is open to every authenticated
    caller, not only the organizer: it answers 204, deletes the event
    and, by [on_delete=CASCADE], every attendance row of it, whoever
    registered. *)
Theorem event_destroy_any_caller r db pk epk e :
  is_authenticated r = true → EventViewSet.get_object r db pk = Ok (epk, e) →
  EventViewSet.destroy r db pk = (Ok (HTTP_204_NO_CONTENT, NoContent), DB.delete_event epk db) ∧
  DB.events (DB.delete_event epk db) !! epk = None ∧
  ∀ k a, DB.attendances (DB.delete_event epk db) !! k = Some a ↔
         DB.attendances db !! k = Some a ∧ Attendance.event a ≠ epk.
Proof.
  intros Hauth Hg. split_and!.
  - unfold EventViewSet.destroy. rewrite check_permissions_authenticated by done.
    simpl. by rewrite Hg.
  - apply lookup_delete_eq.
  - intros k a. simpl. by rewrite map_lookup_filter_Some.
Qed.

(** C14 [DELETE /categories/{pk}/] is open to every authenticated
    caller: it answers 204 and deletes the category, and by
    [on_delete=SET_NULL] no event is deleted: every event that was in
    the category, whoever organizes it, is kept with [category = NULL]
    and its other columns unchanged. *)
Theorem category_destroy_any_caller r db pk cpk c :
  is_authenticated r = true →
  Views.get_object (CategoryViewSet.filter_queryset r (CategoryViewSet.get_queryset db)) pk =
    Ok (cpk, c) →
  CategoryViewSet.destroy r db pk = (Ok (HTTP_204_NO_CONTENT, NoContent), DB.delete_category cpk db) ∧
  DB.categories (DB.delete_category cpk db) !! cpk = None ∧
  ∀ i e, DB.events db !! i = Some e →
    DB.events (DB.delete_category cpk db) !! i =
      Some (if decide (Event.category e = Some cpk) then Event.set_category None e else e).
Proof.
  intros Hauth Hg. split_and!.
  - unfold CategoryViewSet.destroy. rewrite check_permissions_authenticated by done.
    simpl. by rewrite Hg.
  - apply lookup_delete_eq.
  - intros i e He. simpl. by rewrite lookup_fmap, He.
Qed.

(** ** Witnesses *)

Lemma attendance_writes_own_rows_witness :
  DB.attendances (AttendanceViewSet.update (sample_request 2) (sample_db (Some 2) two_rows) "0"
                    true (AttendanceSerializer.mkInput None (Some 2) None)).2 !! 1 =
    Some (Attendance.mk 0 3 Attendance.registered 11) ∧
  DB.attendances (AttendanceViewSet.destroy (sample_request 2) (sample_db (Some 2) two_rows) "0").2 !! 1 =
    Some (Attendance.mk 0 3 Attendance.registered 11).
Proof. apply (attendance_writes_own_rows _ _ _ _ _ 2); [reflexivity|reflexivity|reflexivity|done]. Defined.

Lemma event_destroy_any_caller_witness :
  EventViewSet.destroy (sample_request 3) (sample_db (Some 2) two_rows) "0" =
    (Ok (HTTP_204_NO_CONTENT, NoContent), DB.delete_event 0 (sample_db (Some 2) two_rows)) ∧
  DB.events (DB.delete_event 0 (sample_db (Some 2) two_rows)) !! 0 = None ∧
  ∀ k a, DB.attendances (DB.delete_event 0 (sample_db (Some 2) two_rows)) !! k = Some a ↔
         DB.attendances (sample_db (Some 2) two_rows) !! k = Some a ∧ Attendance.event a ≠ 0.
Proof. apply (event_destroy_any_caller _ _ _ _ (sample_event (Some 2))); reflexivity. Defined.

Lemma category_destroy_any_caller_witness :
  CategoryViewSet.destroy (sample_request 3) categorised_db "0" =
    (Ok (HTTP_204_NO_CONTENT, NoContent), DB.delete_category 0 categorised_db) ∧
  DB.categories (DB.delete_category 0 categorised_db) !! 0 = None ∧
  ∀ i e, DB.events categorised_db !! i = Some e →
    DB.events (DB.delete_category 0 categorised_db) !! i =
      Some (if decide (Event.category e = Some 0) then Event.set_category None e else e).
Proof. apply (category_destroy_any_caller _ _ _ _ (Category.mk "Music" None)); reflexivity. Defined.
